(** * Y-Balance game: the sensor feed and the balance state machine

    A shallow embedding of [sensors.py] (class [LaserArray]) and of the game
    logic of [main.py] ([reset_game], [apply_chart_values], [draw_game] and
    the game branch of the main loop), with the properties the specification
    states about them.

    Python's [float] is IEEE 754 binary64, which is what Rocq's primitive
    [float] is, so distances, times and configuration values are primitive
    floats and every comparison is the one the source writes.  Python's
    [dict] is a [gmap] with string keys, its lists are lists read with [!!]
    and written with a checked update, and an exception is [None] in
    [option].  Values returned by [time.time()], [random.random()] and the
    serial port are inputs of the functions that use them.  Rendering
    (surfaces, images, fonts, confetti) is left out. *)

From Stdlib Require Import Floats ZArith Ascii String.
#[local] Set Warnings "-inexact-float".
From stdpp Require Import base option list strings pretty gmap.

Local Open Scope Z_scope.

(** ** Python built-ins used by the two files *)

Module Py.

(** [max(a, b)]: the second argument wins only when it is greater. *)
Definition max (a b : float) : float := if PrimFloat.ltb a b then b else a.

(** [min(a, b)]: the second argument wins only when it is smaller. *)
Definition min (a b : float) : float := if PrimFloat.ltb b a then b else a.

(** Truth value of a float: everything but zero (NaN included). *)
Definition truthy (x : float) : bool := negb (PrimFloat.eqb x 0%float).

(** [a / b] raises [ZeroDivisionError] when [b] is zero. *)
Definition div (a b : float) : option float :=
  if PrimFloat.eqb b 0%float then None else Some (a / b)%float.

(** [int(x)]: truncation towards zero; NaN and the infinities raise. *)
Definition int (x : float) : option Z :=
  match Prim2SF x with
  | S754_zero _ => Some 0
  | S754_finite s m e =>
      let v := if 0 <=? e then Z.pos m * 2 ^ e else Z.pos m / 2 ^ (- e) in
      Some (if s then - v else v)
  | S754_infinity _ | S754_nan => None
  end.

(** [random.uniform(a, b)] is [a + (b - a) * random.random()]. *)
Definition uniform (a b r : float) : float := (a + (b - a) * r)%float.

(** [str.isspace] on the ASCII range: TAB, LF, VT, FF, CR, FS, GS, RS,
    US and the space. *)
Definition isspace (c : ascii) : bool :=
  let n := nat_of_ascii c in
  ((9 <=? n) && (n <=? 13) || (28 <=? n) && (n <=? 32))%nat.

Fixpoint lstrip (s : string) : string :=
  match s with
  | String c s' => if isspace c then lstrip s' else s
  | EmptyString => EmptyString
  end.

Definition rstrip (s : string) : string := String.rev (lstrip (String.rev s)).

(** [s.strip()] *)
Definition strip (s : string) : string := rstrip (lstrip s).

(** [raw.decode("ascii", errors="ignore")]: bytes above 127 are dropped. *)
Fixpoint decode_ascii (raw : string) : string :=
  match raw with
  | String c s' =>
      if (nat_of_ascii c <? 128)%nat then String c (decode_ascii s')
      else decode_ascii s'
  | EmptyString => EmptyString
  end.

(** [line.split(",", 1)] when ["," in line], [None] when there is no comma:
    the text before the first comma and the text after it. *)
Fixpoint split_comma (s : string) : option (string * string) :=
  match s with
  | EmptyString => None
  | String c s' =>
      if Ascii.eqb c "," then Some (EmptyString, s')
      else match split_comma s' with
           | Some (a, b) => Some (String c a, b)
           | None => None
           end
  end.

(** [d.get(k)] on a dict whose values may be [None]. *)
Definition get (d : gmap string (option float)) (k : string) : option float :=
  d !! k ≫= id.

(** [s[:-1]] *)
Fixpoint drop_last (s : string) : string :=
  match s with
  | EmptyString => EmptyString
  | String c EmptyString => EmptyString
  | String c s' => String c (drop_last s')
  end.

(** [c in s] for a one-character [c]. *)
Fixpoint contains (c : ascii) (s : string) : bool :=
  match s with
  | EmptyString => false
  | String d s' => Ascii.eqb c d || contains c s'
  end.

(** [s.isdigit()] on ASCII text: not empty, and digits only. *)
Fixpoint all_digits (s : string) : bool :=
  match s with
  | EmptyString => true
  | String c s' =>
      let k := nat_of_ascii c in
      ((48 <=? k) && (k <=? 57))%nat && all_digits s'
  end.
Definition isdigit (s : string) : bool :=
  negb (String.eqb s "") && all_digits s.

(** [l[i]]: raises [IndexError] out of range. *)
Definition getitem {A} (l : list A) (i : nat) : option A := l !! i.

(** [l[i] = v]: raises [IndexError] out of range. *)
Definition setitem {A} (l : list A) (i : nat) (v : A) : option (list A) :=
  if decide (i < length l)%nat then Some (<[i:=v]> l) else None.

(** A decimal literal, as an instance of [float(s)] to run the examples on:
    an optional minus sign, digits, an optional point, digits, with at
    least one and at most fifteen digits.  On these, mantissa and power of
    ten are exact floats and one division rounds as Python does.  Every
    other string is outside this instance; no theorem depends on it. *)
Fixpoint digits (s : string) (acc : Z) (n : nat) : option (Z * nat) :=
  match s with
  | EmptyString => Some (acc, n)
  | String c s' =>
      let k := nat_of_ascii c in
      if ((48 <=? k) && (k <=? 57))%nat
      then digits s' (10 * acc + Z.of_nat (k - 48)) (S n)
      else None
  end.

Definition float_of_Z (z : Z) : float := PrimFloat.of_uint63 (Uint63.of_Z z).

Fixpoint split_point (s : string) : string * string :=
  match s with
  | EmptyString => (EmptyString, EmptyString)
  | String c s' =>
      if Ascii.eqb c "." then (EmptyString, s')
      else let '(a, b) := split_point s' in (String c a, b)
  end.

Definition float_of_decimal (s : string) : option float :=
  let '(neg, body) :=
    match s with
    | String "-" r => (true, r)
    | _ => (false, s)
    end in
  let '(ip, fp) := split_point body in
  '(m1, n1) ← digits ip 0 0%nat;
  '(m, n) ← digits fp m1 n1;
  if ((1 <=? n) && (n <=? 15))%nat
  then let x := (float_of_Z m / float_of_Z (10 ^ Z.of_nat (String.length fp)))%float in
       Some (if neg then (- x)%float else x)
  else None.

(** [str(n)] for an integer [n]: CPython (3.11 and later, as configured by
    default) turns an integer into at most [int_max_str_digits] decimal
    digits and raises [ValueError] for a longer one. *)
Definition int_max_str_digits : Z := 4300.

Definition str (n : Z) : option string :=
  if Z.abs n <? 10 ^ int_max_str_digits then Some (pretty n) else None.

End Py.

(** ** sensors.py: class LaserArray *)

(** The two dictionaries of a [LaserArray]; the serial port is the source of
    the lines the reader receives. *)
Record LaserArray := {
  dist : gmap string (option float);
  last_update : gmap string (option float)
}.

(** What one pass of the reader loop gets from [self.ser.readline()]: the
    bytes of a line (empty on a timeout), with the value [time.time()] has
    when line 61 asks for it, or a [SerialException]. *)
Inductive Readline :=
  | Line (raw : string) (now : float)
  | SerialException.

Module Sensors.

(** [__init__], lines 32-33. *)
Definition init : LaserArray :=
  {| dist := {[ "1" := None; "2" := None; "3" := None ]};
     last_update := {[ "1" := None; "2" := None; "3" := None ]} |}.

(** Lines 74-78 of [read_distance], once [val] and [last] are loaded;
    [now] is the value of [time.time()] at line 75. *)
Definition fresh (val last : option float) (timeout now : float)
  : option float :=
  match val, last with
  | Some _, Some l =>
      if PrimFloat.ltb timeout (now - l)%float then None else val
  | _, _ => val
  end.

(** [read_distance], lines 71-78, on an index for which [str] of line 71
    returns: the decimal form of [idx + 1] and the two loads. *)
Definition read_distance (L : LaserArray) (idx : Z) (timeout now : float)
  : option float :=
  let sid := pretty (idx + 1) in
  let val := Py.get (dist L) sid in
  let last := Py.get (last_update L) sid in
  fresh val last timeout now.

(** A call of [read_distance] on any integer: [None] when [str(idx+1)] of
    line 71 raises, and what lines 72-78 return otherwise. *)
Definition call_read_distance (L : LaserArray) (idx : Z) (timeout now : float)
  : option (option float) :=
  sid ← Py.str (idx + 1);
  Some (fresh (Py.get (dist L) sid) (Py.get (last_update L) sid) timeout now).

(** The default of the [timeout] argument. *)
Definition default_timeout : float := 2%float.

Section Reader.

(** [float(val)] of Python, [None] for [ValueError]. *)
Variable py_float : string -> option float.

(** Lines 54-57: the line as decoded and stripped, split at its first
    comma; [None] when the loop moves on at line 56. *)
Definition parse_line (raw : string) : option (string * string) :=
  let line := Py.strip (Py.decode_ascii raw) in
  if String.eqb line "" then None else Py.split_comma line.

(** One pass of the loop of [_reader], lines 49-63. *)
Definition reader_step (r : Readline) (L : LaserArray) : LaserArray :=
  match r with
  | SerialException => L
  | Line raw now =>
      match parse_line raw with
      | None => L
      | Some (sid, val) =>
          match py_float val with
          | None => L
          | Some cm =>
              {| dist := <[sid := Some (cm * 10)%float]> (dist L);
                 last_update := <[sid := Some now]> (last_update L) |}
          end
      end
  end.

(** The feed after the reader has gone through [rs], oldest first. *)
Definition reader_run (rs : list Readline) (L : LaserArray) : LaserArray :=
  foldl (fun L r => reader_step r L) L rs.

(** A line the reader stores: it has a comma and its value parses. *)
Definition stored_as (raw : string) (sid : string) (cm : float) : Prop :=
  exists val, parse_line raw = Some (sid, val) /\ py_float val = Some cm.

(** A pass of the loop that stores something under [sid]. *)
Definition writes (r : Readline) (sid : string) : Prop :=
  match r with
  | Line raw _ => exists cm, stored_as raw sid cm
  | SerialException => False
  end.

(** A malformed line: no comma (or nothing at all), a value that is not
    a number, or an id that is none of the three sensors. *)
Definition malformed (raw : string) : Prop :=
  match parse_line raw with
  | None => True
  | Some (sid, val) =>
      py_float val = None \/ (sid <> "1" /\ sid <> "2" /\ sid <> "3")
  end.

(** A pass of the loop that stores nothing, or stores under the id of
    one of the three sensors. *)
Definition known_id (r : Readline) : Prop :=
  forall sid, writes r sid -> sid = "1" \/ sid = "2" \/ sid = "3".

End Reader.

End Sensors.

(** ** main.py: globals *)

Inductive Mode := chart | game.

(** The globals [reset_game] assigns (line 100). *)
Record Round := {
  stage : Z;
  targets : list float;
  unlocked : list bool;
  lock_start : list (option float);
  locked_dist : list (option float);
  timer_start : option float;
  elapsed_time : float;
  score : Z;
  final_beat : bool
}.

(** The globals [apply_chart_values] assigns (line 117).  [TOLERANCE],
    [HOLD_TIME] and [DIFFICULTY] are bound by its first successful run; the
    model starts after it. *)
Record Config := {
  max_mm : float;
  TOLERANCE : float;
  HOLD_TIME : float;
  DIFFICULTY : float;
  PX_PER_MM : float
}.

Record Globals := {
  round : Round;
  config : Config;
  smooth_mm : list float;
  sensors_enabled : list bool;
  mode : Mode;
  values : list string;
  active : Z;
  timer_end : option float
}.

(** What one call of [draw_game] takes from outside: the frame time [dt],
    and for sensor [i] the state of the feed when [read_distance(i)] runs,
    the value of [time.time()] inside it, and the value of [time.time()] at
    line 179 or 180. *)
Record Frame := {
  dt : float;
  feed : nat -> LaserArray;
  t_read : nat -> float;
  t_hold : nat -> float
}.

Inductive KeyCode :=
  K_TAB | K_UP | K_DOWN | K_RETURN | K_BACKSPACE | K_1 | K_2 | K_3 | K_r | K_other.

(** A [KEYDOWN] event: its key and its [unicode] text. *)
Record KeyDown := { key : KeyCode; unicode : string }.

Module Main.

Definition USER_ANGLES : list Z := [0; 135; 225].
Definition dirs : list string := ["forward"; "lateral"; "crossed"].
Definition labels : list string :=
  ["Rod Length (mm):"; "Tolerance (mm):"; "Hold Time (s):"; "Difficulty (%):"].
Definition alpha : float := 10%float.
Definition max_stage : Z := 3.

(** *** Assignments to single globals *)

Definition set_round (r : Round) (g : Globals) : Globals :=
  {| round := r; config := config g; smooth_mm := smooth_mm g;
     sensors_enabled := sensors_enabled g; mode := mode g;
     values := values g; active := active g; timer_end := timer_end g |}.

Definition set_config (c : Config) (g : Globals) : Globals :=
  {| round := round g; config := c; smooth_mm := smooth_mm g;
     sensors_enabled := sensors_enabled g; mode := mode g;
     values := values g; active := active g; timer_end := timer_end g |}.

Definition set_smooth_mm (l : list float) (g : Globals) : Globals :=
  {| round := round g; config := config g; smooth_mm := l;
     sensors_enabled := sensors_enabled g; mode := mode g;
     values := values g; active := active g; timer_end := timer_end g |}.

Definition set_sensors_enabled (l : list bool) (g : Globals) : Globals :=
  {| round := round g; config := config g; smooth_mm := smooth_mm g;
     sensors_enabled := l; mode := mode g;
     values := values g; active := active g; timer_end := timer_end g |}.

Definition set_mode (m : Mode) (g : Globals) : Globals :=
  {| round := round g; config := config g; smooth_mm := smooth_mm g;
     sensors_enabled := sensors_enabled g; mode := m;
     values := values g; active := active g; timer_end := timer_end g |}.

Definition set_values (l : list string) (g : Globals) : Globals :=
  {| round := round g; config := config g; smooth_mm := smooth_mm g;
     sensors_enabled := sensors_enabled g; mode := mode g;
     values := l; active := active g; timer_end := timer_end g |}.

Definition set_active (a : Z) (g : Globals) : Globals :=
  {| round := round g; config := config g; smooth_mm := smooth_mm g;
     sensors_enabled := sensors_enabled g; mode := mode g;
     values := values g; active := a; timer_end := timer_end g |}.

Definition set_timer_end (t : option float) (g : Globals) : Globals :=
  {| round := round g; config := config g; smooth_mm := smooth_mm g;
     sensors_enabled := sensors_enabled g; mode := mode g;
     values := values g; active := active g; timer_end := t |}.

Definition set_stage (n : Z) (r : Round) : Round :=
  {| stage := n; targets := targets r; unlocked := unlocked r;
     lock_start := lock_start r; locked_dist := locked_dist r;
     timer_start := timer_start r; elapsed_time := elapsed_time r;
     score := score r; final_beat := final_beat r |}.

Definition set_unlocked (l : list bool) (r : Round) : Round :=
  {| stage := stage r; targets := targets r; unlocked := l;
     lock_start := lock_start r; locked_dist := locked_dist r;
     timer_start := timer_start r; elapsed_time := elapsed_time r;
     score := score r; final_beat := final_beat r |}.

Definition set_lock_start (l : list (option float)) (r : Round) : Round :=
  {| stage := stage r; targets := targets r; unlocked := unlocked r;
     lock_start := l; locked_dist := locked_dist r;
     timer_start := timer_start r; elapsed_time := elapsed_time r;
     score := score r; final_beat := final_beat r |}.

Definition set_locked_dist (l : list (option float)) (r : Round) : Round :=
  {| stage := stage r; targets := targets r; unlocked := unlocked r;
     lock_start := lock_start r; locked_dist := l;
     timer_start := timer_start r; elapsed_time := elapsed_time r;
     score := score r; final_beat := final_beat r |}.

Definition set_final_beat (b : bool) (r : Round) : Round :=
  {| stage := stage r; targets := targets r; unlocked := unlocked r;
     lock_start := lock_start r; locked_dist := locked_dist r;
     timer_start := timer_start r; elapsed_time := elapsed_time r;
     score := score r; final_beat := b |}.

Definition set_elapsed_time (x : float) (r : Round) : Round :=
  {| stage := stage r; targets := targets r; unlocked := unlocked r;
     lock_start := lock_start r; locked_dist := locked_dist r;
     timer_start := timer_start r; elapsed_time := x;
     score := score r; final_beat := final_beat r |}.

Definition set_score (n : Z) (r : Round) : Round :=
  {| stage := stage r; targets := targets r; unlocked := unlocked r;
     lock_start := lock_start r; locked_dist := locked_dist r;
     timer_start := timer_start r; elapsed_time := elapsed_time r;
     score := n; final_beat := final_beat r |}.

(** *** reset_game, lines 99-110

    [now] is the value of [time.time()] at line 106, asked for only when
    [start_timer] holds; [rnd k] is the value of the [k]-th call of
    [random.random()] made by line 102.  [smooth_mm] is not among the
    globals of line 100 and no line assigns it here.  Line 110,
    [confetti.clear()], is not modelled: these are the globals when line
    110 is reached, and [main.py] defines no [confetti], so that a call
    goes on past line 110 only where that name is supplied. *)
Definition reset_game (stage_val : Z) (start_timer : bool)
    (now : float) (rnd : nat -> float) (g : Globals) : Globals :=
  set_round
    {| stage := stage_val;
       targets :=
         imap (fun k _ => Py.uniform 0%float (max_mm (config g)) (rnd k)) dirs;
       unlocked := replicate 3 false;
       lock_start := replicate 3 None;
       locked_dist := replicate 3 None;
       timer_start := if start_timer then Some now else None;
       elapsed_time := 0%float;
       score := 0;
       final_beat := false |}
    g.

(** *** draw_game, lines 166-186 *)

(** Line 175; the integer [0] of the source is the float zero. *)
Definition clamp (raw_mm : float) (g : Globals) : float :=
  Py.min (Py.max raw_mm 0%float) (max_mm (config g)).

(** Line 178 for a clamped reading and a target. *)
Definition in_tolerance (g : Globals) (raw_mm target : float) : bool :=
  PrimFloat.leb (PrimFloat.abs (raw_mm - target)%float) (TOLERANCE (config g)).

(** Lines 177-181, for a sensor that is not unlocked. *)
Definition hold (f : Frame) (i : nat) (raw_mm : float) (g : Globals)
  : option Globals :=
  target ← Py.getitem (targets (round g)) i;
  if in_tolerance g raw_mm target then
    ls ← Py.getitem (lock_start (round g)) i;
    match ls with
    | None =>
        l ← Py.setitem (lock_start (round g)) i (Some (t_hold f i));
        Some (set_round (set_lock_start l (round g)) g)
    | Some t0 =>
        if PrimFloat.leb (HOLD_TIME (config g)) (t_hold f i - t0)%float then
          l ← Py.setitem (unlocked (round g)) i true;
          Some (set_round (set_unlocked l (round g)) g)
        else Some g
    end
  else
    l ← Py.setitem (lock_start (round g)) i None;
    Some (set_round (set_lock_start l (round g)) g).

(** Line 183. *)
Definition freeze (i : nat) (raw_mm : float) (g : Globals) : option Globals :=
  u ← Py.getitem (unlocked (round g)) i;
  if u : bool then
    ld ← Py.getitem (locked_dist (round g)) i;
    match ld with
    | None =>
        l ← Py.setitem (locked_dist (round g)) i (Some raw_mm);
        Some (set_round (set_locked_dist l (round g)) g)
    | Some _ => Some g
    end
  else Some g.

(** Lines 184-185: the values handed to the renderer; [display_mm] may
    be [None], which line 136 draws at the origin. *)
Definition display (i : nat) (g : Globals)
  : option (option float * float * bool) :=
  u ← Py.getitem (unlocked (round g)) i;
  display_mm ← (if u : bool then Py.getitem (locked_dist (round g)) i
                else Some <$> Py.getitem (smooth_mm g) i);
  target ← Py.getitem (targets (round g)) i;
  Some (display_mm, target, u).

(** [lasers.read_distance(i)] of line 173 in frame [f]. *)
Definition reading (f : Frame) (i : nat) : option float :=
  Sensors.read_distance (feed f i) (Z.of_nat i)
    Sensors.default_timeout (t_read f i).

(** The body of the loop of line 171 for sensor [i]; the first component
    of the result is the new value of [all_unlocked].  Of line 185 only the
    arguments handed to [draw_target_and_slider] are computed: the drawing
    itself is not modelled, and its [int(...)] of lines 135 and 140 raises
    on a value that is not finite, so the source can raise in a frame for
    which this function returns. *)
Definition sensor (f : Frame) (i : nat) (all_unlocked : bool) (g : Globals)
  : option (bool * Globals) :=
  en ← Py.getitem (sensors_enabled g) i;
  if negb en then Some (false, g) else
  match reading f i with
  | None => Some (false, g)
  | Some raw =>
      let raw_mm := clamp raw g in
      s ← Py.getitem (smooth_mm g) i;
      l ← Py.setitem (smooth_mm g) i
            (s + (raw_mm - s) * Py.min 1 (alpha * dt f))%float;
      let g := set_smooth_mm l g in
      u ← Py.getitem (unlocked (round g)) i;
      g ← (if negb u then hold f i raw_mm g else Some g);
      u ← Py.getitem (unlocked (round g)) i;
      let all_unlocked := if negb u then false else all_unlocked in
      g ← freeze i raw_mm g;
      shown ← display i g;
      Some (all_unlocked, g)
  end.

Fixpoint sensors (f : Frame) (todo : list nat) (all_unlocked : bool)
    (g : Globals) : option (bool * Globals) :=
  match todo with
  | [] => Some (all_unlocked, g)
  | i :: todo =>
      '(all_unlocked, g) ← sensor f i all_unlocked g;
      sensors f todo all_unlocked g
  end.

Definition draw_game (f : Frame) (g : Globals) : option (bool * Globals) :=
  sensors f (seq 0 (length USER_ANGLES)) true g.

(** *** The game branch of the main loop, lines 211-224 *)

(** Lines 221-224; [now] is the value of [time.time()] at line 222. *)
Definition finish (now : float) (g : Globals) : option Globals :=
  let g := set_round (set_final_beat true (round g)) g in
  let g := set_timer_end (Some now) g in
  let elapsed :=
    match timer_start (round g) with
    | Some t0 => if Py.truthy t0 then (now - t0)%float else 0%float
    | None => 0%float
    end in
  let g := set_round (set_elapsed_time elapsed (round g)) g in
  q ← Py.div (DIFFICULTY (config g) * 1000)%float
             (elapsed_time (round g) + 0.01)%float;
  n ← Py.int q;
  Some (set_round (set_score n (round g)) g).

(** Lines 216-224, given the value [done] of [draw_game]; the call of
    line 219 is [reset_game] as above, without its line 110. *)
Definition progress (done : bool) (now : float) (rnd : nat -> float)
    (g : Globals) : option Globals :=
  if negb (final_beat (round g)) && done then
    if stage (round g) <? max_stage then
      let g := set_round (set_stage (stage (round g) + 1) (round g)) g in
      Some (reset_game (stage (round g)) false now rnd g)
    else finish now g
  else Some g.

(** Lines 211-224: one frame in game mode. *)
Definition game_frame (f : Frame) (now : float) (rnd : nat -> float)
    (g : Globals) : option Globals :=
  '(done, g) ← draw_game f g;
  progress done now rnd g.

(** Line 207. *)
Definition toggle (i : nat) (g : Globals) : option Globals :=
  en ← Py.getitem (sensors_enabled g) i;
  l ← Py.setitem (sensors_enabled g) i (negb en);
  Some (set_sensors_enabled l g).

Section Chart.

(** [float(s)] of Python, [None] for [ValueError]. *)
Variable py_float : string -> option float.

(** [dist_range_px] of line 84, which depends on the screen. *)
Variable dist_range_px : float.

Definition set_max_mm (x : float) (c : Config) : Config :=
  {| max_mm := x; TOLERANCE := TOLERANCE c; HOLD_TIME := HOLD_TIME c;
     DIFFICULTY := DIFFICULTY c; PX_PER_MM := PX_PER_MM c |}.
Definition set_TOLERANCE (x : float) (c : Config) : Config :=
  {| max_mm := max_mm c; TOLERANCE := x; HOLD_TIME := HOLD_TIME c;
     DIFFICULTY := DIFFICULTY c; PX_PER_MM := PX_PER_MM c |}.
Definition set_HOLD_TIME (x : float) (c : Config) : Config :=
  {| max_mm := max_mm c; TOLERANCE := TOLERANCE c; HOLD_TIME := x;
     DIFFICULTY := DIFFICULTY c; PX_PER_MM := PX_PER_MM c |}.
Definition set_DIFFICULTY (x : float) (c : Config) : Config :=
  {| max_mm := max_mm c; TOLERANCE := TOLERANCE c; HOLD_TIME := HOLD_TIME c;
     DIFFICULTY := x; PX_PER_MM := PX_PER_MM c |}.
Definition set_PX_PER_MM (x : float) (c : Config) : Config :=
  {| max_mm := max_mm c; TOLERANCE := TOLERANCE c; HOLD_TIME := HOLD_TIME c;
     DIFFICULTY := DIFFICULTY c; PX_PER_MM := x |}.

(** [float(values[k])], [None] when it raises. *)
Definition field (k : nat) (g : Globals) : option float :=
  Py.getitem (values g) k ≫= py_float.

(** apply_chart_values, lines 116-125: the assignments are made one by
    one, and the bare [except] of line 125 ends the function at the
    first one that raises, keeping the assignments made so far. *)
Definition apply_chart_values (now : float) (rnd : nat -> float)
    (g : Globals) : Globals :=
  match field 0 g with None => g | Some x =>
  let g := set_config (set_max_mm x (config g)) g in
  match field 1 g with None => g | Some x =>
  let g := set_config (set_TOLERANCE x (config g)) g in
  match field 2 g with None => g | Some x =>
  let g := set_config (set_HOLD_TIME x (config g)) g in
  match field 3 g with None => g | Some x =>
  let g := set_config (set_DIFFICULTY x (config g)) g in
  match Py.div dist_range_px (max_mm (config g)) with None => g | Some x =>
  let g := set_config (set_PX_PER_MM x (config g)) g in
  reset_game 1 false now rnd g
  end end end end end.

(** Lines 204-205. *)
Definition type_char (c : string) (g : Globals) : option Globals :=
  if negb (String.eqb c "") then
    let k := Z.to_nat (active g) in
    if Py.isdigit c then
      v ← Py.getitem (values g) k;
      l ← Py.setitem (values g) k (String.append v c);
      Some (set_values l g)
    else if String.eqb c "." then
      v ← Py.getitem (values g) k;
      if negb (Py.contains "." v) then
        l ← Py.setitem (values g) k (String.append v c);
        Some (set_values l g)
      else Some g
    else Some g
  else Some g.

(** Lines 194-208: one [KEYDOWN] event; [now] and [rnd] are what
    [time.time()] and [random.random()] return if the event asks.  The
    calls of lines 196 and 208 are [reset_game] as above, without its line
    110: where that line raises, the source does not reach line 197. *)
Definition on_key (ev : KeyDown) (now : float) (rnd : nat -> float)
    (g : Globals) : option Globals :=
  match key ev, mode g with
  | K_TAB, chart => Some (set_mode game (reset_game 1 true now rnd g))
  | K_TAB, game => Some (set_mode chart g)
  | K_UP, chart =>
      Some (set_active ((active g - 1) mod Z.of_nat (length labels)) g)
  | K_DOWN, chart =>
      Some (set_active ((active g + 1) mod Z.of_nat (length labels)) g)
  | K_RETURN, chart => Some (apply_chart_values now rnd g)
  | K_BACKSPACE, chart =>
      let k := Z.to_nat (active g) in
      v ← Py.getitem (values g) k;
      l ← Py.setitem (values g) k (Py.drop_last v);
      Some (set_values l g)
  | _, chart => type_char (unicode ev) g
  | K_1, game => toggle 0 g
  | K_2, game => toggle 1 g
  | K_3, game => toggle 2 g
  | K_r, game => Some (reset_game 1 true now rnd g)
  | _, game => Some g
  end.

End Chart.

(** *** Runs inside one round

    What happens to the round between two calls of [reset_game] while the
    game is shown: frames drawn by [draw_game], sensors switched on and
    off with the keys 1, 2 and 3, and the end of the last stage (lines
    221-224), after which the frames go on being drawn. *)
Inductive Step :=
  | Draw (f : Frame)
  | Toggle (i : nat)
  | Finish (now : float).

Definition step (e : Step) (g : Globals) : option Globals :=
  match e with
  | Draw f => snd <$> draw_game f g
  | Toggle i => toggle i g
  | Finish now => finish now g
  end.

Fixpoint run (es : list Step) (g : Globals) : option Globals :=
  match es with
  | [] => Some g
  | e :: es => g ← step e g; run es g
  end.

(** The lists of the globals have one entry per sensor. *)
Record wf (g : Globals) : Prop := {
  wf_targets : length (targets (round g)) = 3%nat;
  wf_unlocked : length (unlocked (round g)) = 3%nat;
  wf_lock_start : length (lock_start (round g)) = 3%nat;
  wf_locked_dist : length (locked_dist (round g)) = 3%nat;
  wf_smooth_mm : length (smooth_mm g) = 3%nat;
  wf_sensors_enabled : length (sensors_enabled g) = 3%nat
}.

(** *** One sensor's share of the globals

    The entries of sensor [i] in the four lists [draw_game] writes, and
    what the body of the loop does to them, as a function of the entries
    alone; [draw_game_slot] below shows that this is what [draw_game]
    does for every sensor. *)
Record Slot := {
  s_unlocked : bool;
  s_lock_start : option float;
  s_locked_dist : option float;
  s_smooth_mm : float
}.

Definition slot (g : Globals) (i : nat) : option Slot :=
  u ← Py.getitem (unlocked (round g)) i;
  ls ← Py.getitem (lock_start (round g)) i;
  ld ← Py.getitem (locked_dist (round g)) i;
  s ← Py.getitem (smooth_mm g) i;
  Some {| s_unlocked := u; s_lock_start := ls; s_locked_dist := ld;
          s_smooth_mm := s |}.

(** What line 172 and line 174 let through: the clamped reading of sensor
    [i] in frame [f], or [None] when the sensor is skipped. *)
Definition sample (f : Frame) (i : nat) (g : Globals) : option float :=
  match Py.getitem (sensors_enabled g) i with
  | Some true => (fun raw => clamp raw g) <$> reading f i
  | _ => None
  end.

Definition slot_hold (f : Frame) (i : nat) (g : Globals) (raw_mm target : float)
    (s : Slot) : Slot :=
  if s_unlocked s then s
  else if in_tolerance g raw_mm target then
    match s_lock_start s with
    | None =>
        {| s_unlocked := false; s_lock_start := Some (t_hold f i);
           s_locked_dist := s_locked_dist s; s_smooth_mm := s_smooth_mm s |}
    | Some t0 =>
        if PrimFloat.leb (HOLD_TIME (config g)) (t_hold f i - t0)%float
        then {| s_unlocked := true; s_lock_start := s_lock_start s;
                s_locked_dist := s_locked_dist s;
                s_smooth_mm := s_smooth_mm s |}
        else s
    end
  else {| s_unlocked := false; s_lock_start := None;
          s_locked_dist := s_locked_dist s; s_smooth_mm := s_smooth_mm s |}.

Definition slot_freeze (raw_mm : float) (s : Slot) : Slot :=
  match s_unlocked s, s_locked_dist s with
  | true, None =>
      {| s_unlocked := true; s_lock_start := s_lock_start s;
         s_locked_dist := Some raw_mm; s_smooth_mm := s_smooth_mm s |}
  | _, _ => s
  end.

Definition slot_step (f : Frame) (i : nat) (g : Globals) (target : float)
    (s : Slot) : Slot :=
  match sample f i g with
  | None => s
  | Some raw_mm =>
      let s1 :=
        {| s_unlocked := s_unlocked s; s_lock_start := s_lock_start s;
           s_locked_dist := s_locked_dist s;
           s_smooth_mm :=
             (s_smooth_mm s
              + (raw_mm - s_smooth_mm s) * Py.min 1 (alpha * dt f))%float |} in
      slot_freeze raw_mm (slot_hold f i g raw_mm target s1)
  end.

(** [g'] has the globals of [g] that [draw_game] never assigns. *)
Record same_frame (g g' : Globals) : Prop := {
  sf_config : config g' = config g;
  sf_targets : targets (round g') = targets (round g);
  sf_enabled : sensors_enabled g' = sensors_enabled g;
  sf_stage : stage (round g') = stage (round g);
  sf_timer_start : timer_start (round g') = timer_start (round g);
  sf_elapsed_time : elapsed_time (round g') = elapsed_time (round g);
  sf_score : score (round g') = score (round g);
  sf_final_beat : final_beat (round g') = final_beat (round g);
  sf_mode : mode g' = mode g;
  sf_values : values g' = values g;
  sf_active : active g' = active g;
  sf_timer_end : timer_end g' = timer_end g
}.

(** [g'] is [g] with the entries of sensor [i] replaced by [s']. *)
Definition upd (i : nat) (s' : Slot) (g g' : Globals) : Prop :=
  slot g' i = Some s' /\ (forall k, k <> i -> slot g' k = slot g k) /\
  same_frame g g' /\ wf g'.

(** The clamped reading [raw_mm] is within the tolerance of the target of
    sensor [i] (line 178). *)
Definition within (g : Globals) (i : nat) (raw_mm : float) : Prop :=
  exists target,
    Py.getitem (targets (round g)) i = Some target /\
    in_tolerance g raw_mm target = true.

(** The frames drawn by a run, oldest first, each with what [draw_game]
    sampled of sensor [i] in it ([None] when line 172 or 174 skipped the
    sensor). *)
Fixpoint history (i : nat) (es : list Step) (g : Globals)
  : list (Frame * option float) :=
  match es with
  | [] => []
  | e :: es =>
      let h := match e with
               | Draw f => [(f, sample f i g)]
               | Toggle _ | Finish _ => []
               end in
      match step e g with
      | Some g' => h ++ history i es g'
      | None => h
      end
  end.

(** Frame [fn] ends a hold of sensor [i]: some earlier frame [fk] of the
    history sampled the sensor within tolerance at least [HOLD_TIME]
    before [fn] (by the clock of lines 179-180), and every frame since
    that sampled the sensor sampled it within tolerance. *)
Definition held_since (g : Globals) (i : nat)
    (h : list (Frame * option float)) (fn : Frame) : Prop :=
  exists pre fk r0 mid,
    h = pre ++ (fk, Some r0) :: mid /\
    within g i r0 /\
    Forall (fun e => forall r, e.2 = Some r -> within g i r) mid /\
    PrimFloat.leb (HOLD_TIME (config g)) (t_hold fn i - t_hold fk i)%float = true.

(** [g'] has the configuration and the targets of [g]. *)
Definition same_targets (g g' : Globals) : Prop :=
  config g' = config g /\ targets (round g') = targets (round g).

(** While a sensor is not unlocked its frozen distance is unset. *)
Definition unset_until_locked (s : Slot) : Prop :=
  s_unlocked s = false -> s_locked_dist s = None.

(** While sensor [i] is not unlocked, a running hold clock was started by
    a frame of the history that sampled the sensor within tolerance, and
    every later sample was within tolerance. *)
Definition hold_inv (g0 : Globals) (i : nat)
    (h : list (Frame * option float)) (s : Slot) : Prop :=
  s_unlocked s = false ->
  forall t0, s_lock_start s = Some t0 ->
  exists pre fk r0 mid,
    h = pre ++ (fk, Some r0) :: mid /\
    t_hold fk i = t0 /\
    within g0 i r0 /\
    Forall (fun e => forall r, e.2 = Some r -> within g0 i r) mid.

(** A round as [reset_game] leaves it: three fresh targets in the range
    of the configuration and the lock state cleared. *)
Definition fresh_round (rnd : nat -> float) (g : Globals) : Prop :=
  targets (round g) =
    [Py.uniform 0%float (max_mm (config g)) (rnd 0%nat);
     Py.uniform 0%float (max_mm (config g)) (rnd 1%nat);
     Py.uniform 0%float (max_mm (config g)) (rnd 2%nat)] /\
  unlocked (round g) = [false; false; false] /\
  lock_start (round g) = [None; None; None] /\
  locked_dist (round g) = [None; None; None].

(** Line 87. *)
Definition initial_smooth_mm : list float := [0%float; 0%float; 0%float].

End Main.

(** ** The reader thread and a caller of read_distance, interleaved

    [_reader] runs in a thread of its own (line 40) and no lock is taken
    anywhere in [sensors.py].  The thread switch falls between two
    statements: while the reader thread stores one frame (line 60, then
    line 61) the caller of [read_distance] loads [val] (line 72) and then
    [last] (line 73).  Each store and each load is one step. *)
Module Interleave.

Inductive Thread := Background | Caller.

Record Conf := {
  mem : LaserArray;
  bpc : nat;             (* stores of the reader thread done so far *)
  cpc : nat;             (* loads of the caller done so far *)
  val : option float;    (* local of read_distance *)
  last : option float    (* local of read_distance *)
}.

Definition start (L : LaserArray) : Conf :=
  {| mem := L; bpc := 0; cpc := 0; val := None; last := None |}.




Section Frame.

(** The frame being stored: its id, its value in cm, and the value of
    [time.time()] at line 61. *)
Variables (sid : string) (cm now : float).

(** The argument of [read_distance]. *)
Variable idx : Z.

Definition background (c : Conf) : Conf :=
  match bpc c with
  | 0%nat =>
      {| mem := {| dist := <[sid := Some (cm * 10)%float]> (dist (mem c));
                   last_update := last_update (mem c) |};
         bpc := 1; cpc := cpc c; val := val c; last := last c |}
  | 1%nat =>
      {| mem := {| dist := dist (mem c);
                   last_update := <[sid := Some now]> (last_update (mem c)) |};
         bpc := 2; cpc := cpc c; val := val c; last := last c |}
  | _ => c
  end.

Definition caller (c : Conf) : Conf :=
  match cpc c with
  | 0%nat =>
      {| mem := mem c; bpc := bpc c; cpc := 1;
         val := Py.get (dist (mem c)) (pretty (idx + 1)); last := last c |}
  | 1%nat =>
      {| mem := mem c; bpc := bpc c; cpc := 2; val := val c;
         last := Py.get (last_update (mem c)) (pretty (idx + 1)) |}
  | _ => c
  end.

Definition turn (c : Conf) (t : Thread) : Conf :=
  match t with
  | Background => background c
  | Caller => caller c
  end.

(** The schedule [sched] run from the feed [L]. *)
Definition interleave (sched : list Thread) (L : LaserArray) : Conf :=
  foldl turn (start L) sched.

(** The feed once the frame is stored whole. *)
Definition stored (L : LaserArray) : LaserArray :=
  {| dist := <[sid := Some (cm * 10)%float]> (dist L);
     last_update := <[sid := Some now]> (last_update L) |}.

(** The slot of the sensor [read_distance] asks for. *)
Definition pair_of (L : LaserArray) : option float * option float :=
  (Py.get (dist L) (pretty (idx + 1)),
   Py.get (last_update L) (pretty (idx + 1))).

(** The feed between line 60 and line 61. *)
Definition half (L : LaserArray) : LaserArray :=
  {| dist := <[sid := Some (cm * 10)%float]> (dist L);
     last_update := last_update L |}.

(** The feed after [n] turns of the reader thread. *)
Definition after (n : nat) (L : LaserArray) : LaserArray :=
  match n with
  | 0%nat => L
  | 1%nat => half L
  | _ => stored L
  end.

(** What holds of a configuration reached from the feed [L]: the reader
    thread is before, between or after its two stores, and each load
    done so far gave the value before the frame or the value of the
    frame. *)
Definition inv (L : LaserArray) (c : Conf) : Prop :=
  (bpc c = 0%nat /\ mem c = L \/ bpc c = 1%nat /\ mem c = half L \/
   bpc c = 2%nat /\ mem c = stored L) /\
  (cpc c <= 2)%nat /\
  ((1 <= cpc c)%nat ->
   val c = (pair_of L).1 \/ val c = (pair_of (stored L)).1) /\
  (cpc c = 2%nat ->
   last c = (pair_of L).2 \/ last c = (pair_of (stored L)).2).

End Frame.

(** What [read_distance] returns from its two loads (lines 74-78). *)
Definition result (timeout t : float) (c : Conf) : option float :=
  Sensors.fresh (val c) (last c) timeout t.

End Interleave.

(** ** The properties as the specification words them *)

Module Spec.

(** "[all_unlocked] is true iff every enabled sensor is locked." *)
Definition all_unlocked_iff (f : Frame) (g : Globals) : Prop :=
  forall b g',
    Main.draw_game f g = Some (b, g') ->
    (b = true <->
     forall i, (i < 3)%nat ->
       Py.getitem (sensors_enabled g) i = Some true ->
       Py.getitem (unlocked (round g')) i = Some true).

(** "[new_round] resets every [RoundState] field of all three sensors to
    its initial value, the smoothing filter state included." *)
Definition new_round_resets (stage_val : Z) (start_timer : bool)
    (now : float) (rnd : nat -> float) (g : Globals) : Prop :=
  let g' := Main.reset_game stage_val start_timer now rnd g in
  Main.fresh_round rnd g' /\
  smooth_mm g' = Main.initial_smooth_mm /\
  elapsed_time (round g') = 0%float /\
  score (round g') = 0 /\
  final_beat (round g') = false /\
  (timer_start (round g') = Some now <-> start_timer = true).

(** "Its reading has remained continuously within tolerance for a full
    [hold_seconds] interval": as [Main.held_since], over the reading of
    every frame of the interval. *)
Definition held_since (g : Globals) (i : nat)
    (h : list (Frame * option float)) (fn : Frame) : Prop :=
  exists pre fk mid,
    h = pre ++ fk :: mid /\
    Forall (fun e => exists raw,
              Main.reading e.1 i = Some raw /\
              Main.within g i (Main.clamp raw g)) (fk :: mid) /\
    PrimFloat.leb (HOLD_TIME (config g)) (t_hold fn i - t_hold fk.1 i)%float = true.

(** "A not-yet-locked sensor transitions to locked only after its reading
    has remained continuously within tolerance for a full [hold_seconds]
    interval." *)
Definition locks_after_hold (g : Globals) (es : list Main.Step)
    (fn : Frame) (i : nat) : Prop :=
  forall g1 b g2,
    Main.run es g = Some g1 ->
    Main.draw_game fn g1 = Some (b, g2) ->
    Py.getitem (unlocked (round g1)) i = Some false ->
    Py.getitem (unlocked (round g2)) i = Some true ->
    held_since g i (Main.history i es g) fn.

(** "Whenever the applied configuration changes any value, a new round is
    created with freshly drawn targets and fully cleared lock state." *)
Definition config_change_resets (py_float : string -> option float)
    (dist_range_px now : float) (rnd : nat -> float) (g : Globals) : Prop :=
  let g' := Main.apply_chart_values py_float dist_range_px now rnd g in
  config g' <> config g -> Main.fresh_round rnd g'.


(** "For every idx outside {0, 1, 2} it returns None." *)
Definition out_of_range_none (L : LaserArray) (idx : Z)
    (timeout now : float) : Prop :=
  idx < 0 \/ 2 < idx -> Sensors.read_distance L idx timeout now = None.

End Spec.

(** ** Concrete inputs *)

Module Ex.

Definition cfg : Config :=
  {| max_mm := 1200; TOLERANCE := 5; HOLD_TIME := 3; DIFFICULTY := 10;
     PX_PER_MM := 0.5 |}%float.

(** The globals a round is started from: settings applied, game shown,
    nothing drawn yet. *)
Definition gp : Globals :=
  {| round := {| stage := 1; targets := [0; 0; 0]%float;
                 unlocked := [false; false; false];
                 lock_start := [None; None; None];
                 locked_dist := [None; None; None];
                 timer_start := None; elapsed_time := 0%float; score := 0;
                 final_beat := false |};
     config := cfg;
     smooth_mm := Main.initial_smooth_mm;
     sensors_enabled := [true; true; true];
     mode := game;
     values := ["1200.0"; "5.0"; "3.0"; "10.0"];
     active := 0;
     timer_end := None |}.

(** [random.random()] returns 0.25, 0.5, 0.75: the targets are 300, 600
    and 900 mm. *)
Definition rnd (k : nat) : float :=
  match k with
  | 0%nat => 0.25
  | 1%nat => 0.5
  | _ => 0.75
  end%float.

(** The feed after the lines [1,a], [2,b] and [3,c] (in cm) came in at
    time [t]. *)
Definition lasers (a b c : string) (t : float) : LaserArray :=
  Sensors.reader_run Py.float_of_decimal
    [Line (String.append "1," a) t; Line (String.append "2," b) t;
     Line (String.append "3," c) t]
    Sensors.init.

(** A frame drawn at time [t] over the feed [L]. *)
Definition frame (L : LaserArray) (t : float) : Frame :=
  {| dt := 0.015625%float; feed := fun _ => L;
     t_read := fun _ => t; t_hold := fun _ => t |}.

(** The three sensors on their targets, the lines received at [t]. *)
Definition on_target (t : float) : Frame := frame (lasers "30" "60" "90" t) t.

(** Sensor 0 away from its target (500 mm), the others on theirs. *)
Definition off_target (t : float) : Frame := frame (lasers "50" "60" "90" t) t.

(** A round started at time 100. *)
Definition g0 : Globals := Main.reset_game 1 true 100%float rnd gp.

Fixpoint frames (fs : list (Frame * float)) (g : Globals) : option Globals :=
  match fs with
  | [] => Some g
  | (f, now) :: fs => g ← Main.game_frame f now rnd g; frames fs g
  end.

(** The globals with sensor 0 switched off and the two others unlocked. *)
Definition g_off : Globals :=
  Main.set_sensors_enabled [false; true; true]
    (Main.set_round
       (Main.set_locked_dist [None; Some 600; Some 900]%float
          (Main.set_unlocked [false; true; true] (round g0)))
       g0).

(** The globals with the three sensors unlocked. *)
Definition g_all : Globals :=
  Main.set_round
    (Main.set_locked_dist [Some 300; Some 600; Some 900]%float
       (Main.set_unlocked [true; true; true] (round g0)))
    g0.

(** A feed whose last line for sensor 1 came at time 100, the others at
    time 110. *)
Definition stale_0 : LaserArray :=
  Sensors.reader_run Py.float_of_decimal
    [Line "1,30" 100%float; Line "2,60" 110%float; Line "3,90" 110%float]
    Sensors.init.

(** The chart with a rod length of zero typed in, while sensor 0 of the
    round is unlocked. *)
Definition g_zero : Globals :=
  Main.set_values ["0"; "5.0"; "3.0"; "10.0"]
    (Main.set_round
       (Main.set_locked_dist [Some 300%float; None; None]
          (Main.set_unlocked [true; false; false] (round g0)))
       (Main.set_mode chart g0)).

(** The round with the smoothing filter settled on the targets. *)
Definition g_moved : Globals :=
  Main.set_smooth_mm [300; 600; 900]%float g0.

(** Sensor 0 is on its target at time 100, is switched off while the feed
    reports it 200 mm away at time 101, and is switched on again. *)
Definition excursion : list Main.Step :=
  [Main.Draw (on_target 100); Main.Toggle 0; Main.Draw (off_target 101);
   Main.Toggle 0]%float.

(** The feed after a line with the id 7. *)
Definition feed_7 : LaserArray :=
  Sensors.reader_step Py.float_of_decimal (Line "7,12.5" 100%float)
    Sensors.init.

(** The globals a run ends in, and the result of a frame. *)
Definition after (o : option Globals) : Globals := default gp o.
Definition drawn (f : Frame) (g : Globals) : bool * Globals :=
  default (false, g) (Main.draw_game f g).

(** The feed with sensor 1 at 100 mm since time 0. *)
Definition old_feed : LaserArray :=
  Sensors.reader_step Py.float_of_decimal (Line "1,10" 0%float) Sensors.init.

End Ex.

(** ** Text of lines and of chart fields *)

Module Text.

(** Every character of [s] is white space for [str.strip]. *)
Fixpoint all_space (s : string) : bool :=
  match s with
  | EmptyString => true
  | String c s' => Py.isspace c && all_space s'
  end.

(** No byte of [s] is above 127: the texts on which [Py.isdigit] is
    [str.isdigit]. *)
Fixpoint all_ascii (s : string) : bool :=
  match s with
  | EmptyString => true
  | String c s' => (nat_of_ascii c <? 128)%nat && all_ascii s'
  end.

(** [c] is one of the digits 0 to 9. *)
Definition is_digit (c : ascii) : bool :=
  ((48 <=? nat_of_ascii c) && (nat_of_ascii c <=? 57))%nat.

(** The text a chart field can hold: digits, with at most one point among
    them. *)
Fixpoint numeric (s : string) : bool :=
  match s with
  | EmptyString => true
  | String c s' =>
      if is_digit c then numeric s'
      else Ascii.eqb c "." && Py.all_digits s'
  end.

End Text.

(** ** sensors.py: the two dictionaries together *)

Module Table.

(** An id has a distance exactly when it has a timestamp. *)
Definition paired (L : LaserArray) : Prop :=
  forall sid, Py.get (dist L) sid = None <-> Py.get (last_update L) sid = None.

End Table.

(** ** main.py: what a round keeps *)

Module Lock.

(** An unlocked sensor has its frozen distance set. *)
Definition set_when_unlocked (s : Main.Slot) : Prop :=
  Main.s_unlocked s = true -> exists d, Main.s_locked_dist s = Some d.

End Lock.

(** ** main.py: the main loop, lines 189-234 *)

(** An event of [pygame.event.get()], with the values [time.time()] and
    [random.random()] return while it is handled. *)
Inductive Event := QUIT | KEYDOWN (ev : KeyDown) | OtherEvent.

Record Input := {
  event : Event;
  ev_now : float;
  ev_rnd : nat -> float
}.

(** How a pass of the loop ends: the loop goes on with new globals, or the
    process exits ([sys.exit()] at line 193, [sys.exit(1)] at line 234). *)
Inductive Outcome := Continue (g : Globals) | Exit (code : Z).

(** What one pass of the loop takes from outside: the events waiting, the
    frame [draw_game] sees, and the values of [time.time()] and
    [random.random()] after the frame. *)
Record Pass := {
  p_events : list Input;
  p_frame : Frame;
  p_now : float;
  p_rnd : nat -> float
}.

Module Loop.

(** The entries [draw_chart] reads (lines 152-164): the flag of each
    sensor and the text of each field. *)
Definition draw_chart (g : Globals) : option unit :=
  _0 ← Py.getitem (sensors_enabled g) 0;
  _1 ← Py.getitem (sensors_enabled g) 1;
  _2 ← Py.getitem (sensors_enabled g) 2;
  v0 ← Py.getitem (values g) 0;
  v1 ← Py.getitem (values g) 1;
  v2 ← Py.getitem (values g) 2;
  v3 ← Py.getitem (values g) 3;
  Some ().

(** The chart has one text per label and [active] points at one of them. *)
Definition ui_ok (g : Globals) : Prop :=
  length (values g) = length Main.labels /\
  0 <= active g < Z.of_nat (length Main.labels).

(** The keys whose text is typed into the active field (the [else] of
    line 203): every key but TAB, the arrows, RETURN and BACKSPACE. *)
Definition typing (k : KeyCode) : bool :=
  match k with
  | K_TAB | K_UP | K_DOWN | K_RETURN | K_BACKSPACE => false
  | _ => true
  end.

(** Every field of the chart holds digits with at most one point. *)
Definition fields_numeric (g : Globals) : Prop :=
  Forall (fun v => Text.numeric v = true) (values g).

(** The stage is one of 1..[max_stage], and the round is over only on the
    last one. *)
Definition stage_ok (g : Globals) : Prop :=
  1 <= stage (round g) <= Main.max_stage /\
  (final_beat (round g) = true -> stage (round g) = Main.max_stage).

(** The timer runs on stage 1 only, and a finished game shows no time. *)
Definition timer_ok (g : Globals) : Prop :=
  (stage (round g) <> 1 -> timer_start (round g) = None) /\
  (final_beat (round g) = true -> elapsed_time (round g) = 0%float).

(** The text of a key press is ASCII. *)
Definition ascii_key (i : Input) : Prop :=
  match event i with
  | KEYDOWN ev => Text.all_ascii (unicode ev) = true
  | QUIT | OtherEvent => True
  end.

(** Whether an event of [ins] calls [reset_game] from the handler itself
    (TAB in the chart, line 196; [r] in the game, line 208), the mode
    being [m] when [ins] starts.  TAB is the only key that changes the
    mode, and nothing is handled after a QUIT. *)
Fixpoint resets (m : Mode) (ins : list Input) : bool :=
  match ins with
  | [] => false
  | i :: ins =>
      match event i with
      | QUIT => false
      | OtherEvent => resets m ins
      | KEYDOWN ev =>
          match key ev, m with
          | K_TAB, chart => true
          | K_TAB, game => resets chart ins
          | K_r, game => true
          | _, _ => resets m ins
          end
      end
  end.

Definition ascii_keys (ps : list Pass) : Prop :=
  Forall (fun p => Forall ascii_key (p_events p)) ps.

Section Body.

Variable py_float : string -> option float.
Variable dist_range_px : float.

(** The loop of line 192 over the events of one pass. *)
Fixpoint events (ins : list Input) (g : Globals) : Outcome :=
  match ins with
  | [] => Continue g
  | i :: ins =>
      match event i with
      | QUIT => Exit 0
      | KEYDOWN ev =>
          match Main.on_key py_float dist_range_px ev (ev_now i) (ev_rnd i) g with
          | Some g' => events ins g'
          | None => Exit 1
          end
      | OtherEvent => events ins g
      end
  end.

(** One pass of the loop of line 189: the events, then the chart or a
    frame of the game; an exception ends the process with code 1.  The
    drawing of lines 212-215 and 225-231 is not modelled (line 226 needs
    the [Confetti] class, which [main.py] does not define): the source can
    end a pass with code 1 where this function goes on. *)
Definition pass (ins : list Input) (f : Frame) (now : float)
    (rnd : nat -> float) (g : Globals) : Outcome :=
  match events ins g with
  | Exit code => Exit code
  | Continue g =>
      match mode g with
      | chart =>
          match draw_chart g with
          | Some _ => Continue g
          | None => Exit 1
          end
      | game =>
          match Main.game_frame f now rnd g with
          | Some g' => Continue g'
          | None => Exit 1
          end
      end
  end.

(** The loop of line 189, for the passes [ps]. *)
Fixpoint loop (ps : list Pass) (g : Globals) : Outcome :=
  match ps with
  | [] => Continue g
  | p :: ps =>
      match pass (p_events p) (p_frame p) (p_now p) (p_rnd p) g with
      | Continue g' => loop ps g'
      | Exit code => Exit code
      end
  end.

End Body.

End Loop.

(** ** More concrete inputs *)

Module Ex2.

(** The line end the device sends. *)
Definition cr_lf : string := String "013" (String "010" EmptyString).

Definition tab_key : KeyDown := {| key := K_TAB; unicode := String "009" EmptyString |}.
Definition return_key : KeyDown := {| key := K_RETURN; unicode := String "013" EmptyString |}.
Definition back_key : KeyDown := {| key := K_BACKSPACE; unicode := String "008" EmptyString |}.
Definition up_key : KeyDown := {| key := K_UP; unicode := EmptyString |}.
Definition down_key : KeyDown := {| key := K_DOWN; unicode := EmptyString |}.
Definition one_key : KeyDown := {| key := K_1; unicode := "1" |}.

(** A key pressed at time 100. *)
Definition press (ev : KeyDown) : Input :=
  {| event := KEYDOWN ev; ev_now := 100%float; ev_rnd := Ex.rnd |}.

(** The chart shown, with the fields of the examples. *)
Definition g_chart : Globals := Main.set_mode chart Ex.gp.

(** The last stage over, at time 105. *)
Definition g_done : Globals :=
  Ex.after (Main.finish 105%float
              (Main.set_round (Main.set_stage 3 (round Ex.g0)) Ex.g0)).

(** The screen scale of the examples. *)
Definition px : float := 500%float.

(** The globals of an outcome. *)
Definition going (o : Outcome) : Globals :=
  match o with
  | Continue g => g
  | Exit _ => Ex.gp
  end.

(** A pass without events that draws the three sensors on their targets
    at time [t]. *)
Definition quiet (t : float) : Pass :=
  {| p_events := []; p_frame := Ex.on_target t; p_now := t; p_rnd := Ex.rnd |}.

(** A game played to the end: TAB leaves the chart at time 100, and each
    stage takes a frame that starts the hold clocks and one, three seconds
    later, that unlocks the sensors. *)
Definition whole_game : list Pass :=
  [ {| p_events := [press tab_key]; p_frame := Ex.on_target 100;
       p_now := 100%float; p_rnd := Ex.rnd |};
    quiet 103; quiet 104; quiet 107; quiet 108; quiet 111 ]%float.

(** The rod length set to zero in the first field. *)
Definition g_rod_zero : Globals :=
  Main.set_values ["0"; "5.0"; "3.0"; "10.0"] g_chart.

End Ex2.

(** * Proofs *)

Import Main.

(** ** The instances of the built-ins on the inputs of the examples *)

Example float_of_decimal_ex :
  Py.float_of_decimal "12.5" = Some 12.5%float /\
  Py.float_of_decimal "1200.0" = Some 1200%float /\
  Py.float_of_decimal "0" = Some 0%float /\
  Py.float_of_decimal "5." = Some 5%float /\
  Py.float_of_decimal ".5" = Some 0.5%float /\
  Py.float_of_decimal "" = None /\
  Py.float_of_decimal "." = None /\
  Py.float_of_decimal "abc" = None.
Proof. repeat split; vm_compute; reflexivity. Qed.

Example parse_line_ex :
  Sensors.parse_line (String " " (String.append "1,12.5" (String "013" (String "010" ""))))
    = Some ("1", "12.5")%string /\
  Sensors.parse_line "12.5" = None /\
  Sensors.parse_line (String "010" "") = None /\
  Sensors.parse_line ",5" = Some ("", "5")%string.
Proof. repeat split; vm_compute; reflexivity. Qed.

Example int_ex :
  Py.int 1996.5%float = Some 1996 /\ Py.int (-2.5)%float = Some (-2) /\
  Py.int 0.5%float = Some 0 /\ Py.int infinity = None.
Proof. repeat split; vm_compute; reflexivity. Qed.

(** The score of the last stage when the timer is running: difficulty 10
    and five seconds give 1996. *)
Example score_ex :
  (fun g => (elapsed_time (round g), score (round g)))
    <$> finish 105 (set_round (set_stage 3 (round Ex.g0)) Ex.g0)
  = Some (5%float, 1996).
Proof. vm_compute. reflexivity. Qed.

(** ** What draw_game does to one sensor *)

Lemma setitem_Some {A} (l l' : list A) i v :
  Py.setitem l i v = Some l' -> (i < length l)%nat /\ l' = <[i:=v]> l.
Proof. unfold Py.setitem. case_decide; naive_solver. Qed.

Lemma setitem_lt {A} (l : list A) i v :
  (i < length l)%nat -> Py.setitem l i v = Some (<[i:=v]> l).
Proof. unfold Py.setitem. case_decide; naive_solver. Qed.

Lemma getitem_lt {A} (l : list A) i :
  (i < length l)%nat -> exists x, Py.getitem l i = Some x.
Proof. intros H. apply lookup_lt_is_Some in H. destruct H as [x H]. eauto. Qed.


Lemma same_frame_refl g : same_frame g g.
Proof. by split. Qed.

Lemma same_frame_trans g1 g2 g3 :
  same_frame g1 g2 -> same_frame g2 g3 -> same_frame g1 g3.
Proof. intros [] []. split; congruence. Qed.

Lemma upd_refl i s g : wf g -> slot g i = Some s -> upd i s g g.
Proof. intros. unfold upd. eauto using same_frame_refl. Qed.

Lemma upd_trans i s1 s2 g g1 g2 :
  upd i s1 g g1 -> upd i s2 g1 g2 -> upd i s2 g g2.
Proof.
  intros (_ & O1 & F1 & _) (S2 & O2 & F2 & W2).
  split; [done|]. split; [|eauto using same_frame_trans].
  intros k Hk. rewrite O2, O1; auto.
Qed.

Lemma slot_Some g i s :
  slot g i = Some s ->
  Py.getitem (unlocked (round g)) i = Some (s_unlocked s) /\
  Py.getitem (lock_start (round g)) i = Some (s_lock_start s) /\
  Py.getitem (locked_dist (round g)) i = Some (s_locked_dist s) /\
  Py.getitem (smooth_mm g) i = Some (s_smooth_mm s).
Proof.
  unfold slot. intros H. simplify_option_eq. done.
Qed.

Lemma slot_wf g i : wf g -> (i < 3)%nat -> exists s, slot g i = Some s.
Proof.
  intros [W1 W2 W3 W4 W5 W6] Hi.
  destruct (getitem_lt (unlocked (round g)) i) as [u Hu]; [lia|].
  destruct (getitem_lt (lock_start (round g)) i) as [ls Hls]; [lia|].
  destruct (getitem_lt (locked_dist (round g)) i) as [ld Hld]; [lia|].
  destruct (getitem_lt (smooth_mm g) i) as [sm Hsm]; [lia|].
  unfold slot. rewrite Hu, Hls, Hld, Hsm. eauto.
Qed.

Lemma slot_lt g i s : wf g -> slot g i = Some s -> (i < 3)%nat.
Proof.
  intros [W1 W2 W3 W4 W5 W6] H. apply slot_Some in H as (H & _).
  apply lookup_lt_Some in H. lia.
Qed.

Lemma upd_unlocked g i s v :
  wf g -> slot g i = Some s ->
  upd i {| s_unlocked := v; s_lock_start := s_lock_start s;
           s_locked_dist := s_locked_dist s; s_smooth_mm := s_smooth_mm s |}
    g (set_round (set_unlocked (<[i:=v]> (unlocked (round g))) (round g)) g).
Proof.
  intros W H. pose proof (slot_lt _ _ _ W H) as Hi.
  destruct W as [W1 W2 W3 W4 W5 W6].
  apply slot_Some in H as (Hu & Hls & Hld & Hsm).
  unfold upd, slot, Py.getitem in *; simpl. repeat split; simpl; try done.
  - rewrite list_lookup_insert_eq by lia. simpl. rewrite Hls, Hld, Hsm. done.
  - intros k Hk. rewrite list_lookup_insert_ne by done. done.
  - by rewrite length_insert.
Qed.

Lemma upd_lock_start g i s v :
  wf g -> slot g i = Some s ->
  upd i {| s_unlocked := s_unlocked s; s_lock_start := v;
           s_locked_dist := s_locked_dist s; s_smooth_mm := s_smooth_mm s |}
    g (set_round (set_lock_start (<[i:=v]> (lock_start (round g))) (round g)) g).
Proof.
  intros W H. pose proof (slot_lt _ _ _ W H) as Hi.
  destruct W as [W1 W2 W3 W4 W5 W6].
  apply slot_Some in H as (Hu & Hls & Hld & Hsm).
  unfold upd, slot, Py.getitem in *; simpl. repeat split; simpl; try done.
  - rewrite list_lookup_insert_eq by lia. rewrite Hu. simpl. rewrite Hld, Hsm. done.
  - intros k Hk. rewrite list_lookup_insert_ne by done. done.
  - by rewrite length_insert.
Qed.

Lemma upd_locked_dist g i s v :
  wf g -> slot g i = Some s ->
  upd i {| s_unlocked := s_unlocked s; s_lock_start := s_lock_start s;
           s_locked_dist := v; s_smooth_mm := s_smooth_mm s |}
    g (set_round (set_locked_dist (<[i:=v]> (locked_dist (round g))) (round g)) g).
Proof.
  intros W H. pose proof (slot_lt _ _ _ W H) as Hi.
  destruct W as [W1 W2 W3 W4 W5 W6].
  apply slot_Some in H as (Hu & Hls & Hld & Hsm).
  unfold upd, slot, Py.getitem in *; simpl. repeat split; simpl; try done.
  - rewrite list_lookup_insert_eq by lia. rewrite Hu, Hls. simpl. rewrite Hsm. done.
  - intros k Hk. rewrite list_lookup_insert_ne by done. done.
  - by rewrite length_insert.
Qed.

Lemma upd_smooth_mm g i s v :
  wf g -> slot g i = Some s ->
  upd i {| s_unlocked := s_unlocked s; s_lock_start := s_lock_start s;
           s_locked_dist := s_locked_dist s; s_smooth_mm := v |}
    g (set_smooth_mm (<[i:=v]> (smooth_mm g)) g).
Proof.
  intros W H. pose proof (slot_lt _ _ _ W H) as Hi.
  destruct W as [W1 W2 W3 W4 W5 W6].
  apply slot_Some in H as (Hu & Hls & Hld & Hsm).
  unfold upd, slot, Py.getitem in *; simpl. repeat split; simpl; try done.
  - rewrite list_lookup_insert_eq by lia. rewrite Hu, Hls, Hld. done.
  - intros k Hk. rewrite list_lookup_insert_ne by done. done.
  - by rewrite length_insert.
Qed.

Lemma in_tolerance_frame g g' x y :
  same_frame g g' -> in_tolerance g' x y = in_tolerance g x y.
Proof. intros []. unfold in_tolerance. congruence. Qed.

(** Lines 177-181 on the entries of the sensor. *)
Lemma hold_slot f i raw_mm target g s :
  wf g -> slot g i = Some s -> s_unlocked s = false ->
  Py.getitem (targets (round g)) i = Some target ->
  exists g1, hold f i raw_mm g = Some g1 /\
             upd i (slot_hold f i g raw_mm target s) g g1.
Proof.
  intros W H Hu Ht. pose proof (slot_lt _ _ _ W H) as Hi.
  pose proof W as [W1 W2 W3 W4 W5 W6].
  pose proof (slot_Some _ _ _ H) as (Gu & Gls & Gld & Gsm).
  unfold hold, slot_hold. rewrite Ht, Hu. simpl.
  destruct (in_tolerance g raw_mm target).
  - rewrite Gls. simpl. destruct (s_lock_start s) as [t0|] eqn:Hls.
    + destruct (PrimFloat.leb _ _).
      * rewrite setitem_lt by lia. simpl. eexists; split; [done|].
        rewrite <- Hls. by apply upd_unlocked.
      * eexists; split; [done|]. by apply upd_refl.
    + rewrite setitem_lt by lia. simpl. eexists; split; [done|].
      rewrite <- Hu. by apply upd_lock_start.
  - rewrite setitem_lt by lia. simpl. eexists; split; [done|].
    rewrite <- Hu. by apply upd_lock_start.
Qed.

(** Line 183 on the entries of the sensor. *)
Lemma freeze_slot i raw_mm g s :
  wf g -> slot g i = Some s ->
  exists g1, freeze i raw_mm g = Some g1 /\ upd i (slot_freeze raw_mm s) g g1.
Proof.
  intros W H. pose proof (slot_lt _ _ _ W H) as Hi.
  pose proof W as [W1 W2 W3 W4 W5 W6].
  pose proof (slot_Some _ _ _ H) as (Gu & Gls & Gld & Gsm).
  unfold freeze, slot_freeze. rewrite Gu. simpl.
  destruct (s_unlocked s) eqn:Hu.
  - rewrite Gld. simpl. destruct (s_locked_dist s) eqn:Hld.
    + eexists; split; [done|]. by apply upd_refl.
    + rewrite setitem_lt by lia. simpl. eexists; split; [done|].
      rewrite <- Hu. by apply upd_locked_dist.
  - eexists; split; [done|]. by apply upd_refl.
Qed.

Lemma slot_hold_frame f i g g' raw_mm target s :
  same_frame g g' -> slot_hold f i g' raw_mm target s = slot_hold f i g raw_mm target s.
Proof.
  intros F. unfold slot_hold. rewrite (in_tolerance_frame _ _ _ _ F).
  destruct F as [-> _ _ _ _ _ _ _ _ _ _ _]. done.
Qed.

Lemma display_wf i g : wf g -> (i < 3)%nat -> is_Some (display i g).
Proof.
  intros W Hi. destruct (slot_wf g i W Hi) as [s Hs].
  apply slot_Some in Hs as (Gu & Gls & Gld & Gsm).
  destruct W as [W1 W2 W3 W4 W5 W6].
  destruct (getitem_lt (targets (round g)) i) as [target Ht]; [lia|].
  unfold display. rewrite Gu. simpl. destruct (s_unlocked s).
  - rewrite Gld. simpl. rewrite Ht. simpl. eauto.
  - rewrite Gsm. simpl. rewrite Ht. simpl. eauto.
Qed.

(** The body of the loop on the entries of the sensor. *)
Lemma sensor_slot f i a g :
  wf g -> (i < 3)%nat ->
  exists target s g',
    Py.getitem (targets (round g)) i = Some target /\
    slot g i = Some s /\
    sensor f i a g =
      Some (a && bool_decide (is_Some (sample f i g))
              && s_unlocked (slot_step f i g target s), g') /\
    upd i (slot_step f i g target s) g g'.
Proof.
  intros W Hi. destruct (slot_wf g i W Hi) as [s Hs].
  pose proof W as [W1 W2 W3 W4 W5 W6].
  destruct (getitem_lt (targets (round g)) i) as [target Ht]; [lia|].
  destruct (getitem_lt (sensors_enabled g) i) as [en Hen]; [lia|].
  exists target, s. unfold sensor, slot_step, sample. rewrite Hen. simpl.
  destruct en; simpl.
  2: { exists g. rewrite andb_false_r. simpl. eauto using upd_refl. }
  destruct (reading f i) as [raw|]; simpl.
  2: { exists g. rewrite andb_false_r. simpl. eauto using upd_refl. }
  pose proof (slot_Some _ _ _ Hs) as (Gu & Gls & Gld & Gsm).
  rewrite Gsm. simpl. rewrite setitem_lt by lia. simpl.
  set (sm := (s_smooth_mm s + (clamp raw g - s_smooth_mm s) * Py.min 1 (alpha * dt f))%float).
  pose proof (upd_smooth_mm g i s sm W Hs) as U1.
  set (g1 := set_smooth_mm (<[i:=sm]> (smooth_mm g)) g) in *.
  set (s1 := {| s_unlocked := s_unlocked s; s_lock_start := s_lock_start s;
                s_locked_dist := s_locked_dist s; s_smooth_mm := sm |}) in *.
  change (Py.getitem (unlocked (round g1)) i) with (Py.getitem (unlocked (round g)) i).
  rewrite Gu. simpl.
  assert (exists g2, (if negb (s_unlocked s) then hold f i (clamp raw g) g1 else Some g1) = Some g2
                     /\ upd i (slot_hold f i g (clamp raw g) target s1) g1 g2) as (g2 & E2 & U2).
  { destruct U1 as (S1 & O1 & F1 & Wf1).
    destruct (s_unlocked s) eqn:Hu; simpl.
    - exists g1. split; [done|].
      assert (slot_hold f i g (clamp raw g) target s1 = s1) as ->; [|by apply upd_refl].
      unfold slot_hold, s1. simpl. by rewrite ?Hu.
    - destruct (hold_slot f i (clamp raw g) target g1 s1 Wf1 S1 eq_refl) as (g2 & E & U).
      { by destruct F1 as [_ -> _ _ _ _ _ _ _ _ _ _]. }
      exists g2. split; [done|]. by rewrite <- (slot_hold_frame f i g g1). }
  rewrite E2. simpl.
  set (s2 := slot_hold f i g (clamp raw g) target s1) in *.
  pose proof U2 as (S2 & O2 & F2 & Wf2).
  pose proof (slot_Some _ _ _ S2) as (Gu2 & _).
  rewrite Gu2. simpl.
  destruct (freeze_slot i (clamp raw g) g2 s2 Wf2 S2) as (g3 & E3 & U3).
  rewrite E3. simpl.
  pose proof U3 as (S3 & O3 & F3 & Wf3).
  destruct (display_wf i g3 Wf3 Hi) as [d Hd]. rewrite Hd. simpl.
  exists g3. split; [done|]. split; [done|]. split.
  - f_equal. f_equal. rewrite andb_true_r.
    assert (s_unlocked (slot_freeze (clamp raw g) s2) = s_unlocked s2) as ->.
    { unfold slot_freeze. destruct (s_unlocked s2) eqn:?, (s_locked_dist s2); done. }
    destruct (s_unlocked s2); simpl; [by rewrite andb_true_r | by rewrite andb_false_r].
  - eapply upd_trans; [|exact U3]. eapply upd_trans; [exact U1|exact U2].
Qed.

Lemma sample_frame f i g g' : same_frame g g' -> sample f i g' = sample f i g.
Proof.
  intros [Hc _ He _ _ _ _ _ _ _ _ _]. unfold sample, clamp. by rewrite He, Hc.
Qed.

Lemma slot_step_frame f i g g' target s :
  same_frame g g' -> slot_step f i g' target s = slot_step f i g target s.
Proof.
  intros F. unfold slot_step. rewrite (sample_frame _ _ _ _ F).
  destruct (sample f i g); [|done]. by rewrite (slot_hold_frame _ _ _ _ _ _ _ F).
Qed.

(** The loop of line 171 over the sensors [todo]. *)
Lemma sensors_slot f todo : forall a g,
  wf g -> NoDup todo -> Forall (fun i => i < 3)%nat todo ->
  exists b g',
    sensors f todo a g = Some (b, g') /\
    same_frame g g' /\ wf g' /\
    (forall k, k ∉ todo -> slot g' k = slot g k) /\
    (forall i, i ∈ todo ->
       exists target s,
         Py.getitem (targets (round g)) i = Some target /\
         slot g i = Some s /\
         slot g' i = Some (slot_step f i g target s)) /\
    (b = true <->
     a = true /\
     forall i, i ∈ todo ->
       is_Some (sample f i g) /\
       exists s', slot g' i = Some s' /\ s_unlocked s' = true).
Proof.
  induction todo as [|i todo IH]; intros a g W ND Hlt.
  - exists a, g. simpl. split; [done|]. split; [apply same_frame_refl|].
    split; [done|]. split; [done|]. split.
    + intros i Hi. by apply not_elem_of_nil in Hi.
    + split; [|tauto]. intros ->. split; [done|].
      intros i Hi. by apply not_elem_of_nil in Hi.
  - apply NoDup_cons in ND as [Hni ND]. apply Forall_cons in Hlt as [Hi Hlt].
    destruct (sensor_slot f i a g W Hi) as (target & s & g1 & Ht & Hs & E1 & U1).
    destruct U1 as (S1 & O1 & F1 & W1).
    destruct (IH (a && bool_decide (is_Some (sample f i g))
                    && s_unlocked (slot_step f i g target s)) g1 W1 ND Hlt)
      as (b & g' & E & F & W' & O & I & B).
    exists b, g'. simpl. rewrite E1. simpl. rewrite E.
    split; [done|]. split; [by apply (same_frame_trans _ g1)|]. split; [done|].
    assert (slot g' i = Some (slot_step f i g target s)) as Si.
    { rewrite O by done. done. }
    split; [|split].
    + intros k Hk. apply not_elem_of_cons in Hk as [Hk1 Hk2].
      rewrite O by done. by apply O1.
    + intros k Hk. apply elem_of_cons in Hk as [->|Hk]; [by eauto|].
      destruct (I k Hk) as (tk & sk & Htk & Hsk & Hsk').
      assert (k <> i) as Hki by (intros ->; done).
      exists tk, sk. split; [by destruct F1 as [_ <- _ _ _ _ _ _ _ _ _ _]|].
      split; [by rewrite <- O1|]. by rewrite <- (slot_step_frame f k g g1).
    + rewrite B. clear B. split.
      * intros (Ha & Hall).
        apply andb_prop in Ha as [Ha Hu]. apply andb_prop in Ha as [Ha Hsm].
        apply bool_decide_eq_true in Hsm.
        split; [done|]. intros k Hk. apply elem_of_cons in Hk as [->|Hk].
        -- split; [done|]. eauto.
        -- destruct (Hall k Hk) as [Hk1 Hk2].
           by rewrite <- (sample_frame f k g g1).
      * intros (-> & Hall). split.
        -- destruct (Hall i) as (Hsm & s' & Hs' & Hu'); [by left|].
           rewrite Si in Hs'. injection Hs' as <-. rewrite Hu'.
           by rewrite bool_decide_eq_true_2.
        -- intros k Hk. destruct (Hall k) as [Hk1 Hk2]; [by right|].
           by rewrite (sample_frame f k g g1).
Qed.

(** What one call of [draw_game] does: it returns, it keeps every global
    but the four lists, it moves the entries of each sensor by [slot_step],
    and it returns [True] exactly when every sensor was sampled and is
    unlocked afterwards. *)
Lemma draw_game_slot f g :
  wf g ->
  exists b g',
    draw_game f g = Some (b, g') /\
    same_frame g g' /\ wf g' /\
    (forall i, (i < 3)%nat ->
       exists target s,
         Py.getitem (targets (round g)) i = Some target /\
         slot g i = Some s /\
         slot g' i = Some (slot_step f i g target s)) /\
    (b = true <->
     forall i, (i < 3)%nat ->
       is_Some (sample f i g) /\
       exists s', slot g' i = Some s' /\ s_unlocked s' = true).
Proof.
  intros W.
  destruct (sensors_slot f (seq 0 3) true g W) as (b & g' & E & F & W' & O & I & B).
  { apply NoDup_seq. }
  { apply Forall_forall. intros i Hi. apply elem_of_seq in Hi. lia. }
  exists b, g'. split; [exact E|]. split; [done|]. split; [done|]. split.
  - intros i Hi. apply I. apply elem_of_seq. lia.
  - rewrite B. split.
    + intros [_ H] i Hi. apply H. apply elem_of_seq. lia.
    + intros H. split; [done|]. intros i Hi. apply H. apply elem_of_seq in Hi. lia.
Qed.

Lemma toggle_slot j g g' :
  wf g -> toggle j g = Some g' ->
  wf g' /\ same_targets g g' /\ forall i, slot g' i = slot g i.
Proof.
  intros [W1 W2 W3 W4 W5 W6] H. unfold toggle in H.
  destruct (Py.getitem (sensors_enabled g) j) as [en|]; [|done]. simpl in H.
  destruct (Py.setitem (sensors_enabled g) j (negb en)) as [l|] eqn:E; [|done].
  apply setitem_Some in E as [Hj ->]. injection H as <-.
  split; [|split]; [| done | done].
  split; simpl; try done. by rewrite length_insert.
Qed.

Lemma finish_slot now g g' :
  wf g -> finish now g = Some g' ->
  wf g' /\ same_targets g g' /\ forall i, slot g' i = slot g i.
Proof.
  intros [W1 W2 W3 W4 W5 W6] H. unfold finish in H.
  destruct (Py.div _ _) as [q|]; [|done]. simpl in H.
  destruct (Py.int q) as [n|]; [|done]. injection H as <-.
  split; [by split|]. by split.
Qed.

(** One step of a run on the entries of sensor [i]. *)
Lemma step_slot e g g' :
  wf g -> step e g = Some g' ->
  wf g' /\ same_targets g g' /\
  forall i, (i < 3)%nat ->
    exists target s,
      Py.getitem (targets (round g)) i = Some target /\
      slot g i = Some s /\
      slot g' i = Some (match e with
                        | Draw f => slot_step f i g target s
                        | Toggle _ | Finish _ => s
                        end).
Proof.
  intros W H. destruct e as [f|j|now]; simpl in H.
  - destruct (draw_game_slot f g W) as (b & g1 & E & F & W1 & I & _).
    rewrite E in H. injection H as <-.
    split; [done|]. split; [|done]. by destruct F.
  - destruct (toggle_slot j g g' W H) as (W' & T & S).
    split; [done|]. split; [done|]. intros i Hi.
    destruct (slot_wf g i W Hi) as [s Hs]. pose proof W as [W1 _ _ _ _ _].
    destruct (getitem_lt (targets (round g)) i) as [target Ht]; [lia|].
    exists target, s. by rewrite S.
  - destruct (finish_slot now g g' W H) as (W' & T & S).
    split; [done|]. split; [done|]. intros i Hi.
    destruct (slot_wf g i W Hi) as [s Hs]. pose proof W as [W1 _ _ _ _ _].
    destruct (getitem_lt (targets (round g)) i) as [target Ht]; [lia|].
    exists target, s. by rewrite S.
Qed.

Lemma run_app es1 es2 g :
  run (es1 ++ es2) g = run es1 g ≫= run es2.
Proof.
  revert g. induction es1 as [|e es1 IH]; intros g; simpl; [done|].
  destruct (step e g); simpl; [apply IH | done].
Qed.

Lemma run_wf es : forall g g',
  wf g -> run es g = Some g' -> wf g' /\ same_targets g g'.
Proof.
  induction es as [|e es IH]; intros g g' W H; simpl in H.
  - injection H as <-. by split.
  - destruct (step e g) as [g1|] eqn:E; [|done]. simpl in H.
    destruct (step_slot e g g1 W E) as (W1 & [T1 T2] & _).
    destruct (IH g1 g' W1 H) as (W' & [T3 T4]).
    split; [done|]. split; congruence.
Qed.

Lemma reset_game_wf sv st now rnd g :
  wf g -> wf (reset_game sv st now rnd g).
Proof. intros [W1 W2 W3 W4 W5 W6]. by split. Qed.

Lemma reset_game_slot sv st now rnd g i s :
  slot (reset_game sv st now rnd g) i = Some s ->
  s_unlocked s = false /\ s_lock_start s = None /\ s_locked_dist s = None.
Proof.
  intros H. apply slot_Some in H as (Hu & Hls & Hld & _).
  unfold Py.getitem in *.
  destruct i as [|[|[|?]]]; simpl in *; by simplify_eq.
Qed.

(** *** The frozen distance *)

Lemma slot_step_unset f i g target s :
  unset_until_locked s -> unset_until_locked (slot_step f i g target s).
Proof.
  unfold unset_until_locked, slot_step, slot_freeze, slot_hold. intros H.
  repeat (case_match; simpl in *; try done); auto; try congruence.
Qed.

Lemma slot_step_frozen f i g target s d :
  s_locked_dist s = Some d -> s_locked_dist (slot_step f i g target s) = Some d.
Proof.
  unfold slot_step, slot_freeze, slot_hold. intros H.
  repeat (case_match; simpl in *; try done); auto; try congruence.
Qed.

Lemma slot_step_freezes f i g target s :
  unset_until_locked s ->
  s_unlocked s = false -> s_unlocked (slot_step f i g target s) = true ->
  exists raw_mm, sample f i g = Some raw_mm /\
                 s_locked_dist (slot_step f i g target s) = Some raw_mm.
Proof.
  intros H Hu. specialize (H Hu). unfold slot_step.
  destruct (sample f i g) as [raw_mm|]; [|congruence].
  intros H'. exists raw_mm. split; [done|]. revert H'.
  unfold slot_freeze, slot_hold. simpl. rewrite Hu.
  destruct (in_tolerance g raw_mm target); simpl; [|done].
  destruct (s_lock_start s) as [t0|]; simpl; [|done].
  destruct (PrimFloat.leb _ _); simpl; [by rewrite H | by rewrite ?Hu].
Qed.

Lemma run_unset i es : forall g g' s,
  wf g -> (i < 3)%nat -> run es g = Some g' ->
  slot g i = Some s -> unset_until_locked s ->
  exists s', slot g' i = Some s' /\ unset_until_locked s'.
Proof.
  induction es as [|e es IH]; intros g g' s W Hi H Hs Hinv; simpl in H.
  - injection H as <-. eauto.
  - destruct (step e g) as [g1|] eqn:E; [|done]. simpl in H.
    destruct (step_slot e g g1 W E) as (W1 & _ & I).
    destruct (I i Hi) as (target & s0 & _ & Hs0 & Hs1).
    rewrite Hs in Hs0. injection Hs0 as <-.
    eapply (IH g1 g' _ W1 Hi H Hs1).
    destruct e; [by apply slot_step_unset | done | done].
Qed.

Lemma run_frozen i d es : forall g g',
  wf g -> (i < 3)%nat -> run es g = Some g' ->
  Py.getitem (locked_dist (round g)) i = Some (Some d) ->
  Py.getitem (locked_dist (round g')) i = Some (Some d).
Proof.
  induction es as [|e es IH]; intros g g' W Hi H Hd; simpl in H.
  - by injection H as <-.
  - destruct (step e g) as [g1|] eqn:E; [|done]. simpl in H.
    destruct (step_slot e g g1 W E) as (W1 & _ & I).
    destruct (I i Hi) as (target & s & _ & Hs & Hs1).
    apply (IH g1 g' W1 Hi H).
    apply slot_Some in Hs as (_ & _ & Hld & _).
    apply slot_Some in Hs1 as (_ & _ & Hld1 & _).
    rewrite Hld1. rewrite Hld in Hd. injection Hd as Hd.
    destruct e; [|by rewrite Hd..]. by rewrite (slot_step_frozen _ _ _ _ _ d).
Qed.

Lemma sample_Some f i g r :
  sample f i g = Some r <->
  Py.getitem (sensors_enabled g) i = Some true /\
  exists raw, reading f i = Some raw /\ r = clamp raw g.
Proof.
  unfold sample. split.
  - destruct (Py.getitem (sensors_enabled g) i) as [[|]|]; [|done..].
    destruct (reading f i) as [raw|]; [|done]. simpl. intros [= <-]. eauto.
  - intros (-> & raw & -> & ->). done.
Qed.

(** C8.  In a round started by [reset_game], after any run of frames and
    key presses, and for one more frame [f]:
    - while sensor [i] is not unlocked its [locked_dist] is unset;
    - if [f] is the frame that unlocks the sensor, [locked_dist] is set to
      the clamped reading of [f];
    - once [locked_dist] holds a distance, every later run of the round
      leaves that distance in place. *)
Theorem locked_distance_set_once gp stage_val start_timer now rnd es g f b g' i :
  wf gp -> (i < 3)%nat ->
  run es (reset_game stage_val start_timer now rnd gp) = Some g ->
  draw_game f g = Some (b, g') ->
  (Py.getitem (unlocked (round g')) i = Some false ->
   Py.getitem (locked_dist (round g')) i = Some None) /\
  (Py.getitem (unlocked (round g)) i = Some false ->
   Py.getitem (unlocked (round g')) i = Some true ->
   Py.getitem (sensors_enabled g) i = Some true /\
   exists raw, reading f i = Some raw /\
               Py.getitem (locked_dist (round g')) i = Some (Some (clamp raw g))) /\
  (forall d es' g'',
     Py.getitem (locked_dist (round g)) i = Some (Some d) ->
     run es' g = Some g'' ->
     Py.getitem (locked_dist (round g'')) i = Some (Some d)).
Proof.
  intros Wp Hi Hrun Hdraw.
  pose proof (reset_game_wf stage_val start_timer now rnd gp Wp) as W0.
  destruct (run_wf _ _ _ W0 Hrun) as (W & _).
  destruct (slot_wf _ i W0 Hi) as [s0 Hs0].
  destruct (run_unset i es _ _ s0 W0 Hi Hrun Hs0) as (s & Hs & Hinv).
  { intros _. by apply reset_game_slot in Hs0 as (_ & _ & ?). }
  destruct (draw_game_slot f g W) as (b1 & g1 & E & _ & _ & I & _).
  rewrite E in Hdraw. injection Hdraw as -> ->.
  destruct (I i Hi) as (target & s1 & _ & Hs1 & Hs').
  rewrite Hs in Hs1. injection Hs1 as <-.
  pose proof (slot_Some _ _ _ Hs) as (Gu & _ & Gld & _).
  pose proof (slot_Some _ _ _ Hs') as (Gu' & _ & Gld' & _).
  rewrite Gu, Gu', Gld'. split; [|split].
  - intros [= Hu]. f_equal. by apply slot_step_unset.
  - intros [= Hu] [= Hu'].
    destruct (slot_step_freezes f i g target s Hinv Hu Hu') as (r & Hr & Hd).
    apply sample_Some in Hr as (Hen & raw & Hraw & ->).
    split; [done|]. exists raw. split; [done|]. by rewrite Hd.
  - intros d es' g'' Hd Hrun'. by apply (run_frozen i d es' g g'').
Qed.

(** *** The hold clock *)

Lemma within_same g0 g i r target :
  same_targets g0 g -> Py.getitem (targets (round g)) i = Some target ->
  within g0 i r <-> in_tolerance g r target = true.
Proof.
  intros [Hc Ht] Hi. unfold within, in_tolerance. rewrite <- Ht, Hi, Hc.
  split; [by intros (? & [= <-] & ?) | eauto].
Qed.

Lemma slot_step_unlocked f i g target s :
  s_unlocked s = true -> s_unlocked (slot_step f i g target s) = true.
Proof.
  intros Hu. unfold slot_step, slot_freeze, slot_hold.
  destruct (sample f i g); [|done]. simpl. rewrite Hu. simpl. rewrite ?Hu.
  by destruct (s_locked_dist s).
Qed.

Lemma slot_freeze_hold raw_mm s :
  s_unlocked (slot_freeze raw_mm s) = s_unlocked s /\
  s_lock_start (slot_freeze raw_mm s) = s_lock_start s.
Proof. unfold slot_freeze. by destruct (s_unlocked s) eqn:?, (s_locked_dist s). Qed.

(** The cases of lines 177-181 for a sensor that is not unlocked. *)
Lemma slot_step_cases f i g target s :
  s_unlocked s = false ->
  let s' := slot_step f i g target s in
  match sample f i g with
  | None => s' = s
  | Some r =>
      if in_tolerance g r target then
        match s_lock_start s with
        | None => s_unlocked s' = false /\ s_lock_start s' = Some (t_hold f i)
        | Some t0 =>
            s_lock_start s' = Some t0 /\
            s_unlocked s' = PrimFloat.leb (HOLD_TIME (config g)) (t_hold f i - t0)%float
        end
      else s_unlocked s' = false /\ s_lock_start s' = None
  end.
Proof.
  intros Hu. unfold slot_step. destruct (sample f i g) as [r|]; [|done].
  destruct (slot_freeze_hold r
    (slot_hold f i g r target
       {| s_unlocked := s_unlocked s; s_lock_start := s_lock_start s;
          s_locked_dist := s_locked_dist s;
          s_smooth_mm := (s_smooth_mm s + (r - s_smooth_mm s) * Py.min 1 (alpha * dt f))%float |}))
    as [-> ->].
  unfold slot_hold. simpl. rewrite Hu.
  destruct (in_tolerance g r target); [|done].
  destruct (s_lock_start s) as [t0|]; [|done].
  by destruct (PrimFloat.leb _ _).
Qed.

Lemma slot_step_hold_inv g0 f i g target s h :
  same_targets g0 g -> Py.getitem (targets (round g)) i = Some target ->
  hold_inv g0 i h s ->
  hold_inv g0 i (h ++ [(f, sample f i g)]) (slot_step f i g target s).
Proof.
  intros T Ht Hinv Hu' t0' Hls'.
  destruct (s_unlocked s) eqn:Hu.
  { by rewrite slot_step_unlocked in Hu'. }
  pose proof (slot_step_cases f i g target s Hu) as C. simpl in C.
  destruct (sample f i g) as [r|] eqn:Hsm.
  - destruct (in_tolerance g r target) eqn:Htol.
    + destruct (s_lock_start s) as [t0|] eqn:Hls.
      * destruct C as [C1 C2]. rewrite C1 in Hls'. injection Hls' as <-.
        destruct (Hinv Hu t0 Hls) as (pre & fk & r0 & mid & -> & Hk & Hr0 & Hmid).
        exists pre, fk, r0, (mid ++ [(f, Some r)]).
        split; [by rewrite <- app_assoc|]. split; [done|]. split; [done|].
        apply Forall_app. split; [done|]. apply Forall_singleton.
        intros r' [= <-]. by apply (within_same g0 g i r target).
      * destruct C as [C1 C2]. rewrite C2 in Hls'. injection Hls' as <-.
        exists h, f, r, []. split; [done|]. split; [done|].
        split; [by apply (within_same g0 g i r target)|]. constructor.
    + destruct C as [_ C2]. by rewrite C2 in Hls'.
  - rewrite C in Hls'.
    destruct (Hinv Hu t0' Hls') as (pre & fk & r0 & mid & -> & Hk & Hr0 & Hmid).
    exists pre, fk, r0, (mid ++ [(f, None)]).
    split; [by rewrite <- app_assoc|]. split; [done|]. split; [done|].
    apply Forall_app. split; [done|]. by apply Forall_singleton.
Qed.

Lemma run_hold_inv g0 i es : forall g g1 h s,
  wf g -> (i < 3)%nat -> same_targets g0 g ->
  run es g = Some g1 -> slot g i = Some s -> hold_inv g0 i h s ->
  exists s1, slot g1 i = Some s1 /\ hold_inv g0 i (h ++ history i es g) s1.
Proof.
  induction es as [|e es IH]; intros g g1 h s W Hi T H Hs Hinv; simpl in *.
  - injection H as <-. exists s. by rewrite app_nil_r.
  - destruct (step e g) as [g2|] eqn:E; [|done]. simpl in H.
    destruct (step_slot e g g2 W E) as (W2 & T2 & I).
    destruct (I i Hi) as (target & s0 & Ht & Hs0 & Hs2).
    rewrite Hs in Hs0. injection Hs0 as <-.
    assert (same_targets g0 g2) as T02.
    { destruct T, T2. split; congruence. }
    destruct e as [f|j|t].
    + rewrite app_assoc.
      apply (IH g2 g1 _ _ W2 Hi T02 H Hs2).
      by apply slot_step_hold_inv.
    + simpl. by apply (IH g2 g1 _ _ W2 Hi T02 H Hs2).
    + simpl. by apply (IH g2 g1 _ _ W2 Hi T02 H Hs2).
Qed.

(** C4, as the code has it.  In a round started by [reset_game], take a
    frame [fn] drawn after any run of frames and key presses, for a sensor
    [i] that is not unlocked before it.
    - If [fn] unlocks the sensor, then [fn] sampled it within tolerance,
      and some earlier frame of the round sampled it within tolerance at
      least [HOLD_TIME] before, with every sample taken of the sensor in
      between within tolerance as well.
    - If [fn] samples the sensor outside tolerance, the hold clock is
      cleared and the sensor is not unlocked.
    - If the hold clock is cleared when [fn] starts, [fn] does not unlock
      the sensor: it can at most start the clock.
    - If [fn] does not sample the sensor (switched off, or no reading),
      the hold clock and the lock state of the sensor are left as they
      are. *)
Theorem hold_discipline gp stage_val start_timer now rnd es g1 fn b g2 i :
  let g0 := reset_game stage_val start_timer now rnd gp in
  wf gp -> (i < 3)%nat ->
  run es g0 = Some g1 ->
  draw_game fn g1 = Some (b, g2) ->
  Py.getitem (unlocked (round g1)) i = Some false ->
  (Py.getitem (unlocked (round g2)) i = Some true ->
   held_since g0 i (history i es g0) fn /\
   exists rn, sample fn i g1 = Some rn /\ within g0 i rn) /\
  (forall rn, sample fn i g1 = Some rn -> ~ within g0 i rn ->
     Py.getitem (lock_start (round g2)) i = Some None /\
     Py.getitem (unlocked (round g2)) i = Some false) /\
  (Py.getitem (lock_start (round g1)) i = Some None ->
   Py.getitem (unlocked (round g2)) i = Some false) /\
  (sample fn i g1 = None ->
   Py.getitem (lock_start (round g2)) i = Py.getitem (lock_start (round g1)) i /\
   Py.getitem (unlocked (round g2)) i = Some false).
Proof.
  intros g0 Wp Hi Hrun Hdraw Hu1.
  pose proof (reset_game_wf stage_val start_timer now rnd gp Wp) as W0.
  fold g0 in W0.
  destruct (run_wf _ _ _ W0 Hrun) as (W1 & T).
  destruct (slot_wf _ i W0 Hi) as [s0 Hs0].
  destruct (run_hold_inv g0 i es g0 g1 [] s0 W0 Hi) as (s1 & Hs1 & Hinv);
    [done | done | done | |].
  { intros _ t0 Hls. apply reset_game_slot in Hs0 as (_ & ? & _). congruence. }
  simpl in Hinv.
  destruct (draw_game_slot fn g1 W1) as (b1 & g' & E & _ & _ & I & _).
  rewrite E in Hdraw. injection Hdraw as -> ->.
  destruct (I i Hi) as (target & s & Ht & Hs & Hs2).
  rewrite Hs1 in Hs. injection Hs as <-.
  pose proof (slot_Some _ _ _ Hs1) as (Gu & Gls & _ & _).
  pose proof (slot_Some _ _ _ Hs2) as (Gu2 & Gls2 & _ & _).
  rewrite Gu in Hu1. injection Hu1 as Hu1.
  rewrite Gu2, Gls2, Gls.
  pose proof (slot_step_cases fn i g1 target s1 Hu1) as C. simpl in C.
  split; [|split; [|split]].
  - intros [= Hu2]. destruct (sample fn i g1) as [r|]; [|congruence].
    destruct (in_tolerance g1 r target) eqn:Htol; [|destruct C; congruence].
    destruct (s_lock_start s1) as [t0|] eqn:Hls; [|destruct C; congruence].
    destruct C as [_ C]. rewrite Hu2 in C.
    destruct (Hinv Hu1 t0 Hls) as (pre & fk & r0 & mid & Hh & Hk & Hr0 & Hmid).
    split.
    + exists pre, fk, r0, mid. split; [done|]. split; [done|]. split; [done|].
      rewrite Hk. destruct T as [Hc _]. by rewrite <- Hc.
    + exists r. split; [done|]. by apply (within_same g0 g1 i r target).
  - intros rn Hsm Hout. rewrite Hsm in C.
    destruct (in_tolerance g1 rn target) eqn:Htol.
    + destruct Hout. by apply (within_same g0 g1 i rn target).
    + destruct C as [-> ->]. done.
  - intros [= Hls]. rewrite Hls in C. f_equal.
    destruct (sample fn i g1) as [r|]; [|by rewrite C].
    destruct (in_tolerance g1 r target); by destruct C.
  - intros Hsm. rewrite Hsm in C. rewrite C. by rewrite Hu1.
Qed.

(** ** The sensor feed *)

Lemma pretty_sensor idx :
  0 <= idx <= 2 ->
  pretty (idx + 1) = "1"%string \/ pretty (idx + 1) = "2"%string \/
  pretty (idx + 1) = "3"%string.
Proof.
  intros H. assert (idx = 0 \/ idx = 1 \/ idx = 2) as [->|[->| ->]] by lia; auto.
Qed.

Lemma pretty_other idx :
  idx < 0 \/ 2 < idx ->
  pretty (idx + 1) <> "1"%string /\ pretty (idx + 1) <> "2"%string /\
  pretty (idx + 1) <> "3"%string.
Proof.
  intros H. repeat split.
  - change "1"%string with (pretty 1). intros E. apply (inj pretty) in E. lia.
  - change "2"%string with (pretty 2). intros E. apply (inj pretty) in E. lia.
  - change "3"%string with (pretty 3). intros E. apply (inj pretty) in E. lia.
Qed.

Lemma get_insert d sid v : Py.get (<[sid:=v]> d) sid = v.
Proof. unfold Py.get. by rewrite lookup_insert_eq. Qed.

Lemma get_insert_ne d sid sid' v :
  sid <> sid' -> Py.get (<[sid:=v]> d) sid' = Py.get d sid'.
Proof. intros H. unfold Py.get. by rewrite lookup_insert_ne. Qed.

Section Feed.

Variable py_float : string -> option float.

(** A pass of the loop that stores nothing under [sid] leaves the slot of
    [sid] as it is. *)
Lemma reader_step_other r sid L :
  ~ Sensors.writes py_float r sid ->
  Py.get (dist (Sensors.reader_step py_float r L)) sid = Py.get (dist L) sid /\
  Py.get (last_update (Sensors.reader_step py_float r L)) sid
    = Py.get (last_update L) sid.
Proof.
  intros H. destruct r as [raw now|]; simpl; [|done].
  destruct (Sensors.parse_line raw) as [[sid' val]|] eqn:Hp; [|done].
  destruct (py_float val) as [cm|] eqn:Hf; [|done]. simpl.
  assert (sid' <> sid) as Hne.
  { intros ->. apply H. exists cm, val. done. }
  by rewrite !get_insert_ne.
Qed.

Lemma reader_step_stored raw now sid cm L :
  Sensors.stored_as py_float raw sid cm ->
  Sensors.reader_step py_float (Line raw now) L
    = {| dist := <[sid := Some (cm * 10)%float]> (dist L);
         last_update := <[sid := Some now]> (last_update L) |}.
Proof. intros (val & Hp & Hf). simpl. by rewrite Hp, Hf. Qed.

Lemma reader_run_other rs sid : forall L,
  Forall (fun r => ~ Sensors.writes py_float r sid) rs ->
  Py.get (dist (Sensors.reader_run py_float rs L)) sid = Py.get (dist L) sid /\
  Py.get (last_update (Sensors.reader_run py_float rs L)) sid
    = Py.get (last_update L) sid.
Proof.
  induction rs as [|r rs IH]; intros L H; [done|].
  apply Forall_cons in H as [Hr Hrs]. simpl.
  destruct (IH (Sensors.reader_step py_float r L) Hrs) as [-> ->].
  by apply reader_step_other.
Qed.

Lemma reader_run_app rs1 rs2 L :
  Sensors.reader_run py_float (rs1 ++ rs2) L
    = Sensors.reader_run py_float rs2 (Sensors.reader_run py_float rs1 L).
Proof. apply foldl_app. Qed.

Lemma reader_run_cons r rs L :
  Sensors.reader_run py_float (r :: rs) L
    = Sensors.reader_run py_float rs (Sensors.reader_step py_float r L).
Proof. done. Qed.

Lemma malformed_writes raw now idx :
  0 <= idx <= 2 -> Sensors.malformed py_float raw ->
  ~ Sensors.writes py_float (Line raw now) (pretty (idx + 1)).
Proof.
  intros Hi Hm (cm & val & Hp & Hf). unfold Sensors.malformed in Hm.
  rewrite Hp in Hm. destruct Hm as [Hm|(H1 & H2 & H3)]; [congruence|].
  destruct (pretty_sensor idx Hi) as [E|[E|E]]; congruence.
Qed.

Lemma init_get sid :
  Py.get (dist Sensors.init) sid = None /\
  Py.get (last_update Sensors.init) sid = None.
Proof.
  unfold Py.get, Sensors.init. simpl.
  rewrite !lookup_insert, !lookup_singleton. by repeat case_decide.
Qed.

(** C6.  A malformed line (no comma, a value that is not a number, an id
    that is none of "1", "2", "3", the empty id included) leaves the
    stored distance and the stored timestamp of each of the three sensors
    as they are, and so what [read_distance] returns for them at any
    time. *)
Theorem malformed_frame_ignored raw now L idx timeout t :
  0 <= idx <= 2 ->
  Sensors.malformed py_float raw ->
  let L' := Sensors.reader_step py_float (Line raw now) L in
  Py.get (dist L') (pretty (idx + 1)) = Py.get (dist L) (pretty (idx + 1)) /\
  Py.get (last_update L') (pretty (idx + 1))
    = Py.get (last_update L) (pretty (idx + 1)) /\
  Sensors.read_distance L' idx timeout t = Sensors.read_distance L idx timeout t.
Proof.
  intros Hi Hm L'. subst L'.
  destruct (reader_step_other (Line raw now) (pretty (idx + 1)) L) as [Hd Hl].
  { by apply malformed_writes. }
  split; [done|]. split; [done|].
  unfold Sensors.read_distance. by rewrite Hd, Hl.
Qed.

(** C5.  Take a line that parses as a frame of sensor [idx + 1] with the
    value [cm], received at time [now] after any lines [rs], and followed
    by any lines [rs2] that store nothing for this sensor.  Then
    [read_distance idx] at time [t] returns [cm * 10] unless more than
    [timeout] has passed since [now], in which case it returns [None].
    While no line has stored anything for the sensor it returns [None].
    The default of [timeout] is 2 seconds. *)
Theorem read_after_frame rs raw now cm rs2 idx timeout t :
  0 <= idx <= 2 ->
  Sensors.stored_as py_float raw (pretty (idx + 1)) cm ->
  Forall (fun r => ~ Sensors.writes py_float r (pretty (idx + 1))) rs2 ->
  Sensors.read_distance
    (Sensors.reader_run py_float (rs ++ Line raw now :: rs2) Sensors.init)
    idx timeout t
  = (if PrimFloat.ltb timeout (t - now)%float then None
     else Some (cm * 10)%float) /\
  (Forall (fun r => ~ Sensors.writes py_float r (pretty (idx + 1))) rs ->
   Sensors.read_distance (Sensors.reader_run py_float rs Sensors.init)
     idx timeout t = None) /\
  Sensors.default_timeout = 2%float.
Proof.
  intros Hi Hs H2. split; [|split; [|done]].
  - rewrite reader_run_app, reader_run_cons.
    unfold Sensors.read_distance.
    destruct (reader_run_other rs2 (pretty (idx + 1))
                (Sensors.reader_step py_float (Line raw now)
                   (Sensors.reader_run py_float rs Sensors.init)) H2) as [-> ->].
    rewrite (reader_step_stored _ _ _ _ _ Hs). simpl.
    by rewrite !get_insert.
  - intros H. unfold Sensors.read_distance.
    destruct (reader_run_other rs (pretty (idx + 1)) Sensors.init H) as [-> _].
    by destruct (init_get (pretty (idx + 1))) as [-> _].
Qed.

Lemma known_id_writes r idx :
  idx < 0 \/ 2 < idx -> Sensors.known_id py_float r ->
  ~ Sensors.writes py_float r (pretty (idx + 1)).
Proof.
  intros Hi Hk Hw. destruct (pretty_other idx Hi) as (H1 & H2 & H3).
  destruct (Hk _ Hw) as [E|[E|E]]; congruence.
Qed.

Lemma str_Some n :
  Z.abs n < 10 ^ Py.int_max_str_digits -> Py.str n = Some (pretty n).
Proof. intros H. unfold Py.str. apply Z.ltb_lt in H. by rewrite H. Qed.

Lemma str_None n :
  10 ^ Py.int_max_str_digits <= Z.abs n -> Py.str n = None.
Proof. intros H. unfold Py.str. apply Z.ltb_ge in H. by rewrite H. Qed.

Lemma call_read_distance_Some L idx timeout t :
  Z.abs (idx + 1) < 10 ^ Py.int_max_str_digits ->
  Sensors.call_read_distance L idx timeout t
  = Some (Sensors.read_distance L idx timeout t).
Proof.
  intros H. unfold Sensors.call_read_distance. by rewrite (str_Some _ H).
Qed.

(** C10, as the code has it.  For an index [idx] with [idx + 1] of at
    most 4300 digits, a call of [read_distance] returns in every feed, and
    what it returns is [None] or the stored distance; for a longer index
    line 71 raises.  For an index outside 0, 1, 2 (of at most 4300 digits)
    the call returns [None] in every feed reached from the start by lines
    that store nothing or store under the id "1", "2" or "3". *)
Theorem read_distance_out_of_range rs idx timeout t :
  (Z.abs (idx + 1) < 10 ^ Py.int_max_str_digits ->
   forall L, exists r,
     Sensors.call_read_distance L idx timeout t = Some r /\
     (r = None \/ r = Py.get (dist L) (pretty (idx + 1)))) /\
  (10 ^ Py.int_max_str_digits <= Z.abs (idx + 1) ->
   forall L, Sensors.call_read_distance L idx timeout t = None) /\
  (idx < 0 \/ 2 < idx ->
   Z.abs (idx + 1) < 10 ^ Py.int_max_str_digits ->
   Forall (Sensors.known_id py_float) rs ->
   Sensors.call_read_distance
     (Sensors.reader_run py_float rs Sensors.init) idx timeout t = Some None).
Proof.
  split; [|split].
  - intros Hs L. rewrite (call_read_distance_Some L idx timeout t Hs).
    eexists. split; [reflexivity|].
    unfold Sensors.read_distance, Sensors.fresh.
    destruct (Py.get (dist L) (pretty (idx + 1))),
      (Py.get (last_update L) (pretty (idx + 1))); auto.
    destruct (PrimFloat.ltb timeout _); auto.
  - intros Hs L. unfold Sensors.call_read_distance. by rewrite (str_None _ Hs).
  - intros Hi Hs Hk. rewrite (call_read_distance_Some _ idx timeout t Hs).
    f_equal. unfold Sensors.read_distance.
    destruct (reader_run_other rs (pretty (idx + 1)) Sensors.init) as [-> _].
    { eapply Forall_impl; [exact Hk|]. intros r Hr. by apply known_id_writes. }
    by destruct (init_get (pretty (idx + 1))) as [-> _].
Qed.

End Feed.

(** ** The interleaved read *)

Section Interleaving.

Import Interleave.
Variables (sid : string) (cm now : float) (idx : Z).

Lemma inv_start L : inv sid cm now idx L (start L).
Proof. unfold inv, start. simpl. split; [auto|]. repeat split; lia. Qed.

Lemma inv_turn L c t : inv sid cm now idx L c -> inv sid cm now idx L (turn sid cm now idx c t).
Proof.
  intros H. pose proof H as (Hm & Hc & Hv & Hl). destruct t; simpl.
  - unfold background.
    destruct Hm as [[Hb Hm]|[[Hb Hm]|[Hb Hm]]]; rewrite Hb.
    + split; [|by split_and!]. right; left. simpl. by rewrite Hm.
    + split; [|by split_and!]. right; right. simpl. by rewrite Hm.
    + exact H.
  - unfold caller.
    destruct (cpc c) as [|[|k]] eqn:Hk.
    + split; [done|]. simpl. split; [lia|]. split; [|lia]. intros _.
      destruct Hm as [[_ ->]|[[_ ->]|[_ ->]]]; simpl; auto.
    + split; [done|]. simpl. split; [lia|]. split; [intros _; apply Hv; lia|].
      intros _.
      destruct Hm as [[_ ->]|[[_ ->]|[_ ->]]]; simpl; auto.
    + exact H.
Qed.

Lemma inv_interleave sched L : inv sid cm now idx L (interleave sid cm now idx sched L).
Proof.
  unfold interleave. induction sched as [|t sched IH] using rev_ind.
  - apply inv_start.
  - rewrite foldl_app. simpl. by apply inv_turn.
Qed.








(** The two stores of the model are the assignment of [reader_step], and
    the two loads with nothing in between are [read_distance]. *)
Lemma interleave_sequential py_float raw L timeout t :
  Sensors.stored_as py_float raw sid cm ->
  mem (interleave sid cm now idx [Background; Background] L)
    = Sensors.reader_step py_float (Line raw now) L /\
  result timeout t (interleave sid cm now idx [Caller; Caller] L)
    = Sensors.read_distance L idx timeout t.
Proof.
  intros H. split; [|done].
  by rewrite (reader_step_stored py_float raw now sid cm L H).
Qed.

End Interleaving.

(** ** The value of draw_game *)

(** C2, as the code has it.  On well-formed globals, whenever
    [draw_game] returns, its value is [True] exactly when each of the
    three sensors is switched on, has a reading in this frame, and is
    unlocked when the frame ends.  So it is [False] whenever some sensor
    is switched off, has no reading, or is not unlocked. *)
Theorem all_unlocked_iff_sampled_and_unlocked f g b g' :
  wf g ->
  draw_game f g = Some (b, g') ->
  (b = true <->
   forall i, (i < 3)%nat ->
     Py.getitem (sensors_enabled g) i = Some true /\
     is_Some (reading f i) /\
     Py.getitem (unlocked (round g')) i = Some true) /\
  (forall i, (i < 3)%nat ->
     Py.getitem (sensors_enabled g) i = Some false \/
     reading f i = None \/
     Py.getitem (unlocked (round g')) i = Some false ->
     b = false).
Proof.
  intros W E.
  destruct (draw_game_slot f g W) as (b1 & g1 & E1 & _ & W' & _ & B).
  rewrite E in E1. injection E1 as <- <-.
  assert (b = true <->
          forall i, (i < 3)%nat ->
            Py.getitem (sensors_enabled g) i = Some true /\
            is_Some (reading f i) /\
            Py.getitem (unlocked (round g')) i = Some true) as B'.
  { rewrite B. split; intros H i Hi; destruct (H i Hi) as (H1 & H2).
    - destruct H1 as [r Hr]. apply sample_Some in Hr as (Hen & raw & Hraw & _).
      destruct H2 as (s' & Hs' & Hu). apply slot_Some in Hs' as (Gu & _).
      rewrite Hraw, Gu, Hu. eauto.
    - destruct H2 as ([raw Hraw] & Hu). split.
      + exists (clamp raw g). apply sample_Some. eauto.
      + destruct (slot_wf g' i W' Hi) as [s' Hs'].
        exists s'. split; [done|]. apply slot_Some in Hs' as (Gu & _).
        rewrite Gu in Hu. by injection Hu. }
  split; [done|].
  intros i Hi H. destruct b; [|done].
  destruct B' as [B' _]. destruct (B' eq_refl i Hi) as (H1 & [r H2] & H3).
  destruct H as [H|[H|H]]; congruence.
Qed.

(** ** reset_game *)

(** C3, as the code has it.  [reset_game] draws three fresh targets in
    the range of the rod, clears [unlocked], [lock_start] and
    [locked_dist] of the three sensors, sets the stage, and resets
    [elapsed_time], [score] and [final_beat]; [timer_start] is [now]
    exactly when [start_timer] holds and unset otherwise.  The smoothing
    filter [smooth_mm] is left as it was. *)
Theorem reset_game_resets stage_val start_timer now rnd g :
  let g' := reset_game stage_val start_timer now rnd g in
  fresh_round rnd g' /\
  smooth_mm g' = smooth_mm g /\
  stage (round g') = stage_val /\
  elapsed_time (round g') = 0%float /\
  score (round g') = 0 /\
  final_beat (round g') = false /\
  timer_start (round g') = (if start_timer then Some now else None) /\
  (timer_start (round g') = Some now <-> start_timer = true) /\
  config g' = config g /\ sensors_enabled g' = sensors_enabled g.
Proof.
  simpl. repeat split; try done.
  - by destruct start_timer.
  - by intros ->.
Qed.

(** ** apply_chart_values *)

(** C7, as the code has it.  When the four fields parse as numbers and
    the rod length is not zero, [apply_chart_values] stores the four values
    (and the scale computed from the rod length) and makes a new round:
    fresh targets in the new range, lock state cleared, stage 1, timer
    unset.  When a field does not parse, or the rod length is zero, the
    round is left as it is. *)
Theorem apply_chart_values_resets py_float dist_range_px now rnd g :
  let g' := apply_chart_values py_float dist_range_px now rnd g in
  match field py_float 0 g, field py_float 1 g,
        field py_float 2 g, field py_float 3 g with
  | Some x0, Some x1, Some x2, Some x3 =>
      if PrimFloat.eqb x0 0%float then round g' = round g
      else
        config g' = {| max_mm := x0; TOLERANCE := x1; HOLD_TIME := x2;
                       DIFFICULTY := x3;
                       PX_PER_MM := (dist_range_px / x0)%float |} /\
        fresh_round rnd g' /\
        stage (round g') = 1 /\ timer_start (round g') = None /\
        elapsed_time (round g') = 0%float /\ score (round g') = 0 /\
        final_beat (round g') = false
  | _, _, _, _ => round g' = round g
  end.
Proof.
  intros g'. subst g'. unfold apply_chart_values, field.
  cbn [values set_config].
  destruct (Py.getitem (values g) 0 ≫= py_float) as [x0|]; [|reflexivity].
  destruct (Py.getitem (values g) 1 ≫= py_float) as [x1|]; [|reflexivity].
  destruct (Py.getitem (values g) 2 ≫= py_float) as [x2|]; [|reflexivity].
  destruct (Py.getitem (values g) 3 ≫= py_float) as [x3|]; [|reflexivity].
  unfold Py.div. cbn [config set_config max_mm set_max_mm set_TOLERANCE
    set_HOLD_TIME set_DIFFICULTY].
  destruct (PrimFloat.eqb x0 0); [reflexivity|]. by split_and!.
Qed.

(** ** Stage progression *)

Lemma progress_advance now rnd g :
  final_beat (round g) = false -> stage (round g) < max_stage ->
  progress true now rnd g
    = Some (reset_game (stage (round g) + 1) false now rnd
              (set_round (set_stage (stage (round g) + 1) (round g)) g)) /\
  forall g', progress true now rnd g = Some g' ->
    stage (round g') = stage (round g) + 1 /\ timer_start (round g') = None.
Proof.
  intros Hf Hs. unfold progress. rewrite Hf. simpl.
  apply Z.ltb_lt in Hs. rewrite Hs. split; [done|]. by intros g' [= <-].
Qed.

(** C1.  A round started at time 100 with the timer running; the three
    sensors sit on their targets and unlock at time 103, which ends stage 1.
    The stage index goes to 2 and the new round is started with
    [start_timer=False], but line 106 then assigns [None] to [timer_start]:
    the start of the clock is lost instead of kept.  When the third stage
    is completed at time 111 the guard of line 223 finds no [timer_start],
    so [elapsed_time] is 0 and not the 11 seconds the three stages took,
    and the score is the one of an instant round. *)
Theorem stage_advance_clears_timer :
  let play fs := Ex.frames fs Ex.g0 in
  let two := [(Ex.on_target 100, 100); (Ex.on_target 103, 103)]%float in
  let six := (two ++ [(Ex.on_target 104, 104); (Ex.on_target 107, 107);
                      (Ex.on_target 108, 108); (Ex.on_target 111, 111)])%float in
  timer_start (round Ex.g0) = Some 100%float /\
  (g ← play two; Some (stage (round g), timer_start (round g)))
    = Some (2, None) /\
  (g ← play six;
   Some (stage (round g), final_beat (round g), timer_end g,
         elapsed_time (round g), score (round g)))
    = Some (3, true, Some 111%float, 0%float, 1000000).
Proof. repeat split; vm_compute; reflexivity. Qed.

(** ** The properties on the concrete inputs *)

(** Two floats that compare different are different. *)
Ltac float_neq H :=
  match type of H with
  | ?a = _ => apply (f_equal (PrimFloat.eqb a)) in H; vm_compute in H; discriminate H
  end.

(** The globals of the examples are well formed. *)
Lemma wf_gp : wf Ex.gp.
Proof. split; reflexivity. Defined.

(** C2 fails as worded.  With sensor 0 switched off and the two others
    unlocked, every sensor that is switched on is unlocked, and [draw_game]
    returns [False]; with the three sensors unlocked and the feed of sensor
    0 gone stale it returns [False] as well. *)
Lemma all_unlocked_iff_counterexample :
  ~ Spec.all_unlocked_iff (Ex.on_target 103) Ex.g_off /\
  ~ Spec.all_unlocked_iff (Ex.frame Ex.stale_0 110) Ex.g_all.
Proof.
  split; intros H.
  - specialize (H (Ex.drawn (Ex.on_target 103) Ex.g_off).1
                  (Ex.drawn (Ex.on_target 103) Ex.g_off).2).
    destruct H as [_ H]; [vm_compute; reflexivity|].
    assert ((Ex.drawn (Ex.on_target 103) Ex.g_off).1 = false) as E
      by (vm_compute; reflexivity).
    rewrite E in H. discriminate H.
    intros [|[|[|i]]] Hi; vm_compute; intros; (congruence || lia).
  - specialize (H (Ex.drawn (Ex.frame Ex.stale_0 110) Ex.g_all).1
                  (Ex.drawn (Ex.frame Ex.stale_0 110) Ex.g_all).2).
    destruct H as [_ H]; [vm_compute; reflexivity|].
    assert ((Ex.drawn (Ex.frame Ex.stale_0 110) Ex.g_all).1 = false) as E
      by (vm_compute; reflexivity).
    rewrite E in H. discriminate H.
    intros [|[|[|i]]] Hi; vm_compute; intros; (congruence || lia).
Qed.

(** The value of [draw_game] on the round with the three sensors unlocked. *)
Lemma all_unlocked_witness :
  let b := (Ex.drawn (Ex.on_target 103) Ex.g_all).1 in
  let g' := (Ex.drawn (Ex.on_target 103) Ex.g_all).2 in
  b = true /\
  forall i, (i < 3)%nat ->
    Py.getitem (sensors_enabled Ex.g_all) i = Some true /\
    is_Some (reading (Ex.on_target 103) i) /\
    Py.getitem (unlocked (round g')) i = Some true.
Proof.
  intros b g'. split; [vm_compute; reflexivity|].
  destruct (all_unlocked_iff_sampled_and_unlocked
              (Ex.on_target 103) Ex.g_all b g') as [[H _] _].
  - split; reflexivity.
  - vm_compute. reflexivity.
  - apply H. vm_compute. reflexivity.
Defined.

(** C3 fails as worded: [reset_game] leaves the smoothing filter at 300,
    600, 900 where it was, not at its initial 0. *)
Lemma new_round_counterexample :
  ~ Spec.new_round_resets 1 true 100 Ex.rnd Ex.g_moved.
Proof.
  intros (_ & H & _).
  apply (f_equal (fun l => default 0%float (l !! 0%nat))) in H.
  vm_compute in H. float_neq H.
Qed.

(** C4 fails as worded.  With [HOLD_TIME] 3: sensor 0 is on its target at
    time 100, the feed reports it 200 mm away at time 101 while the sensor
    is switched off, and at time 103, switched on again and back on its
    target, it is unlocked, two seconds after the excursion. *)
Lemma hold_counterexample :
  ~ Spec.locks_after_hold Ex.g0 Ex.excursion (Ex.on_target 103) 0.
Proof.
  intros H.
  specialize (H (Ex.after (run Ex.excursion Ex.g0))
                (Ex.drawn (Ex.on_target 103) (Ex.after (run Ex.excursion Ex.g0))).1
                (Ex.drawn (Ex.on_target 103) (Ex.after (run Ex.excursion Ex.g0))).2).
  destruct H as (pre & fk & mid & Hh & Hall & _); try (vm_compute; reflexivity).
  assert (history 0 Ex.excursion Ex.g0
          = [(Ex.on_target 100, sample (Ex.on_target 100) 0 Ex.g0);
             (Ex.off_target 101,
              sample (Ex.off_target 101) 0
                (Ex.after (run (take 2 Ex.excursion) Ex.g0)))]) as E.
  { reflexivity. }
  rewrite E in Hh. clear E.
  assert (Forall (fun e : Frame * option float =>
                    exists raw, reading e.1 0 = Some raw /\
                                within Ex.g0 0 (clamp raw Ex.g0))
            [(Ex.off_target 101,
              sample (Ex.off_target 101) 0
                (Ex.after (run (take 2 Ex.excursion) Ex.g0)))]) as Hlast.
  { destruct pre as [|p0 [|p1 [|p2 pre]]]; simpl in Hh.
    - injection Hh as <- <-. by apply Forall_cons in Hall as [_ Hall].
    - injection Hh as _ <- <-. done.
    - injection Hh as _ _ Hh. discriminate Hh.
    - injection Hh as _ _ Hh. discriminate Hh. }
  apply Forall_cons in Hlast as [(raw & Hraw & target & Ht & Htol) _].
  assert (reading (Ex.off_target 101) 0 = Some 500%float) as R
    by (vm_compute; reflexivity).
  cbn [fst] in Hraw. rewrite R in Hraw. apply (inj Some) in Hraw. subst raw.
  assert (Py.getitem (targets (round Ex.g0)) 0 = Some 300%float) as T
    by (vm_compute; reflexivity).
  rewrite T in Ht. apply (inj Some) in Ht. subst target.
  vm_compute in Htol. discriminate Htol.
Qed.

(** Sensor 0 on its target from time 100 on is unlocked at time 103 after a
    hold that started with the frame of time 100. *)
Lemma hold_discipline_witness :
  held_since Ex.g0 0 (history 0 [Draw (Ex.on_target 100)] Ex.g0)
    (Ex.on_target 103).
Proof.
  pose (g1 := Ex.after (run [Draw (Ex.on_target 100)] Ex.g0)).
  destruct (hold_discipline Ex.gp 1 true 100 Ex.rnd
              [Draw (Ex.on_target 100)] g1 (Ex.on_target 103)
              (Ex.drawn (Ex.on_target 103) g1).1
              (Ex.drawn (Ex.on_target 103) g1).2 0%nat)
    as [H _].
  - split; reflexivity.
  - lia.
  - vm_compute. reflexivity.
  - vm_compute. reflexivity.
  - vm_compute. reflexivity.
  - apply H. vm_compute. reflexivity.
Defined.

(** The frame of time 103 unlocks sensor 0 and freezes its distance at the
    300 mm it reads. *)
Lemma locked_distance_witness :
  Py.getitem
    (locked_dist
       (round (Ex.drawn (Ex.on_target 103)
                 (Ex.after (run [Draw (Ex.on_target 100)] Ex.g0))).2)) 0
  = Some (Some 300%float).
Proof.
  pose (g1 := Ex.after (run [Draw (Ex.on_target 100)] Ex.g0)).
  destruct (locked_distance_set_once Ex.gp 1 true 100 Ex.rnd
              [Draw (Ex.on_target 100)] g1 (Ex.on_target 103)
              (Ex.drawn (Ex.on_target 103) g1).1
              (Ex.drawn (Ex.on_target 103) g1).2 0%nat)
    as (_ & H & _).
  - split; reflexivity.
  - lia.
  - vm_compute. reflexivity.
  - vm_compute. reflexivity.
  - destruct H as (_ & raw & Hraw & H); [vm_compute; reflexivity..|].
    subst g1. rewrite H.
    assert (reading (Ex.on_target 103) 0 = Some 300%float) as R
      by (vm_compute; reflexivity).
    rewrite R in Hraw. apply (inj Some) in Hraw. subst raw.
    vm_compute. reflexivity.
Defined.

(** C7 fails as worded.  With a rod length of 0 typed in, the four values
    are assigned ([max_mm] goes from 1200 to 0), line 123 divides by zero,
    line 125 swallows the error, and the round keeps its unlocked sensor
    and its old targets. *)
Lemma apply_chart_values_counterexample :
  ~ Spec.config_change_resets Py.float_of_decimal 500 0 Ex.rnd Ex.g_zero.
Proof.
  intros H. destruct H as (_ & H & _).
  - intros E. apply (f_equal max_mm) in E. vm_compute in E. float_neq E.
  - vm_compute in H. discriminate H.
Qed.



(** C10 fails as worded: after the line [7,12.5] the reader has stored 125
    mm under the key "7", and [read_distance 6] returns it. *)
Lemma out_of_range_counterexample :
  ~ Spec.out_of_range_none Ex.feed_7 6 2 100.
Proof.
  intros H. unfold Spec.out_of_range_none in H.
  assert (Sensors.read_distance Ex.feed_7 6 2 100 = Some 125%float) as E
    by (vm_compute; reflexivity).
  rewrite E in H. discriminate H. lia.
Qed.

(** The line [1,12.5] stores under the id of sensor 1. *)
Lemma known_id_line_1 :
  Sensors.known_id Py.float_of_decimal (Line "1,12.5" 100).
Proof.
  intros sid (cm & val & Hp & _). vm_compute in Hp. injection Hp as <- _. auto.
Defined.

(** After a line of sensor 1, a call for index 6 returns [None]. *)
Lemma out_of_range_witness :
  Sensors.call_read_distance
    (Sensors.reader_run Py.float_of_decimal [Line "1,12.5" 100] Sensors.init)
    6 2 101 = Some None.
Proof.
  destruct (read_distance_out_of_range Py.float_of_decimal
              [Line "1,12.5" 100] 6 2 101) as (_ & _ & H).
  apply H.
  - lia.
  - apply (Z.lt_le_trans _ (10 ^ 1)); [reflexivity|].
    apply Z.pow_le_mono_r; [reflexivity | discriminate].
  - constructor; [exact known_id_line_1 | constructor].
Defined.

(** 12.5 cm received at time 100 reads as 125 mm at time 101, a line of
    sensor 2 having come in between. *)
Lemma read_after_frame_witness :
  Sensors.read_distance
    (Sensors.reader_run Py.float_of_decimal
       [Line "1,12.5" 100; Line "2,7" 100.5] Sensors.init)
    0 Sensors.default_timeout 101
  = Some 125%float.
Proof.
  destruct (read_after_frame Py.float_of_decimal [] "1,12.5" 100 12.5
              [Line "2,7" 100.5] 0 Sensors.default_timeout 101) as (H & _).
  - lia.
  - exists "12.5"%string. split; vm_compute; reflexivity.
  - constructor; [|constructor].
    intros (cm & val & Hp & _). vm_compute in Hp. discriminate Hp.
  - exact H.
Defined.

(** The line [1,abc] leaves the reading of sensor 1 as it was. *)
Lemma malformed_frame_witness :
  Sensors.read_distance
    (Sensors.reader_step Py.float_of_decimal (Line "1,abc" 105) Ex.old_feed)
    0 2 1
  = Sensors.read_distance Ex.old_feed 0 2 1.
Proof.
  destruct (malformed_frame_ignored Py.float_of_decimal "1,abc" 105
              Ex.old_feed 0 2 1) as (_ & _ & H).
  - lia.
  - left. vm_compute. reflexivity.
  - exact H.
Defined.

(** * More of the code *)

(** ** Lines: splitting, stripping, decoding *)

Lemma append_cons c s t :
  String.append (String c s) t = String c (String.append s t).
Proof. reflexivity. Qed.

Lemma append_nil_l t : String.append EmptyString t = t.
Proof. reflexivity. Qed.

Lemma append_nil_r s : String.append s EmptyString = s.
Proof. induction s as [|c s IH]; [done|]. by rewrite append_cons, IH. Qed.

Lemma append_assoc s t u :
  String.append (String.append s t) u = String.append s (String.append t u).
Proof. induction s as [|c s IH]; [done|]. by rewrite !append_cons, IH. Qed.

Lemma contains_cons c s :
  Py.contains "," (String c s) = Ascii.eqb c "," || Py.contains "," s.
Proof. cbn [Py.contains]. by rewrite Ascii.eqb_sym. Qed.

Lemma split_comma_cons c s :
  Py.split_comma (String c s) =
  if Ascii.eqb c "," then Some (EmptyString, s)
  else match Py.split_comma s with
       | Some (a, b) => Some (String c a, b)
       | None => None
       end.
Proof. reflexivity. Qed.

Lemma split_comma_contains s :
  Py.split_comma s = None <-> Py.contains "," s = false.
Proof.
  induction s as [|c s IH]; [done|].
  rewrite split_comma_cons, contains_cons.
  destruct (Ascii.eqb c ","); simpl; [done|].
  destruct (Py.split_comma s) as [[a b]|]; [|done].
  split; [discriminate|]. intros H. apply IH in H. discriminate.
Qed.

Lemma split_comma_join a b :
  Py.contains "," a = false ->
  Py.split_comma (String.append a (String "," b)) = Some (a, b).
Proof.
  induction a as [|c a IH]; intros H; [done|].
  rewrite contains_cons in H. apply orb_false_iff in H as [Hc Ha].
  rewrite append_cons, split_comma_cons, Hc. by rewrite IH.
Qed.

Lemma split_comma_Some s a b :
  Py.split_comma s = Some (a, b) ->
  s = String.append a (String "," b) /\ Py.contains "," a = false.
Proof.
  revert a. induction s as [|c s IH]; intros a H; [done|].
  rewrite split_comma_cons in H.
  destruct (Ascii.eqb c ",") eqn:E.
  - apply Ascii.eqb_eq in E as ->. by injection H as <- <-.
  - destruct (Py.split_comma s) as [[a' b']|]; [|done].
    injection H as <- <-. destruct (IH a' eq_refl) as [-> Ha].
    split; [done|]. by rewrite contains_cons, E.
Qed.

(** X1.  The split at line 57 and the test of line 56 agree, and the split is
    the inverse of joining two texts with a comma when the first has none:
    the id is everything before the first comma, the value everything
    after it, further commas included. *)
Theorem split_comma_round_trip s a b :
  (Py.split_comma s = None <-> Py.contains "," s = false) /\
  (Py.split_comma s = Some (a, b) <->
   s = String.append a (String "," b) /\ Py.contains "," a = false).
Proof.
  split; [apply split_comma_contains|]. split.
  - apply split_comma_Some.
  - intros [-> H]. by apply split_comma_join.
Qed.

(** *** Reversal *)

Lemma rev_app_append s t :
  String.rev_app s t = String.append (String.rev s) t.
Proof.
  unfold String.rev. revert t. induction s as [|c s IH]; intros t; simpl; [done|].
  rewrite (IH (String c t)), (IH (String c EmptyString)).
  by rewrite append_assoc.
Qed.

Lemma rev_cons c s :
  String.rev (String c s) = String.append (String.rev s) (String c EmptyString).
Proof. unfold String.rev at 1. simpl. apply rev_app_append. Qed.

Lemma rev_append s t :
  String.rev (String.append s t) = String.append (String.rev t) (String.rev s).
Proof.
  induction s as [|c s IH].
  - by rewrite append_nil_l, append_nil_r.
  - by rewrite append_cons, !rev_cons, IH, append_assoc.
Qed.

Lemma rev_involutive s : String.rev (String.rev s) = s.
Proof.
  induction s as [|c s IH]; [done|].
  by rewrite rev_cons, rev_append, IH.
Qed.

(** *** White space *)

Lemma all_space_append s t :
  Text.all_space (String.append s t) = Text.all_space s && Text.all_space t.
Proof.
  induction s as [|c s IH]; [done|]. rewrite append_cons.
  cbn [Text.all_space]. by rewrite IH, andb_assoc.
Qed.

Lemma all_space_rev s : Text.all_space (String.rev s) = Text.all_space s.
Proof.
  induction s as [|c s IH]; [done|].
  rewrite rev_cons, all_space_append, IH. cbn [Text.all_space].
  by rewrite andb_true_r, andb_comm.
Qed.

Lemma lstrip_cons c s :
  Py.lstrip (String c s) = if Py.isspace c then Py.lstrip s else String c s.
Proof. reflexivity. Qed.

Lemma lstrip_space ws s :
  Text.all_space ws = true -> Py.lstrip (String.append ws s) = Py.lstrip s.
Proof.
  induction ws as [|c ws IH]; cbn [Text.all_space]; intros H; [done|].
  apply andb_true_iff in H as [Hc Hws].
  rewrite append_cons, lstrip_cons, Hc. by apply IH.
Qed.

Lemma lstrip_all_space ws : Text.all_space ws = true -> Py.lstrip ws = EmptyString.
Proof.
  intros H. rewrite <- (append_nil_r ws). by rewrite lstrip_space.
Qed.

Lemma lstrip_append s t :
  Text.all_space s = false ->
  Py.lstrip (String.append s t) = String.append (Py.lstrip s) t.
Proof.
  induction s as [|c s IH]; cbn [Text.all_space]; intros H; [done|].
  rewrite append_cons, !lstrip_cons. destruct (Py.isspace c); [|done].
  by apply IH.
Qed.

Lemma rstrip_space s ws :
  Text.all_space ws = true -> Py.rstrip (String.append s ws) = Py.rstrip s.
Proof.
  intros H. unfold Py.rstrip. rewrite rev_append, lstrip_space; [done|].
  by rewrite all_space_rev.
Qed.

Lemma strip_space ws1 s ws2 :
  Text.all_space ws1 = true -> Text.all_space ws2 = true ->
  Py.strip (String.append ws1 (String.append s ws2)) = Py.strip s.
Proof.
  intros H1 H2. unfold Py.strip. rewrite lstrip_space by done.
  destruct (Text.all_space s) eqn:Hs.
  - rewrite (lstrip_all_space s Hs).
    rewrite lstrip_all_space; [done|]. by rewrite all_space_append, Hs, H2.
  - rewrite lstrip_append by done. by rewrite rstrip_space.
Qed.

Lemma strip_all_space ws : Text.all_space ws = true -> Py.strip ws = EmptyString.
Proof. intros H. unfold Py.strip. by rewrite lstrip_all_space. Qed.

(** *** Decoding *)

Lemma decode_cons c s :
  Py.decode_ascii (String c s) =
  if (nat_of_ascii c <? 128)%nat then String c (Py.decode_ascii s)
  else Py.decode_ascii s.
Proof. reflexivity. Qed.

Lemma decode_append s t :
  Py.decode_ascii (String.append s t)
  = String.append (Py.decode_ascii s) (Py.decode_ascii t).
Proof.
  induction s as [|c s IH]; [done|]. rewrite append_cons, !decode_cons.
  destruct (nat_of_ascii c <? 128)%nat; [|done]. by rewrite append_cons, IH.
Qed.

Lemma isspace_ascii c : Py.isspace c = true -> (nat_of_ascii c <? 128)%nat = true.
Proof.
  unfold Py.isspace. intros H. apply Nat.ltb_lt.
  apply orb_true_iff in H as [H|H]; apply andb_true_iff in H as [_ H];
    apply Nat.leb_le in H; lia.
Qed.

Lemma decode_space ws : Text.all_space ws = true -> Py.decode_ascii ws = ws.
Proof.
  induction ws as [|c ws IH]; cbn [Text.all_space]; intros H; [done|].
  apply andb_true_iff in H as [Hc Hws].
  rewrite decode_cons, (isspace_ascii c Hc). by rewrite IH.
Qed.

Section MoreFeed.

Variable py_float : string -> option float.

(** X2.  A line made of white space only - a bare line end, or the empty bytes
    of a read that timed out - leaves the feed as it is. *)
Theorem blank_line_ignored ws now L :
  Text.all_space ws = true ->
  Sensors.reader_step py_float (Line ws now) L = L.
Proof.
  intros H. simpl. unfold Sensors.parse_line.
  by rewrite (decode_space ws H), (strip_all_space ws H).
Qed.

(** X3.  White space around a line (the line end the device sends, spaces
    before the id) does not change what the reader does with it. *)
Theorem surrounding_space_ignored ws1 raw ws2 now L :
  Text.all_space ws1 = true -> Text.all_space ws2 = true ->
  Sensors.reader_step py_float
    (Line (String.append ws1 (String.append raw ws2)) now) L
  = Sensors.reader_step py_float (Line raw now) L.
Proof.
  intros H1 H2. simpl. unfold Sensors.parse_line.
  rewrite !decode_append, (decode_space ws1 H1), (decode_space ws2 H2).
  by rewrite strip_space.
Qed.

(** X4.  A byte above 127 anywhere in a line is dropped before the line is
    read: the reader does what it does for the line without it. *)
Theorem high_byte_ignored a c b now L :
  (128 <= nat_of_ascii c)%nat ->
  Sensors.reader_step py_float (Line (String.append a (String c b)) now) L
  = Sensors.reader_step py_float (Line (String.append a b) now) L.
Proof.
  intros H. simpl. unfold Sensors.parse_line.
  rewrite !decode_append, decode_cons.
  apply Nat.ltb_ge in H. by rewrite H.
Qed.

End MoreFeed.

(** ** The table of the feed *)

Section MoreTable.

Variable py_float : string -> option float.

Lemma paired_init : Table.paired Sensors.init.
Proof. intros sid. by destruct (init_get sid) as [-> ->]. Qed.

Lemma paired_step r L :
  Table.paired L -> Table.paired (Sensors.reader_step py_float r L).
Proof.
  intros H. destruct r as [raw now|]; simpl; [|done].
  destruct (Sensors.parse_line raw) as [[sid val]|]; [|done].
  destruct (py_float val) as [cm|]; [|done].
  intros sid'. simpl. destruct (decide (sid = sid')) as [->|Hne].
  - by rewrite !get_insert.
  - rewrite !get_insert_ne by done. apply H.
Qed.

(** X5.  After any number of whole passes of the reader from the start, an id
    has a distance exactly when it has a timestamp.  (Inside a pass,
    between lines 60 and 61, the distance is there before its
    timestamp.) *)
Theorem distance_iff_timestamp rs sid :
  let L := Sensors.reader_run py_float rs Sensors.init in
  Py.get (dist L) sid = None <-> Py.get (last_update L) sid = None.
Proof.
  simpl. revert sid. change (Table.paired (Sensors.reader_run py_float rs Sensors.init)).
  generalize paired_init. generalize Sensors.init.
  induction rs as [|r rs IH]; intros L H; [done|].
  rewrite reader_run_cons. apply IH. by apply paired_step.
Qed.

(** X6.  A frame of one sensor changes nothing for another: after a frame
    stored for index [j], what [read_distance] returns for any other index
    [i] is what it returned before. *)
Theorem frame_leaves_other_sensors raw now cm L i j timeout t :
  Sensors.stored_as py_float raw (pretty (j + 1)) cm ->
  i <> j ->
  Sensors.read_distance (Sensors.reader_step py_float (Line raw now) L)
    i timeout t
  = Sensors.read_distance L i timeout t.
Proof.
  intros Hs Hij. rewrite (reader_step_stored _ _ _ _ _ _ Hs).
  unfold Sensors.read_distance. simpl.
  assert (pretty (j + 1) <> pretty (i + 1)) as Hne.
  { intros E. apply (inj pretty) in E. lia. }
  by rewrite !get_insert_ne.
Qed.

(** X7.  Two passes of the reader that store under different ids (or store
    nothing) can come in either order: the feed is the same. *)
Theorem reader_steps_commute r1 r2 L :
  (forall sid, Sensors.writes py_float r1 sid ->
               ~ Sensors.writes py_float r2 sid) ->
  Sensors.reader_step py_float r1 (Sensors.reader_step py_float r2 L)
  = Sensors.reader_step py_float r2 (Sensors.reader_step py_float r1 L).
Proof.
  intros H. destruct r1 as [raw1 now1|], r2 as [raw2 now2|]; simpl; try done.
  destruct (Sensors.parse_line raw1) as [[sid1 val1]|] eqn:P1; [|done].
  destruct (py_float val1) as [cm1|] eqn:F1; [|done].
  destruct (Sensors.parse_line raw2) as [[sid2 val2]|] eqn:P2; [|done].
  destruct (py_float val2) as [cm2|] eqn:F2; [|done].
  assert (sid1 <> sid2) as Hne.
  { intros ->. apply (H sid2); simpl.
    - exists cm1, val1. by rewrite P1.
    - exists cm2, val2. by rewrite P2. }
  simpl. f_equal; by apply insert_insert_ne.
Qed.

End MoreTable.

(** ** More on draw_game *)

Lemma draw_game_same f g b g' :
  wf g -> draw_game f g = Some (b, g') -> same_frame g g' /\ wf g'.
Proof.
  intros W H. destruct (draw_game_slot f g W) as (b1 & g1 & E & F & W1 & _).
  rewrite E in H. by injection H as _ <-.
Qed.

(** X8.  [draw_game] assigns nothing but entries of [smooth_mm], [unlocked],
    [lock_start] and [locked_dist]: the four globals its line 167 declares
    ([final_beat], [timer_end], [elapsed_time], [score]) come out as they
    went in, and so do the stage, the timer, the targets, the
    configuration, the enabled flags, the mode and the chart; the lists
    keep their three entries. *)
Theorem draw_game_keeps_globals f g b g' :
  wf g -> draw_game f g = Some (b, g') ->
  final_beat (round g') = final_beat (round g) /\
  timer_end g' = timer_end g /\
  elapsed_time (round g') = elapsed_time (round g) /\
  score (round g') = score (round g) /\
  stage (round g') = stage (round g) /\
  timer_start (round g') = timer_start (round g) /\
  targets (round g') = targets (round g) /\
  config g' = config g /\
  sensors_enabled g' = sensors_enabled g /\
  mode g' = mode g /\ values g' = values g /\ active g' = active g /\
  wf g'.
Proof.
  intros W H. destruct (draw_game_same f g b g' W H) as [[] W'].
  by split_and!.
Qed.

Lemma draw_game_entries f g b g' i :
  wf g -> (i < 3)%nat -> draw_game f g = Some (b, g') ->
  exists target s,
    Py.getitem (targets (round g)) i = Some target /\
    slot g i = Some s /\ slot g' i = Some (slot_step f i g target s).
Proof.
  intros W Hi H. destruct (draw_game_slot f g W) as (b1 & g1 & E & _ & _ & I & _).
  rewrite E in H. injection H as _ <-. by apply I.
Qed.

Lemma sample_None f i g :
  (i < 3)%nat -> wf g ->
  sample f i g = None <->
  Py.getitem (sensors_enabled g) i = Some false \/ reading f i = None.
Proof.
  intros Hi [_ _ _ _ _ W6]. unfold sample.
  destruct (getitem_lt (sensors_enabled g) i) as [en Hen]; [lia|].
  rewrite Hen. destruct en.
  - destruct (reading f i); simpl; split; intros H; try done; auto.
    by destruct H.
  - split; auto.
Qed.

Lemma slot_step_smooth f i g target s :
  s_smooth_mm (slot_step f i g target s)
  = match sample f i g with
    | Some r => (s_smooth_mm s + (r - s_smooth_mm s) * Py.min 1 (alpha * dt f))%float
    | None => s_smooth_mm s
    end.
Proof.
  unfold slot_step, slot_freeze, slot_hold.
  destruct (sample f i g) as [r|]; [|done]. simpl.
  repeat (case_match; simpl; try done).
Qed.

(** X9.  The smoothing filter of a sensor moves in every frame that samples
    the sensor, unlocked or not, to [s + (r - s) * min(1, alpha * dt)] for
    the clamped reading [r]; in a frame that skips the sensor (switched
    off, or no reading) it stays where it is. *)
Theorem smoothing_follows_every_sample f g b g' i s :
  wf g -> (i < 3)%nat -> draw_game f g = Some (b, g') ->
  Py.getitem (smooth_mm g) i = Some s ->
  Py.getitem (smooth_mm g') i
  = Some match sample f i g with
         | Some r => (s + (r - s) * Py.min 1 (alpha * dt f))%float
         | None => s
         end.
Proof.
  intros W Hi H Hsm.
  destruct (draw_game_entries f g b g' i W Hi H) as (target & s0 & _ & Hs & Hs').
  apply slot_Some in Hs as (_ & _ & _ & Gs).
  apply slot_Some in Hs' as (_ & _ & _ & Gs').
  rewrite Gs in Hsm. injection Hsm as <-.
  by rewrite Gs', slot_step_smooth.
Qed.

(** X10.  The first sample within tolerance of a sensor whose hold clock is
    cleared starts the clock at the time of that frame, and does not unlock
    the sensor, whatever [HOLD_TIME] is. *)
Theorem hold_clock_starts f g b g' i r :
  wf g -> (i < 3)%nat -> draw_game f g = Some (b, g') ->
  Py.getitem (unlocked (round g)) i = Some false ->
  Py.getitem (lock_start (round g)) i = Some None ->
  sample f i g = Some r -> within g i r ->
  Py.getitem (lock_start (round g')) i = Some (Some (t_hold f i)) /\
  Py.getitem (unlocked (round g')) i = Some false.
Proof.
  intros W Hi H Hu Hls Hr (target & Ht & Htol).
  destruct (draw_game_entries f g b g' i W Hi H) as (target' & s & Ht' & Hs & Hs').
  rewrite Ht in Ht'. injection Ht' as <-.
  pose proof (slot_Some _ _ _ Hs) as (Gu & Gls & _ & _).
  rewrite Gu in Hu. injection Hu as Hu. rewrite Gls in Hls. injection Hls as Hls.
  pose proof (slot_step_cases f i g target s Hu) as C. simpl in C.
  rewrite Hr, Htol, Hls in C. destruct C as [C1 C2].
  apply slot_Some in Hs' as (-> & -> & _ & _). by rewrite C1, C2.
Qed.

(** X11.  A sample within tolerance at least [HOLD_TIME] after the hold clock
    started unlocks the sensor in that frame and freezes its distance at
    that sample. *)
Theorem hold_completes f g b g' i r t0 :
  wf g -> (i < 3)%nat -> draw_game f g = Some (b, g') ->
  Py.getitem (unlocked (round g)) i = Some false ->
  Py.getitem (lock_start (round g)) i = Some (Some t0) ->
  Py.getitem (locked_dist (round g)) i = Some None ->
  sample f i g = Some r -> within g i r ->
  PrimFloat.leb (HOLD_TIME (config g)) (t_hold f i - t0)%float = true ->
  Py.getitem (unlocked (round g')) i = Some true /\
  Py.getitem (locked_dist (round g')) i = Some (Some r).
Proof.
  intros W Hi H Hu Hls Hld Hr (target & Ht & Htol) Hhold.
  destruct (draw_game_entries f g b g' i W Hi H) as (target' & s & Ht' & Hs & Hs').
  rewrite Ht in Ht'. injection Ht' as <-.
  pose proof (slot_Some _ _ _ Hs) as (Gu & Gls & Gld & _).
  rewrite Gu in Hu. injection Hu as Hu. rewrite Gls in Hls. injection Hls as Hls.
  rewrite Gld in Hld. injection Hld as Hld.
  apply slot_Some in Hs' as (-> & _ & -> & _).
  unfold slot_step, slot_freeze, slot_hold. rewrite Hr. simpl.
  rewrite Hu, Htol, Hls, Hhold. simpl. by rewrite Hld.
Qed.

(** *** Inside a round *)

(** X12.  Unlocking is for good: no frame, key press or end of stage inside the
    round locks a sensor again, whatever it reads afterwards. *)
Theorem unlocked_for_the_round es g g' i :
  wf g -> (i < 3)%nat -> run es g = Some g' ->
  Py.getitem (unlocked (round g)) i = Some true ->
  Py.getitem (unlocked (round g')) i = Some true.
Proof.
  revert g. induction es as [|e es IH]; intros g W Hi H Hu; simpl in H.
  - by injection H as <-.
  - destruct (step e g) as [g1|] eqn:E; [|done]. simpl in H.
    destruct (step_slot e g g1 W E) as (W1 & _ & I).
    destruct (I i Hi) as (target & s & _ & Hs & Hs1).
    apply (IH g1 W1 Hi H).
    apply slot_Some in Hs as (Gu & _). apply slot_Some in Hs1 as (Gu1 & _).
    rewrite Gu in Hu. injection Hu as Hu. rewrite Gu1.
    destruct e; [|by rewrite Hu..]. by rewrite slot_step_unlocked.
Qed.

Lemma slot_step_set f i g target s :
  Lock.set_when_unlocked s -> Lock.set_when_unlocked (slot_step f i g target s).
Proof.
  unfold Lock.set_when_unlocked, slot_step, slot_freeze, slot_hold. intros H.
  destruct (sample f i g) as [r|]; [|done]. simpl.
  destruct (s_unlocked s) eqn:Hu; simpl.
  - rewrite ?Hu. destruct (s_locked_dist s) eqn:Hd; simpl; rewrite ?Hd; eauto.
  - destruct (in_tolerance g r target); simpl; rewrite ?Hu; [|done].
    destruct (s_lock_start s); simpl; rewrite ?Hu; [|done].
    destruct (PrimFloat.leb _ _); simpl; rewrite ?Hu; [|done].
    destruct (s_locked_dist s); simpl; eauto.
Qed.

Lemma run_set i es : forall g g' s,
  wf g -> (i < 3)%nat -> run es g = Some g' ->
  slot g i = Some s -> Lock.set_when_unlocked s ->
  exists s', slot g' i = Some s' /\ Lock.set_when_unlocked s'.
Proof.
  induction es as [|e es IH]; intros g g' s W Hi H Hs Hinv; simpl in H.
  - injection H as <-. eauto.
  - destruct (step e g) as [g1|] eqn:E; [|done]. simpl in H.
    destruct (step_slot e g g1 W E) as (W1 & _ & I).
    destruct (I i Hi) as (target & s0 & _ & Hs0 & Hs1).
    rewrite Hs in Hs0. injection Hs0 as <-.
    eapply (IH g1 g' _ W1 Hi H Hs1).
    destruct e; [by apply slot_step_set | done | done].
Qed.

(** X13.  Anywhere in a round started by [reset_game], the value handed to the
    renderer for a sensor is a distance: the frozen one if the sensor is
    unlocked, the smoothed one otherwise.  The [None] that line 136 draws
    at the origin never comes from [draw_game]. *)
Theorem display_is_a_distance gp stage_val start_timer now rnd es g i :
  wf gp -> (i < 3)%nat ->
  run es (reset_game stage_val start_timer now rnd gp) = Some g ->
  exists d target u,
    display i g = Some (Some d, target, u) /\
    Py.getitem (unlocked (round g)) i = Some u /\
    (if u then Py.getitem (locked_dist (round g)) i = Some (Some d)
     else Py.getitem (smooth_mm g) i = Some d).
Proof.
  intros Wp Hi Hrun.
  pose proof (reset_game_wf stage_val start_timer now rnd gp Wp) as W0.
  destruct (run_wf _ _ _ W0 Hrun) as (W & _).
  destruct (slot_wf _ i W0 Hi) as [s0 Hs0].
  destruct (run_set i es _ _ s0 W0 Hi Hrun Hs0) as (s & Hs & Hinv).
  { intros Hu. by apply reset_game_slot in Hs0 as (? & _ & _); congruence. }
  pose proof (slot_Some _ _ _ Hs) as (Gu & _ & Gld & Gsm).
  pose proof W as [W1 _ _ _ _ _].
  destruct (getitem_lt (targets (round g)) i) as [target Ht]; [lia|].
  unfold display. rewrite Gu. simpl. destruct (s_unlocked s) eqn:Hu.
  - destruct (Hinv Hu) as [d Hd]. rewrite Gld, Hd. simpl. rewrite Ht. simpl.
    exists d, target, true. by rewrite ?Gld, ?Hd.
  - rewrite Gsm. simpl. rewrite Ht. simpl.
    exists (s_smooth_mm s), target, false. done.
Qed.

(** *** Switching sensors on and off *)

(** X14.  Pressing the key of a sensor twice puts the globals back as they
    were. *)
Theorem toggle_twice i g g1 :
  toggle i g = Some g1 -> toggle i g1 = Some g.
Proof.
  unfold toggle. intros H.
  destruct (Py.getitem (sensors_enabled g) i) as [en|] eqn:Hen; [|done].
  simpl in H.
  destruct (Py.setitem (sensors_enabled g) i (negb en)) as [l|] eqn:E; [|done].
  apply setitem_Some in E as [Hi ->]. injection H as <-. simpl.
  unfold Py.getitem in *. rewrite list_lookup_insert_eq by done. simpl.
  rewrite setitem_lt by (by rewrite length_insert). simpl.
  rewrite list_insert_insert_eq, negb_involutive, list_insert_id by done.
  by destruct g.
Qed.

(** ** The chart and the keyboard *)

Lemma numeric_cons c s :
  Text.numeric (String c s) =
  if Text.is_digit c then Text.numeric s
  else Ascii.eqb c "." && Py.all_digits s.
Proof. reflexivity. Qed.

Lemma all_digits_cons c s :
  Py.all_digits (String c s) = Text.is_digit c && Py.all_digits s.
Proof. reflexivity. Qed.

Lemma all_digits_append s t :
  Py.all_digits (String.append s t) = Py.all_digits s && Py.all_digits t.
Proof.
  induction s as [|c s IH]; [done|].
  by rewrite append_cons, !all_digits_cons, IH, andb_assoc.
Qed.

Lemma all_digits_numeric s : Py.all_digits s = true -> Text.numeric s = true.
Proof.
  induction s as [|c s IH]; [done|]. rewrite all_digits_cons, numeric_cons.
  intros H. apply andb_true_iff in H as [-> H]. by apply IH.
Qed.

Lemma point_not_digit : Text.is_digit "." = false.
Proof. reflexivity. Qed.

Lemma numeric_append_digits s t :
  Text.numeric s = true -> Py.all_digits t = true ->
  Text.numeric (String.append s t) = true.
Proof.
  induction s as [|c s IH]; intros Hs Ht.
  - by apply all_digits_numeric.
  - rewrite append_cons, numeric_cons. rewrite numeric_cons in Hs.
    destruct (Text.is_digit c); [by apply IH|].
    apply andb_true_iff in Hs as [-> Hs]. simpl.
    by rewrite all_digits_append, Hs, Ht.
Qed.

Lemma contains_point_cons c s :
  Py.contains "." (String c s) = Ascii.eqb c "." || Py.contains "." s.
Proof. cbn [Py.contains]. by rewrite Ascii.eqb_sym. Qed.

Lemma numeric_no_point s :
  Text.numeric s = true -> Py.contains "." s = false -> Py.all_digits s = true.
Proof.
  induction s as [|c s IH]; [done|].
  rewrite numeric_cons, contains_point_cons, all_digits_cons.
  intros Hs Hp. apply orb_false_iff in Hp as [Hc Hp].
  destruct (Text.is_digit c); [by apply IH|]. by rewrite Hc in Hs.
Qed.

Lemma numeric_append_point s :
  Text.numeric s = true -> Py.contains "." s = false ->
  Text.numeric (String.append s ".") = true.
Proof.
  intros Hs Hp. pose proof (numeric_no_point s Hs Hp) as Hd. clear Hs Hp.
  induction s as [|c s IH]; [done|].
  rewrite all_digits_cons in Hd. apply andb_true_iff in Hd as [Hc Hd].
  rewrite append_cons, numeric_cons, Hc. by apply IH.
Qed.

Lemma drop_last_cons c d s :
  Py.drop_last (String c (String d s)) = String c (Py.drop_last (String d s)).
Proof. reflexivity. Qed.

Lemma all_digits_drop_last s :
  Py.all_digits s = true -> Py.all_digits (Py.drop_last s) = true.
Proof.
  induction s as [|c s IH]; [done|]. destruct s as [|d s]; [done|].
  rewrite drop_last_cons, !(all_digits_cons c). intros H.
  apply andb_true_iff in H as [-> H]. by apply IH.
Qed.

Lemma numeric_drop_last s :
  Text.numeric s = true -> Text.numeric (Py.drop_last s) = true.
Proof.
  induction s as [|c s IH]; [done|]. destruct s as [|d s]; [done|].
  rewrite drop_last_cons, !(numeric_cons c).
  destruct (Text.is_digit c); [by apply IH|]. intros H.
  apply andb_true_iff in H as [-> H]. rewrite andb_true_l.
  by apply all_digits_drop_last.
Qed.

Lemma drop_last_append s c :
  Py.drop_last (String.append s (String c EmptyString)) = s.
Proof.
  induction s as [|d s IH]; [done|]. rewrite append_cons.
  destruct s as [|e s]; [done|].
  rewrite append_cons, drop_last_cons, <- append_cons. by rewrite IH.
Qed.

(** *** reset_game and apply_chart_values on the invariants *)

Lemma reset_game_ui sv st now rnd g :
  Loop.ui_ok g -> Loop.ui_ok (reset_game sv st now rnd g).
Proof. done. Qed.

Lemma reset_game_stage st now rnd g :
  Loop.stage_ok (reset_game 1 st now rnd g).
Proof. unfold Loop.stage_ok, max_stage. simpl. split; [lia|done]. Qed.

Section MoreChart.

Variable py_float : string -> option float.
Variable dist_range_px : float.

(** What [apply_chart_values] leaves alone, whether it goes through or
    stops at a field: the texts of the fields, the smoothing values, the
    enabled flags, the mode and the active field; and the round is either
    the one it found or a new one at stage 1. *)
Lemma apply_chart_values_keeps now rnd g :
  let g' := apply_chart_values py_float dist_range_px now rnd g in
  values g' = values g /\ smooth_mm g' = smooth_mm g /\
  sensors_enabled g' = sensors_enabled g /\ mode g' = mode g /\
  active g' = active g /\ timer_end g' = timer_end g /\
  (round g' = round g \/
   round g' = round (reset_game 1 false now rnd g')).
Proof.
  intros g'. subst g'. unfold apply_chart_values, field.
  cbn [values set_config].
  destruct (Py.getitem (values g) 0 ≫= py_float) as [x0|]; [|by split_and!; auto].
  destruct (Py.getitem (values g) 1 ≫= py_float) as [x1|]; [|by split_and!; auto].
  destruct (Py.getitem (values g) 2 ≫= py_float) as [x2|]; [|by split_and!; auto].
  destruct (Py.getitem (values g) 3 ≫= py_float) as [x3|]; [|by split_and!; auto].
  destruct (Py.div _ _) as [x|]; by split_and!; auto.
Qed.

Lemma apply_chart_values_inv now rnd g :
  let g' := apply_chart_values py_float dist_range_px now rnd g in
  (wf g -> wf g') /\ (Loop.ui_ok g -> Loop.ui_ok g') /\
  (Loop.stage_ok g -> Loop.stage_ok g') /\
  (Loop.fields_numeric g -> Loop.fields_numeric g').
Proof.
  intros g'.
  destruct (apply_chart_values_keeps now rnd g) as (Hv & Hs & He & _ & Ha & _ & Hr).
  fold g' in Hv, Hs, He, Ha, Hr. split_and!.
  - intros [W1 W2 W3 W4 W5 W6]. destruct Hr as [Hr|Hr].
    + split; rewrite ?Hr, ?Hs, ?He; done.
    + split; rewrite ?Hr, ?Hs, ?He; done.
  - unfold Loop.ui_ok. by rewrite Hv, Ha.
  - unfold Loop.stage_ok. destruct Hr as [-> | ->]; [done|].
    intros _. apply (reset_game_stage false now rnd g').
  - unfold Loop.fields_numeric. by rewrite Hv.
Qed.

(** X15.  A field that does not parse stops [apply_chart_values] half way: when
    the rod length parses but a later field does not, or the rod length is
    zero, the new rod length is stored all the same, while the scale
    [PX_PER_MM] and the round (targets included) stay those of the old
    rod length; when the rod length itself does not parse nothing
    changes. *)
Theorem apply_chart_values_partial now rnd g :
  let g' := apply_chart_values py_float dist_range_px now rnd g in
  match field py_float 0 g with
  | None => g' = g
  | Some x0 =>
      field py_float 1 g = None \/ field py_float 2 g = None \/
      field py_float 3 g = None \/ PrimFloat.eqb x0 0 = true ->
      max_mm (config g') = x0 /\
      PX_PER_MM (config g') = PX_PER_MM (config g) /\
      round g' = round g
  end.
Proof.
  intros g'. subst g'. unfold apply_chart_values, field.
  cbn [values set_config].
  destruct (Py.getitem (values g) 0 ≫= py_float) as [x0|]; [|done].
  destruct (Py.getitem (values g) 1 ≫= py_float) as [x1|]; [|done].
  destruct (Py.getitem (values g) 2 ≫= py_float) as [x2|]; [|done].
  destruct (Py.getitem (values g) 3 ≫= py_float) as [x3|]; [|done].
  cbn [config set_config max_mm set_max_mm set_TOLERANCE set_HOLD_TIME
       set_DIFFICULTY].
  unfold Py.div. intros [H|[H|[H|H]]]; try done. by rewrite H.
Qed.

(** X16.  Applying the same fields a second time gives the configuration of the
    first time, whether the first time went through or stopped at a field;
    with the same random draws the globals as a whole are the same. *)
Theorem apply_chart_values_twice now rnd now2 rnd2 g :
  let g' := apply_chart_values py_float dist_range_px now rnd g in
  config (apply_chart_values py_float dist_range_px now2 rnd2 g') = config g' /\
  apply_chart_values py_float dist_range_px now2 rnd g' = g'.
Proof.
  intros g'. subst g'. unfold apply_chart_values, field.
  cbn [values set_config].
  destruct (Py.getitem (values g) 0 ≫= py_float) as [x0|] eqn:E0;
    [|by rewrite E0].
  destruct (Py.getitem (values g) 1 ≫= py_float) as [x1|] eqn:E1.
  2: { cbn [values set_config]. rewrite E0, E1. by destruct g as [? [] ? ? ? ? ? ?]. }
  destruct (Py.getitem (values g) 2 ≫= py_float) as [x2|] eqn:E2.
  2: { cbn [values set_config]. rewrite E0, E1, E2. by destruct g as [? [] ? ? ? ? ? ?]. }
  destruct (Py.getitem (values g) 3 ≫= py_float) as [x3|] eqn:E3.
  2: { cbn [values set_config]. rewrite E0, E1, E2, E3.
       by destruct g as [? [] ? ? ? ? ? ?]. }
  cbn [config set_config max_mm set_max_mm set_TOLERANCE set_HOLD_TIME
       set_DIFFICULTY].
  destruct (Py.div dist_range_px x0) as [x|] eqn:E4.
  2: { cbn [values set_config]. rewrite E0, E1, E2, E3.
       cbn [config set_config max_mm set_max_mm set_TOLERANCE set_HOLD_TIME
            set_DIFFICULTY]. rewrite E4. by destruct g as [? [] ? ? ? ? ? ?]. }
  cbn [values set_config reset_game set_round]. rewrite E0, E1, E2, E3.
  cbn [config set_config max_mm set_max_mm set_TOLERANCE set_HOLD_TIME
       set_DIFFICULTY set_PX_PER_MM]. rewrite E4. split; reflexivity.
Qed.

End MoreChart.

(** *** One key *)

Lemma toggle_inv i g g' :
  toggle i g = Some g' ->
  (wf g -> wf g') /\ round g' = round g /\ values g' = values g /\
  active g' = active g /\ config g' = config g /\ mode g' = mode g.
Proof.
  unfold toggle. intros H.
  destruct (Py.getitem (sensors_enabled g) i) as [en|]; [|done]. simpl in H.
  destruct (Py.setitem (sensors_enabled g) i (negb en)) as [l|] eqn:E; [|done].
  apply setitem_Some in E as [Hi ->]. injection H as <-. split_and!; try done.
  intros [W1 W2 W3 W4 W5 W6]. split; simpl; try done. by rewrite length_insert.
Qed.

Lemma toggle_total i g :
  wf g -> (i < 3)%nat -> is_Some (toggle i g).
Proof.
  intros [_ _ _ _ _ W6] Hi. unfold toggle.
  destruct (getitem_lt (sensors_enabled g) i) as [en Hen]; [lia|].
  rewrite Hen. simpl. rewrite setitem_lt by lia. simpl. eauto.
Qed.

Lemma ui_active g :
  Loop.ui_ok g -> (Z.to_nat (active g) < length (values g))%nat.
Proof. intros [Hl Ha]. rewrite Hl. lia. Qed.

Lemma set_field_inv g k v :
  (k < length (values g))%nat ->
  let g' := set_values (<[k:=v]> (values g)) g in
  (wf g -> wf g') /\ (Loop.ui_ok g -> Loop.ui_ok g') /\
  (Loop.stage_ok g -> Loop.stage_ok g') /\
  (Text.numeric v = true -> Loop.fields_numeric g -> Loop.fields_numeric g').
Proof.
  intros Hk g'. split_and!.
  - by intros [].
  - unfold Loop.ui_ok. simpl. by rewrite length_insert.
  - done.
  - unfold Loop.fields_numeric. simpl. intros Hv H.
    apply Forall_insert; done.
Qed.

Section MoreKeys.

Variable py_float : string -> option float.
Variable dist_range_px : float.

Lemma type_char_inv c g :
  Loop.ui_ok g ->
  exists g', type_char c g = Some g' /\
    (wf g -> wf g') /\ Loop.ui_ok g' /\
    (Loop.stage_ok g -> Loop.stage_ok g') /\
    (Loop.fields_numeric g -> Loop.fields_numeric g').
Proof.
  intros U. pose proof (ui_active g U) as Hk. unfold type_char.
  destruct (getitem_lt (values g) _ Hk) as [v Hv].
  destruct (set_field_inv g (Z.to_nat (active g)) (String.append v c) Hk)
    as (I1 & I2 & I3 & I4).
  assert (Loop.fields_numeric g -> Text.numeric v = true) as Nv.
  { intros N. unfold Loop.fields_numeric in N.
    rewrite Forall_lookup in N. by apply (N _ _ Hv). }
  destruct (negb (String.eqb c "")) eqn:Ec; [|by exists g].
  destruct (Py.isdigit c) eqn:Ed.
  - rewrite Hv. simpl. rewrite setitem_lt by done. simpl.
    eexists; split; [done|]. split_and!; auto.
    intros N. apply I4; [|done]. apply numeric_append_digits; [by apply Nv|].
    unfold Py.isdigit in Ed. by apply andb_true_iff in Ed as [_ ?].
  - destruct (String.eqb c ".") eqn:Ep; [|by exists g].
    apply String.eqb_eq in Ep as ->. rewrite Hv. simpl.
    destruct (negb (Py.contains "." v)) eqn:Ev; [|by exists g].
    rewrite setitem_lt by done. simpl.
    eexists; split; [done|]. split_and!; auto.
    intros N. apply I4; [|done]. apply numeric_append_point; [by apply Nv|].
    by apply negb_true_iff in Ev.
Qed.

(** One key press on globals in order. *)
Lemma on_key_inv ev now rnd g :
  wf g -> Loop.ui_ok g ->
  exists g', on_key py_float dist_range_px ev now rnd g = Some g' /\
    wf g' /\ Loop.ui_ok g' /\
    (Loop.stage_ok g -> Loop.stage_ok g') /\
    (Loop.fields_numeric g -> Loop.fields_numeric g').
Proof.
  intros W U. pose proof (ui_active g U) as Hk.
  pose proof (reset_game_wf 1 true now rnd g W) as Wr.
  destruct (apply_chart_values_inv py_float dist_range_px now rnd g)
    as (A1 & A2 & A3 & A4).
  destruct (type_char_inv (unicode ev) g U) as (gt & Et & T1 & T2 & T3 & T4).
  unfold on_key.
  destruct (mode g) eqn:Hm, (key ev) eqn:Hkey;
    try (exists gt; split; [exact Et|]; by auto).
  all: try (eexists; split; [reflexivity|]; split_and!; auto; fail).
  - (* TAB, chart *)
    eexists; split; [reflexivity|]. split_and!; auto.
    + by destruct Wr.
    + intros _. apply (reset_game_stage true now rnd g).
  - (* UP *)
    eexists; split; [reflexivity|]. split_and!; auto.
    + by destruct W.
    + destruct U as [Hl Ha]. split; [done|]. simpl.
      apply Z.mod_pos_bound. done.
  - (* DOWN *)
    eexists; split; [reflexivity|]. split_and!; auto.
    + by destruct W.
    + destruct U as [Hl Ha]. split; [done|]. simpl.
      apply Z.mod_pos_bound. done.
  - (* BACKSPACE *)
    destruct (getitem_lt (values g) _ Hk) as [v Hv]. rewrite Hv. simpl.
    rewrite setitem_lt by done. simpl.
    destruct (set_field_inv g (Z.to_nat (active g)) (Py.drop_last v) Hk)
      as (I1 & I2 & I3 & I4).
    eexists; split; [reflexivity|]. split_and!; auto.
    intros N. apply I4; [|done]. apply numeric_drop_last.
    unfold Loop.fields_numeric in N. rewrite Forall_lookup in N.
    by apply (N _ _ Hv).
  - (* TAB, game *)
    eexists; split; [reflexivity|]. split_and!; auto. by destruct W.
  - (* 1 *)
    destruct (toggle_total 0 g W) as [g' E]; [lia|].
    destruct (toggle_inv 0 g g' E) as (I1 & I2 & I3 & I4 & I5 & I6).
    exists g'. split; [done|]. split_and!; auto.
    + unfold Loop.ui_ok. by rewrite I3, I4.
    + unfold Loop.stage_ok. by rewrite I2.
    + unfold Loop.fields_numeric. by rewrite I3.
  - destruct (toggle_total 1 g W) as [g' E]; [lia|].
    destruct (toggle_inv 1 g g' E) as (I1 & I2 & I3 & I4 & I5 & I6).
    exists g'. split; [done|]. split_and!; auto.
    + unfold Loop.ui_ok. by rewrite I3, I4.
    + unfold Loop.stage_ok. by rewrite I2.
    + unfold Loop.fields_numeric. by rewrite I3.
  - destruct (toggle_total 2 g W) as [g' E]; [lia|].
    destruct (toggle_inv 2 g g' E) as (I1 & I2 & I3 & I4 & I5 & I6).
    exists g'. split; [done|]. split_and!; auto.
    + unfold Loop.ui_ok. by rewrite I3, I4.
    + unfold Loop.stage_ok. by rewrite I2.
    + unfold Loop.fields_numeric. by rewrite I3.
  - (* r *)
    eexists; split; [reflexivity|]. split_and!; auto.
    intros _. apply (reset_game_stage true now rnd g).
Qed.

End MoreKeys.

(** *** Editing a field *)

Lemma length_append s t :
  String.length (String.append s t) = (String.length s + String.length t)%nat.
Proof.
  induction s as [|c s IH]; [done|]. rewrite append_cons. simpl. by rewrite IH.
Qed.

Section MoreEditing.

Variable py_float : string -> option float.
Variable dist_range_px : float.

(** X17.  BACKSPACE takes back the character just typed: after a digit, or a
    point typed into a field without one, it gives the globals as they
    were before the character. *)
Theorem backspace_undoes_typing ev back c now rnd g :
  mode g = chart -> Loop.ui_ok g ->
  Loop.typing (key ev) = true -> unicode ev = String c EmptyString ->
  key back = K_BACKSPACE ->
  Text.is_digit c = true \/
  (c = "."%char /\
   exists v, Py.getitem (values g) (Z.to_nat (active g)) = Some v /\
             Py.contains "." v = false) ->
  exists g1,
    on_key py_float dist_range_px ev now rnd g = Some g1 /\
    g1 <> g /\
    on_key py_float dist_range_px back now rnd g1 = Some g.
Proof.
  intros Hm U Hty Hc Hb Hcase. pose proof (ui_active g U) as Hk.
  destruct (getitem_lt (values g) _ Hk) as [v Hv].
  assert (on_key py_float dist_range_px ev now rnd g
          = type_char (unicode ev) g) as ->.
  { unfold on_key. rewrite Hm. by destruct (key ev). }
  assert (type_char (unicode ev) g
          = Some (set_values
                    (<[Z.to_nat (active g) := String.append v (String c EmptyString)]>
                       (values g)) g)) as ->.
  { unfold type_char. rewrite Hc. cbn [String.eqb negb].
    unfold Py.isdigit. cbn [String.eqb negb andb Py.all_digits].
    change ((48 <=? nat_of_ascii c)%nat && (nat_of_ascii c <=? 57)%nat)
      with (Text.is_digit c).
    destruct Hcase as [Hd|(-> & v' & Hv' & Hp)].
    - rewrite Hd, Hv. simpl. by rewrite setitem_lt.
    - simpl. rewrite Hv in Hv'. injection Hv' as <-.
      rewrite Hv. simpl. rewrite Hp. simpl. by rewrite setitem_lt. }
  eexists. split; [reflexivity|]. split.
  - intros E. apply (f_equal values) in E. simpl in E.
    apply (f_equal (fun l => l !! Z.to_nat (active g))) in E.
    unfold Py.getitem in Hv.
    rewrite list_lookup_insert_eq, Hv in E by done.
    injection E as E. apply (f_equal String.length) in E.
    rewrite length_append in E. simpl in E. lia.
  - unfold on_key. simpl. rewrite Hm, Hb. unfold Py.getitem. simpl.
    rewrite list_lookup_insert_eq by done. simpl.
    rewrite setitem_lt by (by rewrite length_insert). simpl.
    rewrite drop_last_append, list_insert_insert_eq.
    rewrite list_insert_id by done. by destruct g.
Qed.

(** X18.  The arrows undo each other: UP then DOWN, and DOWN then UP, leave the
    active field where it was (going past either end wraps around). *)
Theorem arrows_undo_each_other up down now rnd g :
  mode g = chart -> Loop.ui_ok g ->
  key up = K_UP -> key down = K_DOWN ->
  (on_key py_float dist_range_px up now rnd g
     ≫= on_key py_float dist_range_px down now rnd) = Some g /\
  (on_key py_float dist_range_px down now rnd g
     ≫= on_key py_float dist_range_px up now rnd) = Some g.
Proof.
  intros Hm [Hl Ha] Hu Hd. unfold on_key. rewrite Hm, Hu, Hd. simpl.
  rewrite ?Hm, ?Hu, ?Hd. unfold labels in *. simpl in *.
  assert (active g = 0 \/ active g = 1 \/ active g = 2 \/ active g = 3)
    as Hcase by lia.
  split; f_equal; destruct g as [r c s e m v a t]; simpl in *; f_equal;
    destruct Hcase as [->|[->|[->| ->]]]; reflexivity.
Qed.

(** X19.  TAB in the game does nothing but show the chart.  Whenever the TAB
    that comes back returns (its [reset_game] has to get past line 110),
    the round that was running is dropped for a new one at stage 1 with
    fresh targets, every sensor locked again and the timer started at the
    time of the return, while configuration, enabled flags and the
    smoothing values stay. *)
Theorem chart_visit_restarts tab now1 rnd1 now2 rnd2 g :
  mode g = game -> key tab = K_TAB ->
  on_key py_float dist_range_px tab now1 rnd1 g = Some (set_mode chart g) /\
  forall g2,
    on_key py_float dist_range_px tab now2 rnd2 (set_mode chart g) = Some g2 ->
    mode g2 = game /\ stage (round g2) = 1 /\
    timer_start (round g2) = Some now2 /\ fresh_round rnd2 g2 /\
    final_beat (round g2) = false /\ score (round g2) = 0 /\
    config g2 = config g /\ sensors_enabled g2 = sensors_enabled g /\
    smooth_mm g2 = smooth_mm g.
Proof.
  intros Hm Ht. unfold on_key. rewrite Hm, Ht. simpl. split; [done|].
  intros g2 H. injection H as <-. by split_and!.
Qed.

(** *** The events of a pass, and the pass *)

Lemma events_inv ins g :
  wf g -> Loop.ui_ok g ->
  match Loop.events py_float dist_range_px ins g with
  | Continue g' =>
      wf g' /\ Loop.ui_ok g' /\
      (Loop.stage_ok g -> Loop.stage_ok g') /\
      (Loop.fields_numeric g -> Loop.fields_numeric g')
  | Exit code => code = 0 /\ Exists (fun i => event i = QUIT) ins
  end.
Proof.
  revert g. induction ins as [|i ins IH]; intros g W U; simpl; [done|].
  destruct (event i) as [|ev|] eqn:Ei.
  - split; [done|]. by left.
  - destruct (on_key_inv py_float dist_range_px ev (ev_now i) (ev_rnd i) g W U)
      as (g' & -> & W' & U' & S' & N').
    specialize (IH g' W' U').
    destruct (Loop.events py_float dist_range_px ins g') as [g''|code].
    + destruct IH as (? & ? & ? & ?). split_and!; auto.
    + destruct IH as [? ?]. split; [done|]. by right.
  - specialize (IH g W U).
    destruct (Loop.events py_float dist_range_px ins g) as [g''|code]; [done|].
    destruct IH as [? ?]. split; [done|]. by right.
Qed.

(** X20.  Handling the events of a pass raises nothing as long as no key
    calls [reset_game] from the handler (TAB in the chart, [r] in the
    game), whatever else is pressed and whatever the fields hold: on
    globals in order (three entries per sensor, four fields, [active] in
    0..3) every list access of lines 192-208 is in range, so the handler
    goes through the events and leaves the globals in order, with the
    stage still in 1..3 and fields that held digits with at most one
    point still holding such text; it stops only at a QUIT, with exit
    code 0. *)
Theorem events_never_fail ins g :
  wf g -> Loop.ui_ok g -> Forall Loop.ascii_key ins ->
  Loop.resets (mode g) ins = false ->
  match Loop.events py_float dist_range_px ins g with
  | Continue g' =>
      wf g' /\ Loop.ui_ok g' /\
      (Loop.stage_ok g -> Loop.stage_ok g') /\
      (Loop.fields_numeric g -> Loop.fields_numeric g')
  | Exit code => code = 0 /\ Exists (fun i => event i = QUIT) ins
  end.
Proof. intros W U _ _. by apply events_inv. Qed.

End MoreEditing.

(** *** A frame of the game *)

Lemma finish_keeps now g g' :
  finish now g = Some g' ->
  final_beat (round g') = true /\ stage (round g') = stage (round g) /\
  timer_start (round g') = timer_start (round g) /\
  values g' = values g /\ active g' = active g /\ mode g' = mode g /\
  config g' = config g.
Proof.
  unfold finish. intros H.
  destruct (Py.div _ _) as [q|]; [|done]. simpl in H.
  destruct (Py.int q) as [n|]; [|done]. by injection H as <-.
Qed.

Lemma progress_inv done now rnd g g' :
  progress done now rnd g = Some g' ->
  (wf g -> wf g') /\ (Loop.ui_ok g -> Loop.ui_ok g') /\
  (Loop.stage_ok g -> Loop.stage_ok g') /\
  (Loop.fields_numeric g -> Loop.fields_numeric g') /\ mode g' = mode g.
Proof.
  unfold progress. intros H.
  destruct (negb (final_beat (round g)) && done); [|by injection H as <-].
  destruct (stage (round g) <? max_stage) eqn:Hs.
  - injection H as <-. apply Z.ltb_lt in Hs. split_and!; try done.
    + by intros [].
    + intros [[H1 H2] _]. unfold Loop.stage_ok. simpl. split; [lia|done].
  - apply Z.ltb_ge in Hs.
    destruct (finish_keeps now g g' H) as (F1 & F2 & F3 & F4 & F5 & F6 & F7).
    split_and!; try done.
    + intros W. by destruct (finish_slot now g g' W H).
    + unfold Loop.ui_ok. by rewrite F4, F5.
    + intros [[H1 H2] _]. unfold Loop.stage_ok. rewrite F2. split; [done|].
      intros _. lia.
    + unfold Loop.fields_numeric. by rewrite F4.
Qed.

Lemma game_frame_inv f now rnd g g' :
  wf g -> game_frame f now rnd g = Some g' ->
  wf g' /\ (Loop.ui_ok g -> Loop.ui_ok g') /\
  (Loop.stage_ok g -> Loop.stage_ok g') /\
  mode g' = mode g /\ values g' = values g.
Proof.
  intros W H. unfold game_frame in H.
  destruct (draw_game f g) as [[b g1]|] eqn:E; [|done]. simpl in H.
  destruct (draw_game_same f g b g1 W E) as [F W1].
  destruct (progress_inv b now rnd g1 g' H) as (P1 & P2 & P3 & _ & P5).
  assert (values g' = values g) as Hv.
  { destruct F as [_ _ _ _ _ _ _ _ _ <- _ _]. unfold progress in H.
    destruct (negb (final_beat (round g1)) && b); [|by injection H as <-].
    destruct (stage (round g1) <? max_stage); [by injection H as <-|].
    by destruct (finish_keeps now g1 g' H) as (_ & _ & _ & ? & _). }
  split_and!; auto.
  - intros [Hl Ha]. apply P2. unfold Loop.ui_ok.
    by rewrite (sf_values _ _ F), (sf_active _ _ F).
  - intros [Hs Hf]. apply P3. unfold Loop.stage_ok.
    by rewrite (sf_stage _ _ F), (sf_final_beat _ _ F).
  - rewrite P5. apply (sf_mode _ _ F).
Qed.

(** X21.  Once the last stage is over the result stands: later frames of the
    game change neither [elapsed_time] nor the score, nor the stage, the
    timer or [final_beat]. *)
Theorem result_stands f now rnd g g' :
  wf g -> final_beat (round g) = true ->
  game_frame f now rnd g = Some g' ->
  final_beat (round g') = true /\
  elapsed_time (round g') = elapsed_time (round g) /\
  score (round g') = score (round g) /\
  stage (round g') = stage (round g) /\
  timer_start (round g') = timer_start (round g) /\
  timer_end g' = timer_end g.
Proof.
  intros W Hf H. unfold game_frame in H.
  destruct (draw_game f g) as [[b g1]|] eqn:E; [|done]. simpl in H.
  destruct (draw_game_same f g b g1 W E) as [F _].
  unfold progress in H. rewrite (sf_final_beat _ _ F), Hf in H. simpl in H.
  injection H as <-. rewrite (sf_final_beat _ _ F), Hf. by destruct F.
Qed.

(** X22.  A frame in which a sensor is switched off, or has no reading, does not
    complete the stage, even when the three sensors are unlocked: the
    stage, [final_beat], the targets, the timer and the score are those
    before the frame. *)
Theorem idle_sensor_blocks_the_stage f now rnd g g' i :
  wf g -> (i < 3)%nat ->
  Py.getitem (sensors_enabled g) i = Some false \/ reading f i = None ->
  game_frame f now rnd g = Some g' ->
  stage (round g') = stage (round g) /\
  final_beat (round g') = final_beat (round g) /\
  targets (round g') = targets (round g) /\
  timer_start (round g') = timer_start (round g) /\
  elapsed_time (round g') = elapsed_time (round g) /\
  score (round g') = score (round g).
Proof.
  intros W Hi Hskip H. apply (sample_None f i g Hi W) in Hskip.
  destruct (draw_game_slot f g W) as (b & g1 & E & F & _ & _ & B).
  unfold game_frame in H. rewrite E in H. simpl in H.
  assert (b = false) as ->.
  { destruct b; [|done]. destruct B as [B _].
    destruct (B eq_refl i Hi) as [[r Hr] _]. congruence. }
  unfold progress in H. rewrite andb_false_r in H. injection H as <-.
  by destruct F.
Qed.

(** *** The timer over the passes of the loop *)

Lemma timer_ok_round g g' :
  round g' = round g \/
  (stage (round g') = 1 /\ final_beat (round g') = false) ->
  (Loop.timer_ok g -> Loop.timer_ok g') /\
  (final_beat (round g) = false -> final_beat (round g') = false).
Proof.
  unfold Loop.timer_ok. intros [E|[E1 E2]].
  - by rewrite E.
  - split; [|done]. intros _. split; [done|]. by rewrite E2.
Qed.

Lemma game_frame_timer f now rnd g g' :
  wf g -> game_frame f now rnd g = Some g' -> Loop.timer_ok g ->
  Loop.timer_ok g' /\
  (final_beat (round g) = false -> final_beat (round g') = true ->
   Some (score (round g'))
   = Py.div (DIFFICULTY (config g') * 1000)%float 0.01%float ≫= Py.int).
Proof.
  intros W H [T1 T2]. unfold game_frame in H.
  destruct (draw_game f g) as [[b g1]|] eqn:E; [|done]. simpl in H.
  destruct (draw_game_same f g b g1 W E) as [F _].
  unfold progress in H.
  destruct (negb (final_beat (round g1)) && b) eqn:Hc.
  - destruct (stage (round g1) <? max_stage) eqn:Hs.
    + injection H as <-. split; [by split|]. done.
    + apply Z.ltb_ge in Hs. unfold max_stage in Hs.
      assert (timer_start (round g1) = None) as Ht.
      { rewrite (sf_timer_start _ _ F). apply T1.
        rewrite <- (sf_stage _ _ F). lia. }
      unfold finish in H. simpl in H. rewrite Ht in H.
      change (0 + 0.01)%float with 0.01%float in H.
      unfold Py.div in H. simpl in H.
      destruct (Py.int _) as [n|] eqn:En; [|done]. injection H as <-.
      split.
      * split; simpl; [by rewrite Ht | done].
      * intros _ _. unfold Py.div. simpl. by rewrite En.
  - injection H as <-. split.
    + split.
      * rewrite (sf_stage _ _ F), (sf_timer_start _ _ F). exact T1.
      * rewrite (sf_final_beat _ _ F), (sf_elapsed_time _ _ F). exact T2.
    + rewrite (sf_final_beat _ _ F). congruence.
Qed.

Section MorePass.

Variable py_float : string -> option float.
Variable dist_range_px : float.

Lemma type_char_round c g g' :
  type_char c g = Some g' -> round g' = round g.
Proof.
  unfold type_char. intros H.
  repeat (case_match; simplify_option_eq; try done).
Qed.

Lemma on_key_round ev now rnd g g' :
  on_key py_float dist_range_px ev now rnd g = Some g' ->
  round g' = round g \/
  (stage (round g') = 1 /\ final_beat (round g') = false).
Proof.
  unfold on_key. intros H.
  destruct (key ev), (mode g);
    try (injection H as <-; auto; fail);
    try (left; by apply (type_char_round _ _ _ H));
    try (left; by destruct (toggle_inv _ _ _ H) as (_ & ? & _)).
  - injection H as <-.
    destruct (apply_chart_values_keeps py_float dist_range_px now rnd g)
      as (_ & _ & _ & _ & _ & _ & [Hr|Hr]); [by left|].
    right. by rewrite Hr.
  - left. by simplify_option_eq.
Qed.

Lemma events_timer ins : forall g g',
  Loop.events py_float dist_range_px ins g = Continue g' ->
  (Loop.timer_ok g -> Loop.timer_ok g') /\
  (final_beat (round g) = false -> final_beat (round g') = false).
Proof.
  induction ins as [|i ins IH]; intros g g' H; simpl in H.
  - by injection H as <-.
  - destruct (event i) as [|ev|]; [done| |by apply IH].
    destruct (on_key py_float dist_range_px ev (ev_now i) (ev_rnd i) g)
      as [g1|] eqn:E; [|done].
    destruct (timer_ok_round g g1 (on_key_round _ _ _ _ _ E)) as [A1 A2].
    destruct (IH g1 g' H) as [B1 B2]. split; auto.
Qed.

Lemma pass_inv ins f now rnd g g' :
  wf g -> Loop.ui_ok g ->
  Loop.pass py_float dist_range_px ins f now rnd g = Continue g' ->
  wf g' /\ Loop.ui_ok g' /\
  (Loop.stage_ok g -> Loop.stage_ok g') /\
  (Loop.fields_numeric g -> Loop.fields_numeric g') /\
  (Loop.timer_ok g -> Loop.timer_ok g') /\
  (Loop.timer_ok g -> final_beat (round g) = false ->
   final_beat (round g') = true ->
   Some (score (round g'))
   = Py.div (DIFFICULTY (config g') * 1000)%float 0.01%float ≫= Py.int).
Proof.
  intros W U H. unfold Loop.pass in H.
  pose proof (events_inv py_float dist_range_px ins g W U) as He.
  pose proof (events_timer ins g) as Ht.
  destruct (Loop.events py_float dist_range_px ins g) as [g1|code]; [|done].
  destruct He as (W1 & U1 & S1 & N1). destruct (Ht g1 eq_refl) as [T1 B1].
  destruct (mode g1).
  - destruct (Loop.draw_chart g1); [|done]. injection H as <-.
    split_and!; auto. intros _ Hf Hf'. rewrite (B1 Hf) in Hf'. done.
  - destruct (game_frame f now rnd g1) as [g2|] eqn:E; [|done].
    injection H as <-.
    destruct (game_frame_inv f now rnd g1 g2 W1 E) as (W2 & U2 & S2 & _ & Hv).
    split_and!; auto.
    + unfold Loop.fields_numeric. rewrite Hv. by apply N1.
    + intros T. by apply (game_frame_timer f now rnd g1 g2 W1 E (T1 T)).
    + intros T Hf. by apply (game_frame_timer f now rnd g1 g2 W1 E (T1 T)), B1.
Qed.

Lemma loop_inv ps : forall g g',
  wf g -> Loop.ui_ok g ->
  Loop.loop py_float dist_range_px ps g = Continue g' ->
  wf g' /\ Loop.ui_ok g' /\
  (Loop.stage_ok g -> Loop.stage_ok g') /\
  (Loop.fields_numeric g -> Loop.fields_numeric g') /\
  (Loop.timer_ok g -> Loop.timer_ok g').
Proof.
  induction ps as [|p ps IH]; intros g g' W U H; simpl in H.
  - injection H as <-. by split_and!.
  - destruct (Loop.pass py_float dist_range_px _ _ _ _ g) as [g1|] eqn:E; [|done].
    destruct (pass_inv _ _ _ _ g g1 W U E) as (W1 & U1 & S1 & N1 & T1 & _).
    destruct (IH g1 g' W1 U1 H) as (W2 & U2 & S2 & N2 & T2).
    split_and!; auto.
Qed.

(** X23.  However long the loop runs, the globals stay in order: three entries
    per sensor, four fields with [active] on one of them, the stage in
    1..3 with [final_beat] only on the last stage, and fields that hold
    digits with at most one point.  (Rendering is left out: a pass the
    renderer aborts ends the loop.) *)
Theorem loop_keeps_order ps g g' :
  wf g -> Loop.ui_ok g -> Loop.stage_ok g -> Loop.fields_numeric g ->
  Loop.ascii_keys ps ->
  Loop.loop py_float dist_range_px ps g = Continue g' ->
  wf g' /\ Loop.ui_ok g' /\ Loop.stage_ok g' /\ Loop.fields_numeric g'.
Proof.
  intros W U S N _ H.
  destruct (loop_inv ps g g' W U H) as (W' & U' & S' & N' & _).
  split_and!; auto.
Qed.

(** X24.  The time of a finished game is always zero.  From globals on which
    the timer runs on stage 1 only and no finished game shows a time
    (those of line 113, for one), however the loop runs - keys, chart,
    restarts -, the timer is unset on stages 2 and 3, so a game that is
    over has [elapsed_time] zero; and in the pass that ends the game the
    score is [int(DIFFICULTY * 1000 / 0.01)], whatever time the stages
    took. *)
Theorem finished_game_shows_no_time ps g g1 :
  wf g -> Loop.ui_ok g -> Loop.timer_ok g -> Loop.ascii_keys ps ->
  Loop.loop py_float dist_range_px ps g = Continue g1 ->
  (stage (round g1) <> 1 -> timer_start (round g1) = None) /\
  (final_beat (round g1) = true -> elapsed_time (round g1) = 0%float) /\
  (forall p g2,
     Forall Loop.ascii_key (p_events p) ->
     final_beat (round g1) = false ->
     Loop.pass py_float dist_range_px
       (p_events p) (p_frame p) (p_now p) (p_rnd p) g1 = Continue g2 ->
     final_beat (round g2) = true ->
     Some (score (round g2))
     = Py.div (DIFFICULTY (config g2) * 1000)%float 0.01%float ≫= Py.int).
Proof.
  intros W U T _ H.
  destruct (loop_inv ps g g1 W U H) as (W1 & U1 & _ & _ & T1).
  destruct (T1 T) as [A B]. split; [done|]. split; [done|].
  intros p g2 _ Hf E Hf'.
  destruct (pass_inv _ _ _ _ g1 g2 W1 U1 E) as (_ & _ & _ & _ & _ & Hs).
  by apply Hs; [apply T1| |].
Qed.

End MorePass.

(** ** The further properties on concrete inputs *)

Lemma wf_g0 : wf Ex.g0.
Proof. split; reflexivity. Defined.

Lemma wf_chart : wf Ex2.g_chart.
Proof. split; reflexivity. Defined.

Lemma ui_chart : Loop.ui_ok Ex2.g_chart.
Proof. split; [reflexivity|]. split; [discriminate | reflexivity]. Defined.

Lemma stage_chart : Loop.stage_ok Ex2.g_chart.
Proof. split; [split; discriminate|]. discriminate. Defined.

Lemma numeric_chart : Loop.fields_numeric Ex2.g_chart.
Proof. repeat constructor. Defined.

Lemma timer_chart : Loop.timer_ok Ex2.g_chart.
Proof. split; [intros H; exfalso; apply H; reflexivity | discriminate]. Defined.

Lemma ascii_whole_game : Loop.ascii_keys Ex2.whole_game.
Proof.
  unfold Loop.ascii_keys, Ex2.whole_game.
  repeat first [apply Forall_nil | apply Forall_cons; split]; reflexivity.
Defined.

Lemma blank_line_witness :
  Sensors.reader_step Py.float_of_decimal (Line Ex2.cr_lf 100) Ex.old_feed
  = Ex.old_feed.
Proof. apply blank_line_ignored. reflexivity. Defined.

Lemma surrounding_space_witness :
  Sensors.reader_step Py.float_of_decimal
    (Line (String.append " " (String.append "1,12.5" Ex2.cr_lf)) 100) Ex.old_feed
  = Sensors.reader_step Py.float_of_decimal (Line "1,12.5" 100) Ex.old_feed.
Proof. apply surrounding_space_ignored; reflexivity. Defined.

Lemma high_byte_witness :
  Sensors.reader_step Py.float_of_decimal
    (Line (String.append "1," (String "255" "12.5")) 100) Ex.old_feed
  = Sensors.reader_step Py.float_of_decimal
      (Line (String.append "1," "12.5") 100) Ex.old_feed.
Proof. apply high_byte_ignored. vm_compute. lia. Defined.

Lemma other_sensors_witness :
  Sensors.read_distance
    (Sensors.reader_step Py.float_of_decimal (Line "2,7" 1) Ex.old_feed) 0 2 1
  = Sensors.read_distance Ex.old_feed 0 2 1.
Proof.
  apply (frame_leaves_other_sensors Py.float_of_decimal "2,7" 1 7 Ex.old_feed 0 1).
  - exists "7"%string. split; vm_compute; reflexivity.
  - lia.
Defined.

Lemma commute_witness :
  Sensors.reader_step Py.float_of_decimal (Line "1,10" 1)
    (Sensors.reader_step Py.float_of_decimal (Line "2,7" 2) Sensors.init)
  = Sensors.reader_step Py.float_of_decimal (Line "2,7" 2)
      (Sensors.reader_step Py.float_of_decimal (Line "1,10" 1) Sensors.init).
Proof.
  apply reader_steps_commute.
  intros sid (cm & val & Hp & _) (cm' & val' & Hp' & _).
  vm_compute in Hp. vm_compute in Hp'. congruence.
Defined.

Lemma keeps_globals_witness :
  score (round (Ex.drawn (Ex.on_target 100) Ex.g0).2) = score (round Ex.g0) /\
  wf (Ex.drawn (Ex.on_target 100) Ex.g0).2.
Proof.
  destruct (draw_game_keeps_globals (Ex.on_target 100) Ex.g0
              (Ex.drawn (Ex.on_target 100) Ex.g0).1
              (Ex.drawn (Ex.on_target 100) Ex.g0).2)
    as (_ & _ & _ & H & _ & _ & _ & _ & _ & _ & _ & _ & W).
  - exact wf_g0.
  - vm_compute. reflexivity.
  - split; [exact H | exact W].
Defined.

Lemma smoothing_witness :
  Py.getitem (smooth_mm (Ex.drawn (Ex.on_target 100) Ex.g0).2) 0
  = Some match sample (Ex.on_target 100) 0 Ex.g0 with
         | Some r => (0 + (r - 0) * Py.min 1 (alpha * 0.015625))%float
         | None => 0%float
         end.
Proof.
  apply (smoothing_follows_every_sample (Ex.on_target 100) Ex.g0
           (Ex.drawn (Ex.on_target 100) Ex.g0).1).
  - exact wf_g0.
  - lia.
  - vm_compute. reflexivity.
  - reflexivity.
Defined.

Lemma hold_clock_witness :
  Py.getitem (lock_start (round (Ex.drawn (Ex.on_target 100) Ex.g0).2)) 0
  = Some (Some 100%float).
Proof.
  apply (hold_clock_starts (Ex.on_target 100) Ex.g0
           (Ex.drawn (Ex.on_target 100) Ex.g0).1 _ 0%nat 300).
  - exact wf_g0.
  - lia.
  - vm_compute. reflexivity.
  - reflexivity.
  - reflexivity.
  - vm_compute. reflexivity.
  - exists 300%float. split; vm_compute; reflexivity.
Defined.

Lemma hold_completes_witness :
  let g := Ex.after (run [Draw (Ex.on_target 100)] Ex.g0) in
  Py.getitem (unlocked (round (Ex.drawn (Ex.on_target 103) g).2)) 0 = Some true.
Proof.
  intros g.
  apply (hold_completes (Ex.on_target 103) g
           (Ex.drawn (Ex.on_target 103) g).1 _ 0%nat 300 100).
  - split; reflexivity.
  - lia.
  - vm_compute. reflexivity.
  - vm_compute. reflexivity.
  - vm_compute. reflexivity.
  - vm_compute. reflexivity.
  - vm_compute. reflexivity.
  - exists 300%float. split; vm_compute; reflexivity.
  - vm_compute. reflexivity.
Defined.

Lemma unlocked_witness :
  Py.getitem
    (unlocked (round (Ex.after (run [Draw (Ex.off_target 105)] Ex.g_all)))) 0
  = Some true.
Proof.
  apply (unlocked_for_the_round [Draw (Ex.off_target 105)] Ex.g_all).
  - split; reflexivity.
  - lia.
  - vm_compute. reflexivity.
  - reflexivity.
Defined.

Lemma display_witness :
  exists d target u,
    display 0 (Ex.after (run [Draw (Ex.on_target 100)] Ex.g0))
    = Some (Some d, target, u).
Proof.
  destruct (display_is_a_distance Ex.gp 1 true 100 Ex.rnd
              [Draw (Ex.on_target 100)]
              (Ex.after (run [Draw (Ex.on_target 100)] Ex.g0)) 0%nat)
    as (d & target & u & H & _).
  - exact wf_gp.
  - lia.
  - vm_compute. reflexivity.
  - exists d, target, u. exact H.
Defined.

Lemma idle_sensor_witness :
  stage (round (Ex.after (game_frame (Ex.on_target 103) 103 Ex.rnd Ex.g_off)))
  = stage (round Ex.g_off).
Proof.
  apply (idle_sensor_blocks_the_stage (Ex.on_target 103) 103 Ex.rnd Ex.g_off
           _ 0%nat).
  - split; reflexivity.
  - lia.
  - left. reflexivity.
  - vm_compute. reflexivity.
Defined.

Lemma toggle_twice_witness :
  toggle 0 (Ex.after (toggle 0 Ex.g0)) = Some Ex.g0.
Proof. apply toggle_twice. vm_compute. reflexivity. Defined.

Lemma apply_partial_witness :
  let g' := apply_chart_values Py.float_of_decimal Ex2.px 100 Ex.rnd
              Ex2.g_rod_zero in
  max_mm (config g') = 0%float /\
  PX_PER_MM (config g') = PX_PER_MM (config Ex2.g_rod_zero) /\
  round g' = round Ex2.g_rod_zero.
Proof.
  apply (apply_chart_values_partial Py.float_of_decimal Ex2.px 100 Ex.rnd
           Ex2.g_rod_zero).
  right. right. right. reflexivity.
Defined.

Lemma backspace_witness :
  exists g1,
    on_key Py.float_of_decimal Ex2.px Ex2.one_key 100 Ex.rnd Ex2.g_chart = Some g1 /\
    g1 <> Ex2.g_chart /\
    on_key Py.float_of_decimal Ex2.px Ex2.back_key 100 Ex.rnd g1 = Some Ex2.g_chart.
Proof.
  apply (backspace_undoes_typing Py.float_of_decimal Ex2.px Ex2.one_key
           Ex2.back_key "1"%char 100 Ex.rnd Ex2.g_chart).
  - reflexivity.
  - exact ui_chart.
  - reflexivity.
  - reflexivity.
  - reflexivity.
  - left. reflexivity.
Defined.

Lemma arrows_witness :
  (on_key Py.float_of_decimal Ex2.px Ex2.up_key 100 Ex.rnd Ex2.g_chart
     ≫= on_key Py.float_of_decimal Ex2.px Ex2.down_key 100 Ex.rnd)
  = Some Ex2.g_chart.
Proof.
  apply (arrows_undo_each_other Py.float_of_decimal Ex2.px Ex2.up_key
           Ex2.down_key 100 Ex.rnd Ex2.g_chart).
  - reflexivity.
  - exact ui_chart.
  - reflexivity.
  - reflexivity.
Defined.

Lemma chart_visit_witness :
  let g2 := Ex.after (on_key Py.float_of_decimal Ex2.px Ex2.tab_key 250 Ex.rnd
                        (set_mode chart Ex.g_all)) in
  unlocked (round g2) = [false; false; false] /\
  timer_start (round g2) = Some 250%float.
Proof.
  intros g2.
  destruct (chart_visit_restarts Py.float_of_decimal Ex2.px Ex2.tab_key
              200 Ex.rnd 250 Ex.rnd Ex.g_all) as [_ H].
  - reflexivity.
  - reflexivity.
  - destruct (H g2) as (_ & _ & Ht & (_ & Hu & _) & _).
    + vm_compute. reflexivity.
    + split; [exact Hu | exact Ht].
Defined.

Lemma events_witness :
  match Loop.events Py.float_of_decimal Ex2.px
          [Ex2.press Ex2.one_key; Ex2.press Ex2.back_key; Ex2.press Ex2.up_key]
          Ex2.g_chart with
  | Continue g' => wf g' /\ Loop.ui_ok g'
  | Exit code => code = 0
  end.
Proof.
  pose proof (events_never_fail Py.float_of_decimal Ex2.px
                [Ex2.press Ex2.one_key; Ex2.press Ex2.back_key;
                 Ex2.press Ex2.up_key] Ex2.g_chart
                wf_chart ui_chart) as H.
  destruct (Loop.events _ _ _ _) as [g'|code].
  - destruct H as (W & U & _); [|reflexivity|auto].
    repeat first [apply Forall_nil | apply Forall_cons; split]; reflexivity.
  - destruct H as [H _]; [|reflexivity|exact H].
    repeat first [apply Forall_nil | apply Forall_cons; split]; reflexivity.
Defined.

Lemma result_stands_witness :
  score (round (Ex.after (game_frame (Ex.on_target 106) 106 Ex.rnd Ex2.g_done)))
  = score (round Ex2.g_done).
Proof.
  apply (result_stands (Ex.on_target 106) 106 Ex.rnd Ex2.g_done).
  - split; reflexivity.
  - reflexivity.
  - vm_compute. reflexivity.
Defined.

Lemma loop_witness :
  Loop.stage_ok
    (Ex2.going (Loop.loop Py.float_of_decimal Ex2.px Ex2.whole_game Ex2.g_chart)).
Proof.
  apply (loop_keeps_order Py.float_of_decimal Ex2.px Ex2.whole_game Ex2.g_chart).
  - exact wf_chart.
  - exact ui_chart.
  - exact stage_chart.
  - exact numeric_chart.
  - exact ascii_whole_game.
  - vm_compute. reflexivity.
Defined.

Lemma finished_game_witness :
  let g := Ex2.going (Loop.loop Py.float_of_decimal Ex2.px Ex2.whole_game
                        Ex2.g_chart) in
  final_beat (round g) = true /\ elapsed_time (round g) = 0%float.
Proof.
  intros g. split; [vm_compute; reflexivity|].
  destruct (finished_game_shows_no_time Py.float_of_decimal Ex2.px
              Ex2.whole_game Ex2.g_chart g) as (_ & H & _).
  - exact wf_chart.
  - exact ui_chart.
  - exact timer_chart.
  - exact ascii_whole_game.
  - vm_compute. reflexivity.
  - apply H. vm_compute. reflexivity.
Defined.
